(** * The mesh radio driver of codal-microbit-v2: frame queue, sequence
      filter, idle dispatch and the datagram service.

    The development embeds [MicroBitMeshRadio] (inc/MicroBitMeshRadio.h and
    its implementation file) and [MicroBitMeshRadioDatagram]
    (source/MicroBitMeshRadioDatagram.cpp).  Frame buffers live in a store
    indexed by addresses, the queues are chains of [next] links inside that
    store, and every function threads the whole machine state. *)

From Stdlib Require Import ZArith List Lia Bool.
From stdpp Require Import base option list gmap.
Import ListNotations.
Local Open Scope Z_scope.

(** ** Outcomes of running a piece of the driver *)

(** [Ok a]: the call returns [a].  [Undefined]: the call has no defined
    outcome: it dereferences NULL or a released buffer, releases a buffer
    twice, copies past the end of an array, or its [new] finds no memory.
    [OutOfFuel]: a loop has not finished within the given number of tests
    of its condition. *)
Inductive result (A : Type) : Type :=
| Ok (a : A)
| Undefined
| OutOfFuel.
Arguments Ok {A} a.
Arguments Undefined {A}.
Arguments OutOfFuel {A}.

Definition rbind {A B : Type} (m : result A) (k : A -> result B) : result B :=
  match m with
  | Ok a => k a
  | Undefined => Undefined
  | OutOfFuel => OutOfFuel
  end.

#[global] Instance result_bind : MBind result := fun A B k m => rbind m k.
#[global] Instance result_ret : MRet result := @Ok.

(** ** Machine integers *)

(** Storing an [int] into a [uint8_t] field keeps the low eight bits. *)
Definition uint8_t (z : Z) : Z := z mod 256.

(** The conversion of an [int] to [size_t] on the 32-bit target. *)
Definition size_t (z : Z) : Z := z mod 2 ^ 32.

(** codal's [min] on [int]. *)
Definition min (a b : Z) : Z := if a <? b then a else b.

(** [memcpy dst src n] on arrays held as lists: the first [n] cells of
    [dst] are replaced by the first [n] cells of [src].  The size arrives
    as a [size_t]; a copy that runs past the end of either array has no
    defined outcome. *)
Definition memcpy (dst src : list Z) (n : Z) : result (list Z) :=
  let k := size_t n in
  if (k <=? Z.of_nat (length src)) && (k <=? Z.of_nat (length dst))
  then Ok (firstn (Z.to_nat k) src ++ skipn (Z.to_nat k) dst)
  else Undefined.

(** [memcpy(v.field, src, n)] where the array [field] is a member of a
    variable [v] that has [room] more bytes behind the member.  A copy
    that runs past the end of the member but not past the end of the
    variable stays inside the variable: the member ends up holding the
    first bytes of [src], and the rest lands on what lies behind it.  A
    copy that runs past the end of [src] or of the variable has no
    defined outcome.  The result is the member after the copy. *)
Definition memcpy_field (field : list Z) (room : Z) (src : list Z) (n : Z)
  : result (list Z) :=
  let k := size_t n in
  if (k <=? Z.of_nat (length src)) && (k <=? Z.of_nat (length field) + room)
  then Ok (firstn (length field) (firstn (Z.to_nat k) src ++ skipn (Z.to_nat k) field))
  else Undefined.

(** An [int] after an arithmetic step.  The [int] of the target has 32
    bits; a result outside its range wraps around there. *)
Definition int32_t (z : Z) : Z := (z + 2 ^ 31) mod 2 ^ 32 - 2 ^ 31.

(** ** Constants *)

(** Error numbers of codal-core (ErrorNo.h). *)
Definition DEVICE_OK : Z := 0.
Definition DEVICE_INVALID_PARAMETER : Z := -1001.
Definition DEVICE_NOT_SUPPORTED : Z := -1002.
Definition DEVICE_NO_RESOURCES : Z := -1005.

(** inc/MicroBitMeshRadio.h *)
Definition MICROBIT_MESH_RADIO_DEFAULT_GROUP : Z := 0.
Definition MICROBIT_MESH_RADIO_DEFAULT_TX_POWER : Z := 6.
Definition MICROBIT_MESH_RADIO_DEFAULT_FREQUENCY : Z := 8.
Definition MICROBIT_MESH_RADIO_HEADER_SIZE : Z := 4.
Definition MICROBIT_MESH_RADIO_MAXIMUM_RX_BUFFERS : Z := 4.
Definition MICROBIT_MESH_RADIO_PROTOCOL_DATAGRAM : Z := 1.
Definition MICROBIT_MESH_RADIO_EVT_DATAGRAM : Z := 1.

(** Modelled from the spec: [MICROBIT_RADIO_MAXIMUM_RX_BUFFERS] is declared
    in MicroBitRadio.h, which is not among the sources; the queue bound is
    "4 in the reference configuration". *)
Definition MICROBIT_RADIO_MAXIMUM_RX_BUFFERS : Z := 4.

(** Modelled from the spec: declared in MicroBitRadio.h; "Protocol
    identifiers: 1 = datagram". *)
Definition MICROBIT_RADIO_PROTOCOL_DATAGRAM : Z := 1.

(** Modelled from the spec: declared in MicroBitRadio.h; "2 = event-bus". *)
Definition MICROBIT_RADIO_PROTOCOL_EVENTBUS : Z := 2.

(** Modelled from the spec: declared in MicroBitRadio.h; the "declared
    header size constant", with the value of its MESH twin above. *)
Definition MICROBIT_RADIO_HEADER_SIZE : Z := 4.

(** Modelled from the spec: declared in MicroBitRadio.h; the bit of the
    "initialized" lifecycle flag, the one of
    MICROBIT_MESH_RADIO_STATUS_INITIALISED in MicroBitMeshRadio.h. *)
Definition MICROBIT_RADIO_STATUS_INITIALISED : Z := 1.

(** codal-core, CodalComponent.h *)
Definition DEVICE_COMPONENT_STATUS_IDLE_TICK : Z := 8192.

(** nrf52 register masks (bits 2, 3 and 4 of RADIO SHORTS). *)
Definition RADIO_SHORTS_DISABLED_TXEN_Msk : Z := 4.
Definition RADIO_SHORTS_DISABLED_RXEN_Msk : Z := 8.
Definition RADIO_SHORTS_ADDRESS_RSSISTART_Msk : Z := 16.

(** ** Data model *)

Module SequencedFrameBuffer.
Record t : Type := Build {
  length : Z;                 (* uint8_t *)
  version : Z;                (* uint8_t *)
  group : Z;                  (* uint8_t *)
  protocol : Z;               (* uint8_t *)
  seqNo : Z;                  (* uint8_t *)
  payload : list Z;           (* uint8_t [MICROBIT_RADIO_MAX_PACKET_SIZE] *)
  next : option positive;     (* SequencedFrameBuffer *, None is NULL *)
  rssi : Z                    (* int *)
}.
Definition set_length (v : Z) (f : t) : t :=
  Build v (version f) (group f) (protocol f) (seqNo f) (payload f) (next f) (rssi f).
Definition set_version (v : Z) (f : t) : t :=
  Build (length f) v (group f) (protocol f) (seqNo f) (payload f) (next f) (rssi f).
Definition set_group (v : Z) (f : t) : t :=
  Build (length f) (version f) v (protocol f) (seqNo f) (payload f) (next f) (rssi f).
Definition set_protocol (v : Z) (f : t) : t :=
  Build (length f) (version f) (group f) v (seqNo f) (payload f) (next f) (rssi f).
Definition set_seqNo (v : Z) (f : t) : t :=
  Build (length f) (version f) (group f) (protocol f) v (payload f) (next f) (rssi f).
Definition set_payload (v : list Z) (f : t) : t :=
  Build (length f) (version f) (group f) (protocol f) (seqNo f) v (next f) (rssi f).
Definition set_next (v : option positive) (f : t) : t :=
  Build (length f) (version f) (group f) (protocol f) (seqNo f) (payload f) v (rssi f).
Definition set_rssi (v : Z) (f : t) : t :=
  Build (length f) (version f) (group f) (protocol f) (seqNo f) (payload f) (next f) v.
End SequencedFrameBuffer.
Abbreviation frame := SequencedFrameBuffer.t.

(** The bytes a [SequencedFrameBuffer] has behind its [payload]: the link
    and the RSSI, a pointer and an [int] of four bytes each on the
    target (an alignment gap before them apart). *)
Definition SequencedFrameBuffer_behind_payload : Z := 8.

(** What a [SequencedFrameBuffer *] handed in by a caller points to: a
    frame of the store, or a frame outside it (a variable of the caller,
    as the local of the datagram service's [send]). *)
Inductive frame_pointer : Type :=
| in_store (p : positive)
| outside_store (f : frame).

Module MicroBitMeshRadio.
Record t : Type := Build {
  status : Z;                 (* CodalComponent::status, uint16_t *)
  band : Z;                   (* uint8_t *)
  power : Z;                  (* uint8_t *)
  group : Z;                  (* uint8_t *)
  queueDepth : Z;             (* uint8_t *)
  rssi : Z;                   (* int *)
  rxQueue : option positive;  (* SequencedFrameBuffer * *)
  rxBuf : option positive;    (* SequencedFrameBuffer * *)
  blockTransmit : bool;
  currentSeqNo : Z            (* int *)
}.
Definition set_status (v : Z) (r : t) : t :=
  Build v (band r) (power r) (group r) (queueDepth r) (rssi r) (rxQueue r) (rxBuf r)
    (blockTransmit r) (currentSeqNo r).
Definition set_group (v : Z) (r : t) : t :=
  Build (status r) (band r) (power r) v (queueDepth r) (rssi r) (rxQueue r) (rxBuf r)
    (blockTransmit r) (currentSeqNo r).
Definition set_queueDepth (v : Z) (r : t) : t :=
  Build (status r) (band r) (power r) (group r) v (rssi r) (rxQueue r) (rxBuf r)
    (blockTransmit r) (currentSeqNo r).
Definition set_rssi (v : Z) (r : t) : t :=
  Build (status r) (band r) (power r) (group r) (queueDepth r) v (rxQueue r) (rxBuf r)
    (blockTransmit r) (currentSeqNo r).
Definition set_rxQueue (v : option positive) (r : t) : t :=
  Build (status r) (band r) (power r) (group r) (queueDepth r) (rssi r) v (rxBuf r)
    (blockTransmit r) (currentSeqNo r).
Definition set_rxBuf (v : option positive) (r : t) : t :=
  Build (status r) (band r) (power r) (group r) (queueDepth r) (rssi r) (rxQueue r) v
    (blockTransmit r) (currentSeqNo r).
Definition set_blockTransmit (v : bool) (r : t) : t :=
  Build (status r) (band r) (power r) (group r) (queueDepth r) (rssi r) (rxQueue r) (rxBuf r)
    v (currentSeqNo r).
Definition set_currentSeqNo (v : Z) (r : t) : t :=
  Build (status r) (band r) (power r) (group r) (queueDepth r) (rssi r) (rxQueue r) (rxBuf r)
    (blockTransmit r) v.
End MicroBitMeshRadio.

Module MicroBitMeshRadioDatagram.
Record t : Type := Build {
  rxQueue : option positive   (* SequencedFrameBuffer * *)
}.
End MicroBitMeshRadioDatagram.

(** ** Peripherals and environment *)

(** Task registers are write-only triggers; the model keeps the log of the
    tasks triggered on the radio and on TIMER0. *)
Inductive Task : Type :=
| RADIO_TASKS_START
| RADIO_TASKS_DISABLE
| RADIO_TASKS_TXEN
| RADIO_TASKS_RXEN
| TIMER0_TASKS_START
| TIMER0_TASKS_STOP
| TIMER0_TASKS_CLEAR.

(** The registers the modelled code reads or writes.  Configuration
    registers that are only written (TXPOWER, FREQUENCY, MODE, PCNF, CRC,
    clock and priority settings) are left out. *)
Module NRF.
Record t : Type := Build {
  RADIO_EVENTS_END : Z;               (* NRF_RADIO->EVENTS_END *)
  RADIO_EVENTS_TXREADY : Z;           (* NRF_RADIO->EVENTS_TXREADY *)
  RADIO_EVENTS_RXREADY : Z;           (* NRF_RADIO->EVENTS_RXREADY *)
  RADIO_CRCSTATUS : Z;                (* NRF_RADIO->CRCSTATUS *)
  RADIO_RSSISAMPLE : Z;               (* NRF_RADIO->RSSISAMPLE *)
  RADIO_SHORTS : Z;                   (* NRF_RADIO->SHORTS *)
  RADIO_PACKETPTR : option positive;  (* NRF_RADIO->PACKETPTR *)
  RADIO_PREFIX0 : Z;                  (* NRF_RADIO->PREFIX0 *)
  TIMER0_EVENTS_COMPARE0 : Z;         (* NRF_TIMER0->EVENTS_COMPARE[0] *)
  RADIO_IRQ : bool;                   (* NVIC enable bit of RADIO_IRQn *)
  tasks : list Task                   (* tasks triggered so far, oldest first *)
}.
Definition set_RADIO_EVENTS_END (v : Z) (r : t) : t :=
  Build v (RADIO_EVENTS_TXREADY r) (RADIO_EVENTS_RXREADY r) (RADIO_CRCSTATUS r) (RADIO_RSSISAMPLE r)
    (RADIO_SHORTS r) (RADIO_PACKETPTR r) (RADIO_PREFIX0 r) (TIMER0_EVENTS_COMPARE0 r) (RADIO_IRQ r) (tasks r).
Definition set_RADIO_EVENTS_TXREADY (v : Z) (r : t) : t :=
  Build (RADIO_EVENTS_END r) v (RADIO_EVENTS_RXREADY r) (RADIO_CRCSTATUS r) (RADIO_RSSISAMPLE r)
    (RADIO_SHORTS r) (RADIO_PACKETPTR r) (RADIO_PREFIX0 r) (TIMER0_EVENTS_COMPARE0 r) (RADIO_IRQ r) (tasks r).
Definition set_RADIO_EVENTS_RXREADY (v : Z) (r : t) : t :=
  Build (RADIO_EVENTS_END r) (RADIO_EVENTS_TXREADY r) v (RADIO_CRCSTATUS r) (RADIO_RSSISAMPLE r)
    (RADIO_SHORTS r) (RADIO_PACKETPTR r) (RADIO_PREFIX0 r) (TIMER0_EVENTS_COMPARE0 r) (RADIO_IRQ r) (tasks r).
Definition set_RADIO_CRCSTATUS (v : Z) (r : t) : t :=
  Build (RADIO_EVENTS_END r) (RADIO_EVENTS_TXREADY r) (RADIO_EVENTS_RXREADY r) v (RADIO_RSSISAMPLE r)
    (RADIO_SHORTS r) (RADIO_PACKETPTR r) (RADIO_PREFIX0 r) (TIMER0_EVENTS_COMPARE0 r) (RADIO_IRQ r) (tasks r).
Definition set_RADIO_RSSISAMPLE (v : Z) (r : t) : t :=
  Build (RADIO_EVENTS_END r) (RADIO_EVENTS_TXREADY r) (RADIO_EVENTS_RXREADY r) (RADIO_CRCSTATUS r) v
    (RADIO_SHORTS r) (RADIO_PACKETPTR r) (RADIO_PREFIX0 r) (TIMER0_EVENTS_COMPARE0 r) (RADIO_IRQ r) (tasks r).
Definition set_RADIO_SHORTS (v : Z) (r : t) : t :=
  Build (RADIO_EVENTS_END r) (RADIO_EVENTS_TXREADY r) (RADIO_EVENTS_RXREADY r) (RADIO_CRCSTATUS r) (RADIO_RSSISAMPLE r)
    v (RADIO_PACKETPTR r) (RADIO_PREFIX0 r) (TIMER0_EVENTS_COMPARE0 r) (RADIO_IRQ r) (tasks r).
Definition set_RADIO_PACKETPTR (v : option positive) (r : t) : t :=
  Build (RADIO_EVENTS_END r) (RADIO_EVENTS_TXREADY r) (RADIO_EVENTS_RXREADY r) (RADIO_CRCSTATUS r) (RADIO_RSSISAMPLE r)
    (RADIO_SHORTS r) v (RADIO_PREFIX0 r) (TIMER0_EVENTS_COMPARE0 r) (RADIO_IRQ r) (tasks r).
Definition set_RADIO_PREFIX0 (v : Z) (r : t) : t :=
  Build (RADIO_EVENTS_END r) (RADIO_EVENTS_TXREADY r) (RADIO_EVENTS_RXREADY r) (RADIO_CRCSTATUS r) (RADIO_RSSISAMPLE r)
    (RADIO_SHORTS r) (RADIO_PACKETPTR r) v (TIMER0_EVENTS_COMPARE0 r) (RADIO_IRQ r) (tasks r).
Definition set_TIMER0_EVENTS_COMPARE0 (v : Z) (r : t) : t :=
  Build (RADIO_EVENTS_END r) (RADIO_EVENTS_TXREADY r) (RADIO_EVENTS_RXREADY r) (RADIO_CRCSTATUS r) (RADIO_RSSISAMPLE r)
    (RADIO_SHORTS r) (RADIO_PACKETPTR r) (RADIO_PREFIX0 r) v (RADIO_IRQ r) (tasks r).
Definition set_RADIO_IRQ (v : bool) (r : t) : t :=
  Build (RADIO_EVENTS_END r) (RADIO_EVENTS_TXREADY r) (RADIO_EVENTS_RXREADY r) (RADIO_CRCSTATUS r) (RADIO_RSSISAMPLE r)
    (RADIO_SHORTS r) (RADIO_PACKETPTR r) (RADIO_PREFIX0 r) (TIMER0_EVENTS_COMPARE0 r) v (tasks r).
Definition set_tasks (v : list Task) (r : t) : t :=
  Build (RADIO_EVENTS_END r) (RADIO_EVENTS_TXREADY r) (RADIO_EVENTS_RXREADY r) (RADIO_CRCSTATUS r) (RADIO_RSSISAMPLE r)
    (RADIO_SHORTS r) (RADIO_PACKETPTR r) (RADIO_PREFIX0 r) (TIMER0_EVENTS_COMPARE0 r) (RADIO_IRQ r) v.
End NRF.

(** Component ids of the two events the driver fires. *)
Inductive EventSource : Type :=
| DEVICE_ID_RADIO
| DEVICE_ID_RADIO_DATA_READY.

(** [Event(source, value)]: constructing it fires it on the message bus. *)
Definition Event : Type := EventSource * Z.

(** The whole machine. *)
Module World.
Record t : Type := Build {
  heap : gmap positive frame;         (* the live frame buffers *)
  radio : MicroBitMeshRadio.t;        (* MicroBitMeshRadio::instance *)
  datagram : MicroBitMeshRadioDatagram.t;(* its datagram member *)
  nrf : NRF.t;                        (* the peripherals *)
  bus : list Event;                   (* events fired so far, oldest first *)
  air : list frame;                   (* frames transmitted so far, oldest first *)
  ble : bool                          (* what ble_running() answers *)
}.
Definition set_heap (v : gmap positive frame) (r : t) : t :=
  Build v (radio r) (datagram r) (nrf r) (bus r) (air r) (ble r).
Definition set_radio (v : MicroBitMeshRadio.t) (r : t) : t :=
  Build (heap r) v (datagram r) (nrf r) (bus r) (air r) (ble r).
Definition set_datagram (v : MicroBitMeshRadioDatagram.t) (r : t) : t :=
  Build (heap r) (radio r) v (nrf r) (bus r) (air r) (ble r).
Definition set_nrf (v : NRF.t) (r : t) : t :=
  Build (heap r) (radio r) (datagram r) v (bus r) (air r) (ble r).
Definition set_bus (v : list Event) (r : t) : t :=
  Build (heap r) (radio r) (datagram r) (nrf r) v (air r) (ble r).
Definition set_air (v : list frame) (r : t) : t :=
  Build (heap r) (radio r) (datagram r) (nrf r) (bus r) v (ble r).
Definition set_ble (v : bool) (r : t) : t :=
  Build (heap r) (radio r) (datagram r) (nrf r) (bus r) (air r) v.
End World.
Abbreviation World := World.t.

Section Driver.

(** The configurable payload capacity, declared in MicroBitRadio.h and
    bounded by 250 there. *)
Variable MICROBIT_RADIO_MAX_PACKET_SIZE : Z.

(** ** Store access *)

(** [*p] for a non-NULL [p]: reading a released buffer is undefined. *)
Definition load (p : positive) (w : World) : result frame :=
  match World.heap w !! p with
  | Some f => Ok f
  | None => Undefined
  end.

(** [*p] for a pointer that may be NULL. *)
Definition deref (p : option positive) (w : World) : result frame :=
  match p with
  | Some a => load a w
  | None => Undefined
  end.

Definition store (p : positive) (f : frame) (w : World) : World :=
  World.set_heap (<[p := f]> (World.heap w)) w.

Definition with_radio (g : MicroBitMeshRadio.t -> MicroBitMeshRadio.t) (w : World) : World :=
  World.set_radio (g (World.radio w)) w.

Definition with_nrf (g : NRF.t -> NRF.t) (w : World) : World :=
  World.set_nrf (g (World.nrf w)) w.

(** Writing 1 to a task register. *)
Definition trigger (t : Task) (w : World) : World :=
  with_nrf (fun n => NRF.set_tasks (NRF.tasks n ++ [t]) n) w.

(** Constructing an [Event]. *)
Definition fire (e : Event) (w : World) : World :=
  World.set_bus (World.bus w ++ [e]) w.

(** The value-initialised buffer that [new SequencedFrameBuffer()] yields. *)
Definition zero_frame : frame :=
  SequencedFrameBuffer.Build 0 0 0 0 0
    (repeat 0 (Z.to_nat MICROBIT_RADIO_MAX_PACKET_SIZE)) None 0.

(** [new SequencedFrameBuffer()].  The allocator's answer is an input:
    [Some a] when it hands out the address [a], [None] when it has no
    memory left.  The source uses the plain new-expression, which never
    yields NULL: without memory it does not come back with a pointer (the
    allocation function throws or stops the program, and one that answers
    NULL lets the constructor write through NULL), so that answer has no
    defined outcome and the pointer returned is never [None].  An
    allocator never hands out an address that is still live, so such an
    answer has no outcome either. *)
Definition new_SequencedFrameBuffer (alloc : option positive) (w : World)
  : result (option positive * World) :=
  match alloc with
  | None => Undefined
  | Some a =>
      match World.heap w !! a with
      | Some _ => Undefined
      | None => Ok (Some a, store a zero_frame w)
      end
  end.

(** [delete p] for a non-NULL [p]. *)
Definition delete_frame (p : positive) (w : World) : result World :=
  match World.heap w !! p with
  | Some _ => Ok (World.set_heap (delete p (World.heap w)) w)
  | None => Undefined
  end.

(** ** MicroBitMeshRadio *)

(** The constructor's member initialisations. *)
Definition MicroBitMeshRadio_init : MicroBitMeshRadio.t :=
  MicroBitMeshRadio.Build 0 MICROBIT_MESH_RADIO_DEFAULT_FREQUENCY
    MICROBIT_MESH_RADIO_DEFAULT_TX_POWER MICROBIT_MESH_RADIO_DEFAULT_GROUP
    0 0 None None false 0.

(** The datagram member's constructor. *)
Definition MicroBitMeshRadioDatagram_init : MicroBitMeshRadioDatagram.t :=
  MicroBitMeshRadioDatagram.Build None.

Definition initialised (w : World) : bool :=
  negb (Z.land (MicroBitMeshRadio.status (World.radio w)) MICROBIT_RADIO_STATUS_INITIALISED =? 0).

Definition getRxBuf (w : World) : option positive :=
  MicroBitMeshRadio.rxBuf (World.radio w).

Definition setRSSI (rssi : Z) (w : World) : Z * World :=
  if negb (initialised w) then (DEVICE_NOT_SUPPORTED, w)
  else (DEVICE_OK, with_radio (MicroBitMeshRadio.set_rssi rssi) w).

Definition getRSSI (w : World) : Z :=
  if negb (initialised w) then DEVICE_NOT_SUPPORTED
  else MicroBitMeshRadio.rssi (World.radio w).

Definition setBlockTransmit (transmit : bool) (w : World) : World :=
  with_radio (MicroBitMeshRadio.set_blockTransmit transmit) w.

Definition setGroup (group : Z) (w : World) : Z * World :=
  if World.ble w then (DEVICE_NOT_SUPPORTED, w)
  else
    let w := with_radio (MicroBitMeshRadio.set_group group) w in
    let w := with_nrf (NRF.set_RADIO_PREFIX0 group) w in
    (DEVICE_OK, w).

Definition dataReady (w : World) : Z :=
  MicroBitMeshRadio.queueDepth (World.radio w).

(** [while (p->next != NULL) p = p->next;] started at [p]; every test of
    the condition costs one unit of fuel. *)
Fixpoint walk_to_tail (fuel : nat) (p : positive) (w : World) : result positive :=
  match fuel with
  | O => OutOfFuel
  | S k =>
      f ← load p w;
      match SequencedFrameBuffer.next f with
      | None => Ok p
      | Some q => walk_to_tail k q w
      end
  end.

Definition queueRxBuf (fuel : nat) (alloc : option positive) (w : World)
  : result (Z * World) :=
  match MicroBitMeshRadio.rxBuf (World.radio w) with
  | None => Ok (DEVICE_INVALID_PARAMETER, w)
  | Some rxBuf =>
      if MICROBIT_RADIO_MAXIMUM_RX_BUFFERS <=? MicroBitMeshRadio.queueDepth (World.radio w)
      then Ok (DEVICE_NO_RESOURCES, w)
      else
        (* rxBuf->rssi = getRSSI(); *)
        f ← load rxBuf w;
        let w := store rxBuf (SequencedFrameBuffer.set_rssi (getRSSI w) f) w in
        '(newRxBuf, w) ← new_SequencedFrameBuffer alloc w;
        match newRxBuf with
        | None => Ok (DEVICE_NO_RESOURCES, w)
        | Some _ =>
            (* rxBuf->next = NULL; *)
            f ← load rxBuf w;
            let w := store rxBuf (SequencedFrameBuffer.set_next None f) w in
            w ← match MicroBitMeshRadio.rxQueue (World.radio w) with
                | None => Ok (with_radio (MicroBitMeshRadio.set_rxQueue (Some rxBuf)) w)
                | Some q =>
                    p ← walk_to_tail fuel q w;
                    fp ← load p w;
                    Ok (store p (SequencedFrameBuffer.set_next (Some rxBuf) fp) w)
                end;
            (* queueDepth++; *)
            let w := with_radio (fun r => MicroBitMeshRadio.set_queueDepth
                                   (uint8_t (MicroBitMeshRadio.queueDepth r + 1)) r) w in
            let w := with_radio (MicroBitMeshRadio.set_rxBuf newRxBuf) w in
            Ok (DEVICE_OK, w)
        end
  end.

Definition recv (w : World) : result (option positive * World) :=
  match MicroBitMeshRadio.rxQueue (World.radio w) with
  | None => Ok (None, w)
  | Some p =>
      let w := with_nrf (NRF.set_RADIO_IRQ false) w in
      f ← load p w;
      let w := with_radio (MicroBitMeshRadio.set_rxQueue (SequencedFrameBuffer.next f)) w in
      let w := with_radio (fun r => MicroBitMeshRadio.set_queueDepth
                             (uint8_t (MicroBitMeshRadio.queueDepth r - 1)) r) w in
      let w := with_nrf (NRF.set_RADIO_IRQ true) w in
      Ok (Some p, w)
  end.

Definition compareSeqNo (newSeq : Z) (w : World) : result (bool * World) :=
  f ← deref (getRxBuf w) w;
  let isGood := SequencedFrameBuffer.seqNo f <? newSeq in
  let w := if isGood then with_radio (MicroBitMeshRadio.set_currentSeqNo newSeq) w else w in
  Ok (isGood, w).

(** [*buffer], read.  A pointer into the store that is not live has no
    frame behind it. *)
Definition pointee (buffer : frame_pointer) (w : World) : result frame :=
  match buffer with
  | in_store p => load p w
  | outside_store f => Ok f
  end.

(** [*buffer = f].  A frame of the store is changed in place.  A variable
    of the caller outside the store is not part of the machine; what it
    holds from then on is [f]. *)
Definition assign (buffer : frame_pointer) (f : frame) (w : World) : World :=
  match buffer with
  | in_store p => store p f w
  | outside_store _ => w
  end.

(** [send(SequencedFrameBuffer *buffer)]; [None] is NULL.  The sequence
    number is stamped into the caller's frame through the pointer, and the
    frame as the radio then reads it is appended to [World.air].  While it
    is transmitted PACKETPTR holds the address of the caller's frame; the
    register is modelled from the point where it is set back to [rxBuf].
    The waits on the peripheral's DISABLED, READY and END events are
    taken to complete.  [while (blockTransmit);] spins for ever when the
    flag is set, as nothing in the spinning context clears it. *)
Definition send (buffer : option frame_pointer) (w : World) : result (Z * World) :=
  if World.ble w then Ok (DEVICE_NOT_SUPPORTED, w)
  else
    match buffer with
    | None => Ok (DEVICE_INVALID_PARAMETER, w)
    | Some ptr =>
        buf ← pointee ptr w;
        if MICROBIT_RADIO_MAX_PACKET_SIZE + MICROBIT_RADIO_HEADER_SIZE - 1
           <? SequencedFrameBuffer.length buf
        then Ok (DEVICE_INVALID_PARAMETER, w)
        else if MicroBitMeshRadio.blockTransmit (World.radio w) then OutOfFuel
        else
          let w := with_nrf (NRF.set_RADIO_IRQ false) w in
          (* this->currentSeqNo++; *)
          let w := with_radio (fun r => MicroBitMeshRadio.set_currentSeqNo
                                 (int32_t (MicroBitMeshRadio.currentSeqNo r + 1)) r) w in
          (* buffer->seqNo = this->currentSeqNo; *)
          let buf := SequencedFrameBuffer.set_seqNo
                       (uint8_t (MicroBitMeshRadio.currentSeqNo (World.radio w))) buf in
          let w := assign ptr buf w in
          let w := trigger RADIO_TASKS_DISABLE w in
          let w := trigger RADIO_TASKS_TXEN w in
          let w := trigger RADIO_TASKS_START w in
          let w := World.set_air (World.air w ++ [buf]) w in
          let w := with_nrf (NRF.set_RADIO_PACKETPTR (getRxBuf w)) w in
          let w := trigger RADIO_TASKS_DISABLE w in
          let w := trigger RADIO_TASKS_RXEN w in
          let w := with_nrf (NRF.set_RADIO_EVENTS_END 0) w in
          let w := trigger RADIO_TASKS_START w in
          let w := with_nrf (NRF.set_RADIO_IRQ true) w in
          Ok (DEVICE_OK, w)
    end.

(** [enable()], with the allocator's answer for its [new]. *)
Definition enable (alloc : option positive) (w : World) : result (Z * World) :=
  if initialised w then Ok (DEVICE_OK, w)
  else if World.ble w then Ok (DEVICE_NOT_SUPPORTED, w)
  else
    w ← match MicroBitMeshRadio.rxBuf (World.radio w) with
        | None =>
            '(p, w) ← new_SequencedFrameBuffer alloc w;
            Ok (with_radio (MicroBitMeshRadio.set_rxBuf p) w)
        | Some _ => Ok w
        end;
    match MicroBitMeshRadio.rxBuf (World.radio w) with
    | None => Ok (DEVICE_NO_RESOURCES, w)
    | Some _ =>
        let w := snd (setGroup (MicroBitMeshRadio.group (World.radio w)) w) in
        let w := with_nrf (NRF.set_RADIO_PACKETPTR (getRxBuf w)) w in
        let w := trigger TIMER0_TASKS_STOP w in
        let w := trigger TIMER0_TASKS_CLEAR w in
        let w := with_nrf (fun n => NRF.set_RADIO_SHORTS
                             (Z.lor (NRF.RADIO_SHORTS n)
                                (Z.lor RADIO_SHORTS_ADDRESS_RSSISTART_Msk
                                   RADIO_SHORTS_DISABLED_TXEN_Msk)) n) w in
        let w := trigger RADIO_TASKS_RXEN w in
        let w := with_nrf (NRF.set_RADIO_EVENTS_END 0) w in
        let w := with_nrf (NRF.set_RADIO_IRQ true) w in
        let w := trigger RADIO_TASKS_START w in
        let w := with_radio (fun r => MicroBitMeshRadio.set_status
                               (Z.lor (MicroBitMeshRadio.status r)
                                  DEVICE_COMPONENT_STATUS_IDLE_TICK) r) w in
        let w := with_radio (fun r => MicroBitMeshRadio.set_status
                               (Z.lor (MicroBitMeshRadio.status r)
                                  MICROBIT_RADIO_STATUS_INITIALISED) r) w in
        Ok (DEVICE_OK, w)
    end.

(** ** Interrupt handlers *)

Definition cancel_timer_and_disable (w : World) : World :=
  let w := trigger TIMER0_TASKS_STOP w in
  let w := trigger TIMER0_TASKS_CLEAR w in
  trigger RADIO_TASKS_DISABLE w.

Definition mesh_RADIO_IRQHandler (fuel : nat) (alloc : option positive) (w : World)
  : result World :=
  w ← (if NRF.RADIO_EVENTS_END (World.nrf w) =? 0 then Ok w
       else
         let w := trigger TIMER0_TASKS_CLEAR w in
         let w := trigger TIMER0_TASKS_START w in
         let w := with_nrf (NRF.set_RADIO_EVENTS_END 0) w in
         w ← (if NRF.RADIO_CRCSTATUS (World.nrf w) =? 1 then
                f ← deref (getRxBuf w) w;
                '(accepted, w) ← compareSeqNo (SequencedFrameBuffer.seqNo f) w;
                if (accepted : bool) then
                  let w := trigger RADIO_TASKS_DISABLE w in
                  let w := setBlockTransmit true w in
                  let sample := NRF.RADIO_RSSISAMPLE (World.nrf w) in
                  Ok (snd (setRSSI (- sample) w))
                else Ok (cancel_timer_and_disable w)
              else
                let w := cancel_timer_and_disable w in
                let w := snd (setRSSI 0 w) in
                '(_, w) ← queueRxBuf fuel alloc w;
                let w := with_nrf (NRF.set_RADIO_PACKETPTR (getRxBuf w)) w in
                Ok (setBlockTransmit false w));
         Ok (trigger RADIO_TASKS_START w));
  let w :=
    if NRF.RADIO_EVENTS_TXREADY (World.nrf w) =? 0 then w
    else
      let w := with_nrf (NRF.set_RADIO_EVENTS_TXREADY 0) w in
      let w := with_nrf (fun n => NRF.set_RADIO_SHORTS
                           (Z.land (NRF.RADIO_SHORTS n)
                              (Z.lnot RADIO_SHORTS_DISABLED_TXEN_Msk)) n) w in
      with_nrf (fun n => NRF.set_RADIO_SHORTS
                  (Z.lor (NRF.RADIO_SHORTS n) RADIO_SHORTS_DISABLED_RXEN_Msk) n) w in
  let w :=
    if NRF.RADIO_EVENTS_RXREADY (World.nrf w) =? 0 then w
    else
      let w := with_nrf (NRF.set_RADIO_EVENTS_RXREADY 0) w in
      let w := with_nrf (fun n => NRF.set_RADIO_SHORTS
                           (Z.lor (NRF.RADIO_SHORTS n) RADIO_SHORTS_DISABLED_TXEN_Msk) n) w in
      let w := with_nrf (fun n => NRF.set_RADIO_SHORTS
                           (Z.land (NRF.RADIO_SHORTS n)
                              (Z.lnot RADIO_SHORTS_DISABLED_RXEN_Msk)) n) w in
      trigger RADIO_TASKS_START w in
  Ok w.

Definition mesh_TIMER0_IRQHandler (fuel : nat) (alloc : option positive) (w : World)
  : result World :=
  if NRF.TIMER0_EVENTS_COMPARE0 (World.nrf w) =? 0 then Ok w
  else
    let w := trigger RADIO_TASKS_START w in
    let w := with_nrf (NRF.set_TIMER0_EVENTS_COMPARE0 0) w in
    '(_, w) ← queueRxBuf fuel alloc w;
    let w := with_nrf (NRF.set_RADIO_PACKETPTR (getRxBuf w)) w in
    Ok (setBlockTransmit false w).

(** ** MicroBitMeshRadioDatagram *)

Definition with_datagram_rxQueue (q : option positive) (w : World) : World :=
  World.set_datagram (MicroBitMeshRadioDatagram.Build q) w.

(** The frame [send] builds in its local [buf] before it hands it to the
    radio.  A local starts with indeterminate contents, [buf0].  A copy
    of more bytes than the payload holds runs on into the bytes of the
    local behind the payload; the link and the RSSI of the local have no
    defined value before the copy and none after it, and the model keeps
    those of [buf0]. *)
Definition MicroBitMeshRadioDatagram_send_frame (buf0 : frame) (buffer : list Z) (len : Z)
  : result frame :=
  let buf := SequencedFrameBuffer.set_length
               (uint8_t (len + MICROBIT_MESH_RADIO_HEADER_SIZE - 1)) buf0 in
  let buf := SequencedFrameBuffer.set_version 1 buf in
  let buf := SequencedFrameBuffer.set_group 0 buf in
  let buf := SequencedFrameBuffer.set_protocol MICROBIT_MESH_RADIO_PROTOCOL_DATAGRAM buf in
  bytes ← memcpy_field (SequencedFrameBuffer.payload buf)
            SequencedFrameBuffer_behind_payload buffer len;
  Ok (SequencedFrameBuffer.set_payload bytes buf).

(** [send(uint8_t *buffer, int len)]; [buffer] is the array behind the
    pointer, [None] for NULL. *)
Definition MicroBitMeshRadioDatagram_send (buf0 : frame) (buffer : option (list Z)) (len : Z)
    (w : World) : result (Z * World) :=
  match buffer with
  | None => Ok (DEVICE_INVALID_PARAMETER, w)
  | Some bytes =>
      if (len <? 0)
         || (MICROBIT_RADIO_MAX_PACKET_SIZE + MICROBIT_MESH_RADIO_HEADER_SIZE - 1 <? len)
      then Ok (DEVICE_INVALID_PARAMETER, w)
      else
        buf ← MicroBitMeshRadioDatagram_send_frame buf0 bytes len;
        send (Some (outside_store buf)) w
  end.

(** [recv(uint8_t *buf, int len)].  The result carries the returned [int],
    the caller's array after the call ([None] when [buf] is NULL, else the
    array under [Ok]) and the machine.  A [memcpy] that runs outside an
    array has no defined outcome, and then the call has none either. *)
Definition MicroBitMeshRadioDatagram_recv (buf : option (list Z)) (len : Z) (w : World)
  : result (Z * option (result (list Z)) * World) :=
  match buf, MicroBitMeshRadioDatagram.rxQueue (World.datagram w) with
  | Some dst, Some p =>
      if len <? 0 then Ok (DEVICE_INVALID_PARAMETER, Some (Ok dst), w)
      else
        f ← load p w;
        let w := with_datagram_rxQueue (SequencedFrameBuffer.next f) w in
        let l := min len (SequencedFrameBuffer.length f
                          - (MICROBIT_MESH_RADIO_HEADER_SIZE - 1)) in
        copied ← memcpy dst (SequencedFrameBuffer.payload f) l;
        w ← delete_frame p w;
        Ok (l, Some (Ok copied), w)
  | _, _ => Ok (DEVICE_INVALID_PARAMETER, Ok <$> buf, w)
  end.

(** The loop of [packetReceived]:
    [while (p->next != NULL) { p = p->next; queueDepth++; }]. *)
Fixpoint walk_and_count (fuel : nat) (p : positive) (queueDepth : Z) (w : World)
  : result (positive * Z) :=
  match fuel with
  | O => OutOfFuel
  | S k =>
      f ← load p w;
      match SequencedFrameBuffer.next f with
      | None => Ok (p, queueDepth)
      | Some q => walk_and_count k q (queueDepth + 1) w
      end
  end.

Definition MicroBitMeshRadioDatagram_packetReceived (fuel : nat) (w : World) : result World :=
  '(packet, w) ← recv w;
  let queueDepth := 0 in
  match packet with
  | None => Undefined
  | Some pk =>
      (* packet->next = NULL; *)
      f ← load pk w;
      let w := store pk (SequencedFrameBuffer.set_next None f) w in
      match MicroBitMeshRadioDatagram.rxQueue (World.datagram w) with
      | None =>
          let w := with_datagram_rxQueue packet w in
          Ok (fire (DEVICE_ID_RADIO, MICROBIT_MESH_RADIO_EVT_DATAGRAM) w)
      | Some q =>
          '(p, queueDepth) ← walk_and_count fuel q queueDepth w;
          if MICROBIT_MESH_RADIO_MAXIMUM_RX_BUFFERS <=? queueDepth
          then delete_frame pk w
          else
            fp ← load p w;
            let w := store p (SequencedFrameBuffer.set_next packet fp) w in
            Ok (fire (DEVICE_ID_RADIO, MICROBIT_MESH_RADIO_EVT_DATAGRAM) w)
      end
  end.

(** Modelled from the spec: [MicroBitMeshRadioEvent::packetReceived] is
    not among the sources.  "A handler is responsible for consuming
    (dequeuing) the frame itself": it takes the head frame off the radio's
    queue and releases it. *)
Definition MicroBitMeshRadioEvent_packetReceived (w : World) : result World :=
  '(packet, w) ← recv w;
  match packet with
  | None => Undefined
  | Some pk => delete_frame pk w
  end.

(** ** The idle drain *)

(** One turn of the loop of [idleCallback], entered with [rxQueue == p]. *)
Definition idleCallback_body (fuel : nat) (p : positive) (w : World) : result World :=
  f ← load p w;
  w ← (if SequencedFrameBuffer.protocol f =? MICROBIT_RADIO_PROTOCOL_DATAGRAM
       then MicroBitMeshRadioDatagram_packetReceived fuel w
       else if SequencedFrameBuffer.protocol f =? MICROBIT_RADIO_PROTOCOL_EVENTBUS
       then MicroBitMeshRadioEvent_packetReceived w
       else Ok (fire (DEVICE_ID_RADIO_DATA_READY, SequencedFrameBuffer.protocol f) w));
  if decide (MicroBitMeshRadio.rxQueue (World.radio w) = Some p)
  then
    '(_, w) ← recv w;
    delete_frame p w
  else Ok w.

(** [while (rxQueue) { ... }]; the fuel bounds the tests of the loop
    condition and is handed on to the loops inside the body. *)
Fixpoint idleCallback (fuel : nat) (w : World) : result World :=
  match fuel with
  | O => OutOfFuel
  | S k =>
      match MicroBitMeshRadio.rxQueue (World.radio w) with
      | None => Ok w
      | Some p =>
          w ← idleCallback_body k p w;
          idleCallback k w
      end
  end.

(** ** Queues as chains of links *)

(** [chain h p l]: in the store [h], following the [next] links from [p]
    visits the buffers at the addresses [l], in this order, and then
    reaches NULL.  [l] lists the frames linked in the queue whose head
    pointer is [p]. *)
Fixpoint chain (h : gmap positive frame) (p : option positive) (l : list positive) : Prop :=
  match l with
  | [] => p = None
  | a :: l' =>
      p = Some a ∧ ∃ f, h !! a = Some f ∧ chain h (SequencedFrameBuffer.next f) l'
  end.

(** The frames linked in the radio's Receive Queue. *)
Definition receive_queue (w : World) (l : list positive) : Prop :=
  chain (World.heap w) (MicroBitMeshRadio.rxQueue (World.radio w)) l.

(** The frames linked in the datagram service's queue. *)
Definition datagram_queue (w : World) (l : list positive) : Prop :=
  chain (World.heap w) (MicroBitMeshRadioDatagram.rxQueue (World.datagram w)) l.

(** What the radio's DMA does to the active buffer while a frame comes
    in: the bytes of the wire frame land in the fields from [length] to
    [payload]; the link and the RSSI are not part of the wire frame. *)
Definition dma_receive (got : frame) (w : World) : result World :=
  match getRxBuf w with
  | None => Ok w
  | Some b =>
      f ← load b w;
      Ok (store b (SequencedFrameBuffer.set_rssi (SequencedFrameBuffer.rssi f)
                     (SequencedFrameBuffer.set_next (SequencedFrameBuffer.next f) got)) w)
  end.

(** The states the radio controller reaches: it is constructed, and then
    enabled, fed by the receiver ([dma_receive], the two interrupt
    handlers, [queueRxBuf] itself), used to transmit and drained ([recv])
    in any order, with any answers of the allocator, while the peripheral
    registers and the BLE state change under it; a consumer may release a
    frame that is neither queued nor the active buffer. *)
Inductive reachable : World -> Prop :=
| reachable_init w :
    World.heap w = ∅ ->
    World.radio w = MicroBitMeshRadio_init ->
    World.datagram w = MicroBitMeshRadioDatagram_init ->
    reachable w
| reachable_enable alloc w r w' :
    reachable w -> enable alloc w = Ok (r, w') -> reachable w'
| reachable_dma got w w' :
    reachable w -> dma_receive got w = Ok w' -> reachable w'
| reachable_environment n b w :
    reachable w -> reachable (World.set_ble b (World.set_nrf n w))
| reachable_RADIO_IRQ fuel alloc w w' :
    reachable w -> mesh_RADIO_IRQHandler fuel alloc w = Ok w' -> reachable w'
| reachable_TIMER0_IRQ fuel alloc w w' :
    reachable w -> mesh_TIMER0_IRQHandler fuel alloc w = Ok w' -> reachable w'
| reachable_send buffer w r w' :
    reachable w -> send buffer w = Ok (r, w') -> reachable w'
| reachable_queueRxBuf fuel alloc w r w' :
    reachable w -> queueRxBuf fuel alloc w = Ok (r, w') -> reachable w'
| reachable_recv w p w' :
    reachable w -> recv w = Ok (p, w') -> reachable w'
| reachable_release p w w' :
    reachable w ->
    (forall l, receive_queue w l -> p ∉ l) ->
    getRxBuf w ≠ Some p ->
    delete_frame p w = Ok w' ->
    reachable w'.

(** The part of the machine the bookkeeping below speaks about. *)
Definition radio_view (w : World)
  : gmap positive frame * option positive * Z * option positive :=
  (World.heap w, MicroBitMeshRadio.rxQueue (World.radio w),
   MicroBitMeshRadio.queueDepth (World.radio w), MicroBitMeshRadio.rxBuf (World.radio w)).

(** The bookkeeping of the radio controller: [l] is the Receive Queue,
    [queueDepth] counts it, it holds at most the configured maximum, and
    the active buffer is live and not queued (without an active buffer
    nothing has been queued yet). *)
Definition radio_inv (w : World) (l : list positive) : Prop :=
  receive_queue w l /\
  MicroBitMeshRadio.queueDepth (World.radio w) = Z.of_nat (length l) /\
  Z.of_nat (length l) <= MICROBIT_RADIO_MAXIMUM_RX_BUFFERS /\
  match MicroBitMeshRadio.rxBuf (World.radio w) with
  | Some b => is_Some (World.heap w !! b) /\ b ∉ l
  | None => l = []
  end.

(** Both queues at once: [l] is the Receive Queue, [dl] the datagram
    queue, and no frame is a member of both. *)
Definition queues (w : World) (l dl : list positive) : Prop :=
  receive_queue w l /\ datagram_queue w dl /\ forall a, a ∈ l -> a ∉ dl.

End Driver.

(** ** Concrete machines *)

(** A radio with a payload capacity of 32 bytes, followed from
    construction through a few receptions.  The machines below are the
    inputs at which the statements of this file are exercised. *)
Module Example.

Definition MAX_PACKET_SIZE : Z := 32.

(** The machine right after the constructor ran. *)
Definition boot : World :=
  World.Build ∅ MicroBitMeshRadio_init MicroBitMeshRadioDatagram_init
    (NRF.Build 0 0 0 0 0 0 None 0 0 false []) [] [] false.

Definition after_call (r : result (Z * World)) : World :=
  match r with
  | Ok (_, w) => w
  | _ => boot
  end.

Definition after (r : result World) : World :=
  match r with
  | Ok w => w
  | _ => boot
  end.

(** The bytes of a wire frame with a zero payload. *)
Definition wire (length protocol seqNo : Z) : frame :=
  SequencedFrameBuffer.Build length 1 0 protocol seqNo (repeat 0 32) None 0.

(** [enable()], the first buffer being allocated at address 1. *)
Definition enabled : World := after_call (enable MAX_PACKET_SIZE (Some 1%positive) boot).

(** A frame comes in and is queued; the replacement is allocated at [a]. *)
Definition received (got : frame) (a : positive) (w : World) : World :=
  after_call (queueRxBuf MAX_PACKET_SIZE 8 (Some a) (after (dma_receive got w))).

(** Receive Queue [1], active buffer 2. *)
Definition queued1 : World := received (wire 13 7 1) 2 enabled.
(** Receive Queue [1; 2], active buffer 3. *)
Definition queued2 : World := received (wire 13 1 2) 3 queued1.
(** Receive Queue [1; 2; 3], active buffer 4; protocols 7, 1 and 2. *)
Definition queued3 : World := received (wire 13 2 3) 4 queued2.
(** Receive Queue [1; 2; 3; 4], active buffer 5. *)
Definition queued4 : World := received (wire 13 1 4) 5 queued3.

(** A datagram frame comes in, is queued, and is handed to the datagram
    service. *)
Definition delivered (seqNo : Z) (a : positive) (w : World) : World :=
  after (MicroBitMeshRadioDatagram_packetReceived 8 (received (wire 13 1 seqNo) a w)).

(** Datagram queue [1; 2; 3; 4], Receive Queue [5], active buffer 6. *)
Definition datagrams4 : World :=
  received (wire 13 1 5) 6
    (delivered 4 5 (delivered 3 4 (delivered 2 3 (delivered 1 2 enabled)))).

(** Datagram queue [1; 2; 3; 4; 5], Receive Queue [6], active buffer 7. *)
Definition datagrams5 : World :=
  received (wire 13 1 6) 7 (after (MicroBitMeshRadioDatagram_packetReceived 8 datagrams4)).

(** The end of a frame with sequence number 5 and a good checksum, on a
    radio that has accepted nothing yet. *)
Definition frame5_arrived : World :=
  with_nrf (fun n => NRF.set_RADIO_CRCSTATUS 1 (NRF.set_RADIO_EVENTS_END 1 n))
    (after (dma_receive (wire 13 1 5) enabled)).


End Example.

(** ** Lifecycle and tuning of the radio *)

(** The two registers tuned by [setTransmitPower] and [setFrequencyBand]. *)
Module Tuner.
Record t : Type := Build {
  RADIO_TXPOWER : Z;          (* NRF_RADIO->TXPOWER *)
  RADIO_FREQUENCY : Z         (* NRF_RADIO->FREQUENCY *)
}.
End Tuner.

(** The table at the head of the implementation file. *)
Definition MICROBIT_RADIO_POWER_LEVEL : list Z :=
  [0xD8; 0xEC; 0xF0; 0xF4; 0xF8; 0xFC; 0x00; 0x04].

(** Modelled from the spec: declared in MicroBitRadio.h; the bit of the
    "deep-sleep-pending-irq" lifecycle flag, the one of
    MICROBIT_MESH_RADIO_STATUS_DEEPSLEEP_IRQ in MicroBitMeshRadio.h. *)
Definition MICROBIT_RADIO_STATUS_DEEPSLEEP_IRQ : Z := 2.

(** Modelled from the spec: declared in MicroBitRadio.h; the bit of the
    "deep-sleep-pending-init" lifecycle flag, the one of
    MICROBIT_MESH_RADIO_STATUS_DEEPSLEEP_INIT in MicroBitMeshRadio.h. *)
Definition MICROBIT_RADIO_STATUS_DEEPSLEEP_INIT : Z := 4.

(** A byte read as a signed quantity, as TXPOWER reads its dBm value. *)
Definition int8_t (z : Z) : Z := if z <? 128 then z else z - 256.

Definition set_band (v : Z) (r : MicroBitMeshRadio.t) : MicroBitMeshRadio.t :=
  MicroBitMeshRadio.Build (MicroBitMeshRadio.status r) v (MicroBitMeshRadio.power r)
    (MicroBitMeshRadio.group r) (MicroBitMeshRadio.queueDepth r) (MicroBitMeshRadio.rssi r)
    (MicroBitMeshRadio.rxQueue r) (MicroBitMeshRadio.rxBuf r)
    (MicroBitMeshRadio.blockTransmit r) (MicroBitMeshRadio.currentSeqNo r).

Definition set_power (v : Z) (r : MicroBitMeshRadio.t) : MicroBitMeshRadio.t :=
  MicroBitMeshRadio.Build (MicroBitMeshRadio.status r) (MicroBitMeshRadio.band r) v
    (MicroBitMeshRadio.group r) (MicroBitMeshRadio.queueDepth r) (MicroBitMeshRadio.rssi r)
    (MicroBitMeshRadio.rxQueue r) (MicroBitMeshRadio.rxBuf r)
    (MicroBitMeshRadio.blockTransmit r) (MicroBitMeshRadio.currentSeqNo r).

(** [status & flag], read as a condition. *)
Definition has_status (flag : Z) (w : World) : bool :=
  negb (Z.land (MicroBitMeshRadio.status (World.radio w)) flag =? 0).

(** [status |= flag;] *)
Definition raise_status (flag : Z) (w : World) : World :=
  with_radio (fun r => MicroBitMeshRadio.set_status
                (Z.lor (MicroBitMeshRadio.status r) flag) r) w.

(** [status &= ~flag;] *)
Definition clear_status (flag : Z) (w : World) : World :=
  with_radio (fun r => MicroBitMeshRadio.set_status
                (Z.land (MicroBitMeshRadio.status r) (Z.lnot flag)) r) w.

Section Lifecycle.

Variable MICROBIT_RADIO_MAX_PACKET_SIZE : Z.

(** The number of power levels [setTransmitPower] admits, declared in
    MicroBitRadio.h. *)
Variable MICROBIT_RADIO_POWER_LEVELS : Z.

(** [setTransmitPower(int power)].  Reading the table outside its eight
    entries has no defined outcome. *)
Definition setTransmitPower (power : Z) (w : World) (t : Tuner.t)
  : result (Z * World * Tuner.t) :=
  if (power <? 0) || (MICROBIT_RADIO_POWER_LEVELS <=? power)
  then Ok (DEVICE_INVALID_PARAMETER, w, t)
  else
    let w := with_radio (set_power (uint8_t power)) w in
    match MICROBIT_RADIO_POWER_LEVEL !! Z.to_nat power with
    | Some level => Ok (DEVICE_OK, w, Tuner.Build level (Tuner.RADIO_FREQUENCY t))
    | None => Undefined
    end.

(** [setFrequencyBand(int band)].  The waits for the DISABLED and READY
    events of the peripheral are taken to complete. *)
Definition setFrequencyBand (band : Z) (w : World) (t : Tuner.t) : Z * World * Tuner.t :=
  if World.ble w then (DEVICE_NOT_SUPPORTED, w, t)
  else if (band <? 0) || (100 <? band) then (DEVICE_INVALID_PARAMETER, w, t)
  else
    let w := with_radio (set_band (uint8_t band)) w in
    if negb (Tuner.RADIO_FREQUENCY t =? band) && initialised w
    then
      let w := with_nrf (NRF.set_RADIO_IRQ false) w in
      let w := trigger RADIO_TASKS_DISABLE w in
      let t := Tuner.Build (Tuner.RADIO_TXPOWER t) band in
      let w := trigger RADIO_TASKS_RXEN w in
      let w := with_nrf (NRF.set_RADIO_EVENTS_END 0) w in
      let w := trigger RADIO_TASKS_START w in
      let w := with_nrf (NRF.set_RADIO_IRQ true) w in
      (DEVICE_OK, w, t)
    else (DEVICE_OK, w, t).

(** [disable()]; the wait for the DISABLED event is taken to complete. *)
Definition disable (w : World) : Z * World :=
  if World.ble w then (DEVICE_NOT_SUPPORTED, w)
  else if negb (initialised w) then (DEVICE_OK, w)
  else
    let w := with_nrf (NRF.set_RADIO_IRQ false) w in
    let w := trigger RADIO_TASKS_DISABLE w in
    let w := clear_status DEVICE_COMPONENT_STATUS_IDLE_TICK w in
    let w := clear_status MICROBIT_RADIO_STATUS_INITIALISED w in
    (DEVICE_OK, w).

(** [setSleep(bool doSleep)], with the allocator's answer for the [new]
    of the [enable()] it may call. *)
Definition setSleep (doSleep : bool) (alloc : option positive) (w : World)
  : result (Z * World) :=
  if World.ble w then Ok (DEVICE_NOT_SUPPORTED, w)
  else if doSleep then
    if initialised w then
      let w := snd (disable w) in
      Ok (DEVICE_OK, raise_status MICROBIT_RADIO_STATUS_DEEPSLEEP_INIT w)
    else if NRF.RADIO_IRQ (World.nrf w) then
      let w := raise_status MICROBIT_RADIO_STATUS_DEEPSLEEP_IRQ w in
      Ok (DEVICE_OK, with_nrf (NRF.set_RADIO_IRQ false) w)
    else Ok (DEVICE_OK, w)
  else
    if has_status MICROBIT_RADIO_STATUS_DEEPSLEEP_INIT w then
      let w := clear_status MICROBIT_RADIO_STATUS_DEEPSLEEP_INIT w in
      '(_, w) ← enable MICROBIT_RADIO_MAX_PACKET_SIZE alloc w;
      Ok (DEVICE_OK, w)
    else if has_status MICROBIT_RADIO_STATUS_DEEPSLEEP_IRQ w then
      let w := clear_status MICROBIT_RADIO_STATUS_DEEPSLEEP_IRQ w in
      Ok (DEVICE_OK, with_nrf (NRF.set_RADIO_IRQ true) w)
    else Ok (DEVICE_OK, w).

End Lifecycle.

(** ** More concrete machines *)

(** Machines and inputs for the lifecycle, the interrupt handlers and the
    hand-over of datagrams, built on the radio of [Example]. *)
Module Scenario.

(** The tuning registers after reset. *)
Definition tuner : Tuner.t := Tuner.Build 0 0.

(** A radio that was never enabled while the radio interrupt is on. *)
Definition idle_with_irq : World := with_nrf (NRF.set_RADIO_IRQ true) Example.boot.

(** The enabled radio put to sleep. *)
Definition asleep : World := Example.after_call (setSleep 32 true None Example.enabled).

(** A wire frame of the datagram protocol carrying [bytes]. *)
Definition datagram (bytes : list Z) (seqNo : Z) : frame :=
  SequencedFrameBuffer.Build (Z.of_nat (length bytes) + 3) 1 0 1 seqNo
    (bytes ++ repeat 0 (32 - length bytes)) None 0.

(** One frame queued; the end of a second frame whose checksum is bad. *)
Definition bad_checksum : World :=
  with_nrf (fun n => NRF.set_RADIO_CRCSTATUS 0 (NRF.set_RADIO_EVENTS_END 1 n))
    (Example.after (dma_receive (Example.wire 13 1 9) Example.queued1)).

(** The guard timer has reached its compare value. *)
Definition timer_fired (w : World) : World :=
  with_nrf (NRF.set_TIMER0_EVENTS_COMPARE0 1) w.

(** The enabled radio with a pending TXREADY event. *)
Definition tx_ready : World := with_nrf (NRF.set_RADIO_EVENTS_TXREADY 1) Example.enabled.

(** Two datagrams, [104; 105] and then [33], wait in the Receive Queue
    [1; 2]; the active buffer is 3 and the datagram queue is empty. *)
Definition two_datagrams : World :=
  Example.received (datagram [33] 2) 3
    (Example.received (datagram [104; 105] 1) 2 Example.enabled).

(** The first of them as it sits in the store, linked to the second. *)
Definition first_datagram : frame :=
  SequencedFrameBuffer.set_next (Some 2%positive) (datagram [104; 105] 1).

(** Datagram queue [1; 2], the frames of [two_datagrams] handed over. *)
Definition handed_over : World := Example.after (idleCallback 8 two_datagrams).

End Scenario.

(** Closes a goal [chain h p l] for a concrete store and list. *)
Ltac solve_chain :=
  cbn [chain];
  lazymatch goal with
  | |- _ /\ _ => split; solve_chain
  | |- exists _, _ => eexists; solve_chain
  | |- _ = _ => vm_compute; reflexivity
  end.

(** * Properties *)

(** ** Chains *)

Section Chains.
Implicit Types (h : gmap positive frame) (p : option positive) (l : list positive).

Lemma chain_inj h p l1 l2 : chain h p l1 -> chain h p l2 -> l1 = l2.
Proof.
  revert p l2. induction l1 as [|a l1 IH]; intros p [|b l2]; simpl.
  - done.
  - intros -> [? _]. done.
  - intros [-> _] ?. done.
  - intros [-> (f & Hf & Hc)] [[= <-] (g & Hg & Hd)].
    rewrite Hf in Hg. injection Hg as <-. f_equal. eauto.
Qed.

Lemma chain_live h p l a : chain h p l -> a ∈ l -> is_Some (h !! a).
Proof.
  revert p. induction l as [|b l IH]; intros p; simpl.
  - intros _ Hin. inversion Hin.
  - intros [-> (f & Hf & Hc)] Hin. apply elem_of_cons in Hin as [-> | Hin]; eauto.
Qed.

Lemma chain_suffix h p l a :
  chain h p l -> a ∈ l -> exists l1 l2, l = l1 ++ a :: l2 /\ chain h (Some a) (a :: l2).
Proof.
  revert p. induction l as [|b l IH]; intros p; simpl.
  - intros _ Hin. inversion Hin.
  - intros [-> (f & Hf & Hc)] Hin.
    destruct (decide (a = b)) as [-> | Hne].
    + exists [], l. simpl. eauto.
    + apply elem_of_cons in Hin as [? | Hin]; [done |].
      destruct (IH _ Hc Hin) as (l1 & l2 & -> & Hs).
      exists (b :: l1), l2. done.
Qed.

Lemma chain_NoDup h p l : chain h p l -> NoDup l.
Proof.
  revert p. induction l as [|a l IH]; intros p Hc; [constructor |].
  pose proof Hc as [-> (f & Hf & Hl)]. constructor; [| eauto].
  intros Hin. destruct (chain_suffix _ _ _ _ Hl Hin) as (l1 & l2 & -> & Hs).
  pose proof (chain_inj _ _ _ _ Hc Hs) as Heq.
  apply (f_equal (@length positive)) in Heq. simpl in Heq.
  rewrite length_app in Heq. simpl in Heq. lia.
Qed.

(** Writes outside a chain leave it alone. *)
Lemma chain_insert_notin h p l a f : a ∉ l -> chain h p l -> chain (<[a:=f]> h) p l.
Proof.
  revert p. induction l as [|b l IH]; intros p Hnin; simpl; [done |].
  intros [-> (g & Hg & Hc)]. apply not_elem_of_cons in Hnin as [Hne Hnin].
  split; [done |]. exists g. rewrite lookup_insert_ne by done. eauto.
Qed.

(** A write that keeps the link of the frame it overwrites leaves every
    chain alone. *)
Lemma chain_insert_same_next h p l a f g :
  h !! a = Some f -> SequencedFrameBuffer.next g = SequencedFrameBuffer.next f ->
  chain h p l -> chain (<[a:=g]> h) p l.
Proof.
  intros Hf Hnext. revert p. induction l as [|b l IH]; intros p; simpl; [done |].
  intros [-> (fb & Hfb & Hc)]. split; [done |].
  destruct (decide (b = a)) as [-> |].
  - exists g. rewrite lookup_insert_eq. split; [done |].
    rewrite Hf in Hfb. injection Hfb as <-. rewrite Hnext. by apply IH.
  - exists fb. rewrite lookup_insert_ne by done. split; [done |]. by apply IH.
Qed.

Lemma chain_delete_notin h p l a : a ∉ l -> chain h p l -> chain (delete a h) p l.
Proof.
  revert p. induction l as [|b l IH]; intros p Hnin; simpl; [done |].
  intros [-> (g & Hg & Hc)]. apply not_elem_of_cons in Hnin as [Hne Hnin].
  split; [done |]. exists g. rewrite lookup_delete_ne by done. eauto.
Qed.

(** Linking a buffer behind the last one of a chain. *)
Lemma chain_link_tail h l : forall p t ft b fb,
  chain h p l -> last l = Some t -> h !! t = Some ft ->
  b ∉ l -> h !! b = Some fb -> SequencedFrameBuffer.next fb = None ->
  chain (<[t := SequencedFrameBuffer.set_next (Some b) ft]> h) p (l ++ [b]).
Proof.
  induction l as [|a l IH]; intros p t ft b fb Hc Hlast Ht Hb Hfb Hnext; [done |].
  pose proof (chain_NoDup _ _ _ Hc) as Hnd. apply NoDup_cons in Hnd as [Ha _].
  destruct Hc as [-> (f & Hf & Hc)]. apply not_elem_of_cons in Hb as [Hba Hb].
  destruct l as [|a' l].
  - simpl in *. injection Hlast as <-. rewrite Hf in Ht. injection Ht as <-.
    split; [done |]. eexists. rewrite lookup_insert_eq. split; [done |]. simpl.
    split; [done |]. exists fb. rewrite lookup_insert_ne by done. done.
  - assert (t ∈ a' :: l) as Hin.
    { apply list_elem_of_lookup. exists (Nat.pred (length (a' :: l))).
      rewrite <- last_lookup. done. }
    assert (t ≠ a) as Hta by (intros ->; done).
    change ((a :: a' :: l) ++ [b]) with (a :: ((a' :: l) ++ [b])).
    split; [done |]. exists f. rewrite lookup_insert_ne by done. split; [done |].
    eapply IH; eauto.
Qed.

(** The tail walks find the last buffer of a chain, given one unit of fuel
    per buffer. *)
Lemma walk_to_tail_chain w l : forall fuel q,
  chain (World.heap w) (Some q) l -> (length l <= fuel)%nat ->
  exists t, last l = Some t /\ walk_to_tail fuel q w = Ok t.
Proof.
  induction l as [|a l IH]; intros fuel q Hc Hfuel; [done |].
  destruct Hc as [[= ->] (f & Hf & Hc)]. destruct fuel as [|fuel]; [simpl in Hfuel; lia |].
  simpl. unfold load. rewrite Hf. simpl.
  destruct l as [|a' l].
  - simpl in Hc. rewrite Hc. eauto.
  - assert (SequencedFrameBuffer.next f = Some a') as Hn by apply Hc.
    rewrite Hn in Hc |- *. simpl in Hfuel.
    destruct (IH fuel a' Hc) as (t & Ht & Hw); [simpl; lia |]. eauto.
Qed.

Lemma walk_and_count_chain w l : forall fuel q n,
  chain (World.heap w) (Some q) l -> (length l <= fuel)%nat ->
  exists t, last l = Some t /\
            walk_and_count fuel q n w = Ok (t, n + Z.of_nat (length l) - 1).
Proof.
  induction l as [|a l IH]; intros fuel q n Hc Hfuel; [done |].
  destruct Hc as [[= ->] (f & Hf & Hc)]. destruct fuel as [|fuel]; [simpl in Hfuel; lia |].
  simpl walk_and_count. unfold load. rewrite Hf. simpl.
  destruct l as [|a' l].
  - simpl in Hc. rewrite Hc. exists a. split; [done |]. do 2 f_equal. simpl. lia.
  - assert (SequencedFrameBuffer.next f = Some a') as Hn by apply Hc.
    rewrite Hn in Hc |- *. simpl in Hfuel.
    destruct (IH fuel a' (n + 1) Hc) as (t & Ht & Hw); [simpl; lia |].
    exists t. split; [done |]. rewrite Hw. do 2 f_equal. simpl length. lia.
Qed.

End Chains.

(** ** The Receive Queue *)

Section ReceiveQueue.
Variable MAX_PACKET_SIZE : Z.

Lemma bind_Ok {A B} (a : A) (k : A -> result B) : (Ok a ≫= k) = k a.
Proof. reflexivity. Qed.

Lemma load_eq p w f : World.heap w !! p = Some f -> load p w = Ok f.
Proof. unfold load. intros ->. done. Qed.

Lemma new_fresh a w :
  World.heap w !! a = None ->
  new_SequencedFrameBuffer MAX_PACKET_SIZE (Some a) w
  = Ok (Some a, store a (zero_frame MAX_PACKET_SIZE) w).
Proof. unfold new_SequencedFrameBuffer. intros ->. done. Qed.

Lemma last_elem_of (l : list positive) t : last l = Some t -> t ∈ l.
Proof.
  intros Hlast. apply list_elem_of_lookup. exists (Nat.pred (length l)).
  rewrite <- last_lookup. done.
Qed.

Lemma walk_to_tail_out_of_fuel w l : forall fuel q,
  chain (World.heap w) (Some q) l -> (fuel < length l)%nat ->
  walk_to_tail fuel q w = OutOfFuel.
Proof.
  induction l as [|a l IH]; intros fuel q Hc Hfuel; [simpl in Hfuel; lia |].
  destruct Hc as [[= ->] (f & Hf & Hc)]. destruct fuel as [|fuel]; [done |].
  simpl. rewrite (load_eq _ _ _ Hf), bind_Ok.
  destruct l as [|a' l]; [simpl in Hfuel; lia |].
  assert (SequencedFrameBuffer.next f = Some a') as Hn by apply Hc.
  rewrite Hn in Hc |- *. apply IH; [done | simpl in *; lia].
Qed.

(** What [queueRxBuf] does when it has an active buffer, room in the
    queue and a fresh replacement: with one unit of fuel per queued frame
    it links the active buffer behind the queue, and with less it is still
    walking. *)
Lemma queueRxBuf_enqueue fuel a w b f l :
  MicroBitMeshRadio.rxBuf (World.radio w) = Some b ->
  MicroBitMeshRadio.queueDepth (World.radio w) < MICROBIT_RADIO_MAXIMUM_RX_BUFFERS ->
  World.heap w !! b = Some f ->
  World.heap w !! a = None ->
  receive_queue w l -> b ∉ l ->
  ((length l <= fuel)%nat /\
   exists w', queueRxBuf MAX_PACKET_SIZE fuel (Some a) w = Ok (DEVICE_OK, w') /\
    receive_queue w' (l ++ [b]) /\
    MicroBitMeshRadio.queueDepth (World.radio w')
      = uint8_t (MicroBitMeshRadio.queueDepth (World.radio w) + 1) /\
    MicroBitMeshRadio.rxBuf (World.radio w') = Some a /\
    World.heap w' !! a = Some (zero_frame MAX_PACKET_SIZE) /\
    World.heap w' !! b = Some (SequencedFrameBuffer.set_next None
                                 (SequencedFrameBuffer.set_rssi (getRSSI w) f)) /\
    World.datagram w' = World.datagram w) \/
  ((fuel < length l)%nat /\
   queueRxBuf MAX_PACKET_SIZE fuel (Some a) w = OutOfFuel).
Proof.
  intros Hrx Hqd Hf Ha Hl Hb.
  assert (a ≠ b) as Hab by congruence.
  assert (a ∉ l) as Hal.
  { intros Hin. destruct (chain_live _ _ _ _ Hl Hin) as [? ?]. congruence. }
  unfold queueRxBuf. rewrite Hrx.
  destruct (Z.leb_spec MICROBIT_RADIO_MAXIMUM_RX_BUFFERS
              (MicroBitMeshRadio.queueDepth (World.radio w))); [lia |].
  rewrite (load_eq _ _ _ Hf), bind_Ok.
  rewrite new_fresh by (simpl; rewrite lookup_insert_ne; done).
  rewrite bind_Ok.
  erewrite load_eq by (simpl; rewrite lookup_insert_ne by done; apply lookup_insert_eq).
  rewrite bind_Ok. simpl MicroBitMeshRadio.rxQueue.
  set (fb := SequencedFrameBuffer.set_next None _).
  set (w2 := store b fb _).
  unfold receive_queue in Hl.
  assert (chain (World.heap w2) (MicroBitMeshRadio.rxQueue (World.radio w)) l) as Hl2.
  { subst w2; simpl. do 3 (apply chain_insert_notin; [done |]). exact Hl. }
  assert (World.heap w2 !! b = Some fb) as Hb2 by (subst w2; simpl; apply lookup_insert_eq).
  assert (World.heap w2 !! a = Some (zero_frame MAX_PACKET_SIZE)) as Ha2.
  { subst w2; simpl. rewrite lookup_insert_ne by done. apply lookup_insert_eq. }
  destruct (MicroBitMeshRadio.rxQueue (World.radio w)) as [q|] eqn:Hq.
  - destruct (Nat.le_gt_cases (length l) fuel) as [Hfuel | Hfuel].
    + left. split; [done |].
      destruct (walk_to_tail_chain w2 l fuel q Hl2 Hfuel) as (t & Hlast & Hwalk).
      rewrite Hwalk, bind_Ok.
      pose proof (last_elem_of _ _ Hlast) as Htl.
      destruct (chain_live _ _ _ t Hl2 Htl) as [ft Hft].
      rewrite (load_eq _ _ _ Hft), !bind_Ok.
      assert (t ≠ a) by (intros ->; done). assert (t ≠ b) by (intros ->; done).
      eexists; split; [reflexivity |]. unfold receive_queue; simpl.
      rewrite !(lookup_insert_ne _ t) by done. fold fb.
      rewrite Hq. split; [| by rewrite lookup_insert_ne, lookup_insert_eq by done].
      eapply chain_link_tail; eauto.
    + right. split; [done |]. by rewrite (walk_to_tail_out_of_fuel w2 l fuel q Hl2 Hfuel).
  - destruct l; [| destruct Hl as [? _]; done]. left. split; [simpl; lia |].
    rewrite bind_Ok. eexists; split; [done |]. unfold receive_queue; simpl.
    rewrite lookup_insert_eq, lookup_insert_ne, lookup_insert_eq by done. eauto 10.
Qed.

(** *** The bookkeeping holds in every reachable state *)

Lemma radio_inv_init w :
  World.heap w = ∅ -> World.radio w = MicroBitMeshRadio_init -> radio_inv w [].
Proof.
  intros Hh Hr. unfold radio_inv, receive_queue. rewrite Hr. simpl.
  unfold MICROBIT_RADIO_MAXIMUM_RX_BUFFERS. repeat split; lia.
Qed.

Lemma radio_inv_enable alloc w r w' l :
  radio_inv w l -> enable MAX_PACKET_SIZE alloc w = Ok (r, w') -> radio_inv w' l.
Proof.
  intros (Hl & Hqd & Hmax & Hbuf). unfold enable.
  destruct (initialised w); [intros [= <- <-]; done |].
  destruct (World.ble w) eqn:Hble; [intros [= <- <-]; done |].
  destruct (MicroBitMeshRadio.rxBuf (World.radio w)) as [b|] eqn:Hrx.
  - rewrite bind_Ok, Hrx. intros [= <- <-].
    unfold radio_inv, receive_queue, setGroup. simpl. rewrite Hble. simpl. rewrite Hrx. done.
  - subst l. destruct alloc as [a|]; simpl.
    + destruct (World.heap w !! a) eqn:Ha; [done |]. simpl. intros [= <- <-].
      unfold radio_inv, receive_queue, setGroup. simpl. rewrite Hble. simpl.
      rewrite lookup_insert_eq. repeat split; eauto. apply not_elem_of_nil.
    + done.
Qed.

Lemma radio_inv_dma got w w' l :
  radio_inv w l -> dma_receive got w = Ok w' -> radio_inv w' l.
Proof.
  intros (Hl & Hqd & Hmax & Hbuf). unfold dma_receive, getRxBuf.
  destruct (MicroBitMeshRadio.rxBuf (World.radio w)) as [b|] eqn:Hrx.
  - destruct Hbuf as [[f Hf] Hb]. rewrite (load_eq _ _ _ Hf), bind_Ok. intros [= <-].
    unfold radio_inv, receive_queue. simpl. rewrite Hrx, lookup_insert_eq.
    repeat split; eauto. by apply chain_insert_notin.
  - intros [= <-]. unfold radio_inv. rewrite Hrx. done.
Qed.

Lemma radio_inv_queueRxBuf fuel alloc w r w' l :
  radio_inv w l -> queueRxBuf MAX_PACKET_SIZE fuel alloc w = Ok (r, w') ->
  exists l', radio_inv w' l'.
Proof.
  intros (Hl & Hqd & Hmax & Hbuf) Hrun.
  destruct (MicroBitMeshRadio.rxBuf (World.radio w)) as [b|] eqn:Hrx.
  2:{ unfold queueRxBuf in Hrun. rewrite Hrx in Hrun. injection Hrun as <- <-.
      exists l. unfold radio_inv. rewrite Hrx. done. }
  destruct Hbuf as [[f Hf] Hb].
  destruct (Z.leb_spec MICROBIT_RADIO_MAXIMUM_RX_BUFFERS
              (MicroBitMeshRadio.queueDepth (World.radio w))) as [Hfull | Hroom].
  { unfold queueRxBuf in Hrun. rewrite Hrx in Hrun.
    apply Z.leb_le in Hfull. rewrite Hfull in Hrun. injection Hrun as <- <-.
    exists l. unfold radio_inv. rewrite Hrx. eauto. }
  destruct alloc as [a|].
  - destruct (World.heap w !! a) eqn:Ha.
    { unfold queueRxBuf in Hrun. rewrite Hrx in Hrun.
      apply Z.leb_gt in Hroom. rewrite Hroom in Hrun.
      rewrite (load_eq _ _ _ Hf), bind_Ok in Hrun. simpl in Hrun.
      match type of Hrun with
      | context [ ?m !! a ] => assert (is_Some (m !! a)) as [x Hx]
      end.
      { apply lookup_insert_is_Some. destruct (decide (b = a)); eauto. }
      rewrite Hx in Hrun. done. }
    destruct (queueRxBuf_enqueue fuel a w b f l Hrx Hroom Hf Ha Hl Hb)
      as [(_ & w'' & Hrun' & Hl' & Hqd' & Hrx' & Ha' & Hb' & _) | (_ & Hrun')];
      rewrite Hrun' in Hrun; [| done].
    injection Hrun as <- <-. exists (l ++ [b]). unfold radio_inv.
    rewrite Hqd', Hrx', Ha', Hqd, length_app. simpl length.
    unfold uint8_t. rewrite Hqd in Hroom. unfold MICROBIT_RADIO_MAXIMUM_RX_BUFFERS in *.
    rewrite Z.mod_small by lia. repeat split; eauto; try lia.
    intros Hin. apply elem_of_app in Hin as [Hin | Hin].
    + destruct (chain_live _ _ _ _ Hl Hin) as [? ?]. congruence.
    + apply list_elem_of_singleton in Hin. congruence.
  - unfold queueRxBuf in Hrun. rewrite Hrx in Hrun.
    apply Z.leb_gt in Hroom. rewrite Hroom in Hrun.
    rewrite (load_eq _ _ _ Hf), bind_Ok in Hrun. simpl in Hrun. done.
Qed.

Lemma radio_inv_recv w p w' l :
  radio_inv w l -> recv w = Ok (p, w') ->
  radio_inv w' (tail l) /\ p = head l.
Proof.
  intros (Hl & Hqd & Hmax & Hbuf). unfold recv, receive_queue in *.
  destruct l as [|a l]; simpl in Hl.
  - rewrite Hl. intros [= <- <-]. unfold radio_inv, receive_queue. rewrite Hl. done.
  - destruct Hl as [Hq (f & Hf & Hl)]. rewrite Hq.
    erewrite load_eq by (simpl; exact Hf). rewrite bind_Ok. intros [= <- <-].
    split; [| done]. unfold radio_inv, receive_queue. simpl.
    rewrite Hqd. simpl length in *. unfold uint8_t, MICROBIT_RADIO_MAXIMUM_RX_BUFFERS in *.
    rewrite Z.mod_small by lia. repeat split; try done; try lia.
    destruct (MicroBitMeshRadio.rxBuf (World.radio w)); [| done].
    destruct Hbuf as [? Hb]. apply not_elem_of_cons in Hb as [? ?]. done.
Qed.

Lemma radio_inv_release p w w' l :
  radio_inv w l -> p ∉ l -> getRxBuf w ≠ Some p -> delete_frame p w = Ok w' ->
  radio_inv w' l.
Proof.
  intros (Hl & Hqd & Hmax & Hbuf) Hp Hrx. unfold delete_frame, getRxBuf in *.
  destruct (World.heap w !! p); [| done]. intros [= <-].
  unfold radio_inv, receive_queue. simpl. repeat split; try done.
  - by apply chain_delete_notin.
  - destruct (MicroBitMeshRadio.rxBuf (World.radio w)) as [b|]; [| done].
    destruct Hbuf as [? ?]. rewrite lookup_delete_ne by congruence. done.
Qed.

Lemma radio_inv_view w w' l : radio_view w' = radio_view w -> radio_inv w l -> radio_inv w' l.
Proof.
  unfold radio_view, radio_inv, receive_queue. intros [= -> -> -> ->]. done.
Qed.

Lemma setRSSI_view rssi w : radio_view (snd (setRSSI rssi w)) = radio_view w.
Proof. unfold setRSSI. by case_match. Qed.

Lemma radio_inv_RADIO_IRQ fuel alloc w w' l :
  radio_inv w l -> mesh_RADIO_IRQHandler MAX_PACKET_SIZE fuel alloc w = Ok w' ->
  exists l', radio_inv w' l'.
Proof.
  intros Hinv. unfold mesh_RADIO_IRQHandler.
  destruct (NRF.RADIO_EVENTS_END (World.nrf w) =? 0).
  { rewrite bind_Ok. intros [= <-]. exists l.
    eapply radio_inv_view; [| exact Hinv]. by repeat case_match. }
  set (w0 := with_nrf (NRF.set_RADIO_EVENTS_END 0) _).
  assert (radio_view w0 = radio_view w) as Hv0 by done.
  destruct (NRF.RADIO_CRCSTATUS (World.nrf w0) =? 1).
  - destruct (deref (getRxBuf w0) w0) as [f| |] eqn:Hd; [| done ..].
    rewrite bind_Ok. unfold compareSeqNo. rewrite Hd, bind_Ok, Z.ltb_irrefl, !bind_Ok.
    intros [= <-]. exists l. eapply radio_inv_view; [| exact Hinv]. by repeat case_match.
  - set (wm := snd (setRSSI 0 (cancel_timer_and_disable w0))).
    assert (radio_view wm = radio_view w) as Hvm by (unfold wm; by rewrite setRSSI_view).
    destruct (queueRxBuf MAX_PACKET_SIZE fuel alloc wm) as [[r w2]| |] eqn:Hq; [| done ..].
    rewrite !bind_Ok. intros [= <-].
    destruct (radio_inv_queueRxBuf fuel alloc wm r w2 l) as [l' Hinv2];
      [by eapply radio_inv_view | done |].
    exists l'. eapply radio_inv_view; [| exact Hinv2]. by repeat case_match.
Qed.

Lemma radio_inv_TIMER0_IRQ fuel alloc w w' l :
  radio_inv w l -> mesh_TIMER0_IRQHandler MAX_PACKET_SIZE fuel alloc w = Ok w' ->
  exists l', radio_inv w' l'.
Proof.
  intros Hinv. unfold mesh_TIMER0_IRQHandler.
  destruct (NRF.TIMER0_EVENTS_COMPARE0 (World.nrf w) =? 0).
  { intros [= <-]. by exists l. }
  set (wm := with_nrf (NRF.set_TIMER0_EVENTS_COMPARE0 0) _).
  assert (radio_view wm = radio_view w) as Hvm by done.
  destruct (queueRxBuf MAX_PACKET_SIZE fuel alloc wm) as [[r w2]| |] eqn:Hq; [| done ..].
  rewrite bind_Ok. intros [= <-].
  destruct (radio_inv_queueRxBuf fuel alloc wm r w2 l) as [l' Hinv2];
    [by eapply radio_inv_view | done |].
  exists l'. by eapply radio_inv_view; [| exact Hinv2].
Qed.

Lemma radio_inv_send buffer w r w' l :
  radio_inv w l -> send MAX_PACKET_SIZE buffer w = Ok (r, w') -> radio_inv w' l.
Proof.
  intros Hinv. unfold send.
  destruct (World.ble w); [intros [= <- <-]; done |].
  destruct buffer as [ptr|]; [| intros [= <- <-]; done].
  destruct (pointee ptr w) as [buf| |] eqn:Hbuf; [| done | done]. rewrite bind_Ok.
  destruct (_ <? _); [intros [= <- <-]; done |].
  destruct (MicroBitMeshRadio.blockTransmit (World.radio w)); [done |].
  intros [= <- <-]. destruct Hinv as (Hl & Hqd & Hmax & Hrx).
  destruct ptr as [p | f]; [| done].
  unfold pointee, load in Hbuf. destruct (World.heap w !! p) as [f|] eqn:Hp; [| done].
  injection Hbuf as ->.
  unfold radio_inv, receive_queue in *. simpl.
  split; [by eapply chain_insert_same_next |]. split; [done |]. split; [done |].
  destruct (MicroBitMeshRadio.rxBuf (World.radio w)) as [b|]; [| done].
  destruct Hrx as [Hb Hnin]. split; [| done].
  apply lookup_insert_is_Some. destruct (decide (p = b)); eauto.
Qed.

Lemma reachable_radio_inv w : reachable MAX_PACKET_SIZE w -> exists l, radio_inv w l.
Proof.
  induction 1 as [w Hh Hr _ | alloc w r w' _ [l IH] Hrun | got w w' _ [l IH] Hrun
                 | n b w _ [l IH]
                 | fuel alloc w w' _ [l IH] Hrun | fuel alloc w w' _ [l IH] Hrun
                 | buffer w r w' _ [l IH] Hrun
                 | fuel alloc w r w' _ [l IH] Hrun | w p w' _ [l IH] Hrun
                 | p w w' _ [l IH] Hp Hrx Hrun].
  - exists []. by apply radio_inv_init.
  - exists l. eapply radio_inv_enable; eauto.
  - exists l. eapply radio_inv_dma; eauto.
  - exists l. by eapply radio_inv_view; [| exact IH].
  - eapply radio_inv_RADIO_IRQ; eauto.
  - eapply radio_inv_TIMER0_IRQ; eauto.
  - exists l. eapply radio_inv_send; eauto.
  - eapply radio_inv_queueRxBuf; eauto.
  - exists (tail l). eapply radio_inv_recv; eauto.
  - exists l. eapply radio_inv_release; eauto. apply Hp, IH.
Qed.

Lemma radio_inv_intro w l b f :
  receive_queue w l ->
  MicroBitMeshRadio.queueDepth (World.radio w) = Z.of_nat (length l) ->
  Z.of_nat (length l) <= MICROBIT_RADIO_MAXIMUM_RX_BUFFERS ->
  MicroBitMeshRadio.rxBuf (World.radio w) = Some b ->
  World.heap w !! b = Some f ->
  b ∉ l ->
  radio_inv w l.
Proof. intros Hl Hqd Hmax Hrx Hf Hb. unfold radio_inv. rewrite Hrx. eauto 10. Qed.

(** *** Claims about the Receive Queue *)

(** C2.  In every reachable state of the radio controller, after any
    sequence of [queueRxBuf] and [recv] calls, [queueDepth] is the number
    of frames linked in the Receive Queue, and it never exceeds the
    configured maximum of 4. *)
Theorem queueDepth_is_queue_length w :
  reachable MAX_PACKET_SIZE w ->
  exists l, receive_queue w l /\
            dataReady w = Z.of_nat (length l) /\
            dataReady w <= 4.
Proof.
  intros Hreach. destruct (reachable_radio_inv w Hreach) as (l & Hl & Hqd & Hmax & _).
  exists l. unfold dataReady. rewrite Hqd. done.
Qed.

(** C3.  When the Receive Queue already holds the maximum number of
    frames, [queueRxBuf] returns [DEVICE_NO_RESOURCES] whatever the
    allocator would answer and without walking the queue, and the machine
    is left as it was: same queue, same [queueDepth], same active
    buffer. *)
Theorem queueRxBuf_full_queue fuel alloc w l :
  radio_inv w l ->
  Z.of_nat (length l) = MICROBIT_RADIO_MAXIMUM_RX_BUFFERS ->
  queueRxBuf MAX_PACKET_SIZE fuel alloc w = Ok (DEVICE_NO_RESOURCES, w).
Proof.
  intros (Hl & Hqd & _ & Hbuf) Hfull. unfold queueRxBuf.
  destruct (MicroBitMeshRadio.rxBuf (World.radio w)) as [b|].
  - rewrite Hqd, Hfull, Z.leb_refl. done.
  - subst l. done.
Qed.

(** The same in terms of reachable states. *)
Lemma queueRxBuf_full_queue_reachable fuel alloc w l :
  reachable MAX_PACKET_SIZE w ->
  receive_queue w l ->
  Z.of_nat (length l) = MICROBIT_RADIO_MAXIMUM_RX_BUFFERS ->
  queueRxBuf MAX_PACKET_SIZE fuel alloc w = Ok (DEVICE_NO_RESOURCES, w).
Proof.
  intros Hreach Hl Hfull.
  destruct (reachable_radio_inv w Hreach) as (l' & Hinv).
  pose proof Hinv as (Hl' & _).
  rewrite (chain_inj _ _ _ _ Hl' Hl) in Hinv. by apply (queueRxBuf_full_queue _ _ _ l).
Qed.

(** C5 (fails on the code).  [queueRxBuf] compares the pointer that its
    [new] returned with NULL and answers [DEVICE_NO_RESOURCES] there, but
    the plain new-expression never yields NULL.  With an active buffer
    and room in the queue, a call in which the allocation of the
    replacement buffer fails has no result, so it does not return
    [DEVICE_NO_RESOURCES]; and whatever the allocator answers, a call that
    returns has returned [DEVICE_OK] with the allocator's buffer as the
    active buffer: the resource-exhaustion return for a failed allocation
    is never taken. *)
Theorem queueRxBuf_allocation_failure fuel w l b :
  radio_inv w l ->
  getRxBuf w = Some b ->
  Z.of_nat (length l) < MICROBIT_RADIO_MAXIMUM_RX_BUFFERS ->
  queueRxBuf MAX_PACKET_SIZE fuel None w = Undefined /\
  forall fuel' alloc r w',
    queueRxBuf MAX_PACKET_SIZE fuel' alloc w = Ok (r, w') ->
    r = DEVICE_OK /\ r <> DEVICE_NO_RESOURCES /\
    (exists a, alloc = Some a /\ getRxBuf w' = Some a).
Proof.
  intros (Hl & Hqd & _ & Hbuf) Hrx Hroom. unfold getRxBuf in Hrx.
  rewrite Hrx in Hbuf. destruct Hbuf as [[f Hf] Hb].
  assert ((MICROBIT_RADIO_MAXIMUM_RX_BUFFERS <=? Z.of_nat (length l)) = false) as Hleb
    by (apply Z.leb_gt; lia).
  split.
  - unfold queueRxBuf. rewrite Hrx, Hqd, Hleb, (load_eq _ _ _ Hf), bind_Ok. done.
  - intros fuel' alloc r w' Hrun.
    destruct alloc as [a|].
    2:{ unfold queueRxBuf in Hrun.
        rewrite Hrx, Hqd, Hleb, (load_eq _ _ _ Hf), bind_Ok in Hrun. done. }
    destruct (decide (a = b)) as [-> | Hab].
    { unfold queueRxBuf, new_SequencedFrameBuffer in Hrun.
      rewrite Hrx, Hqd, Hleb, (load_eq _ _ _ Hf), bind_Ok in Hrun. simpl in Hrun.
      by rewrite lookup_insert_eq in Hrun. }
    destruct (World.heap w !! a) eqn:Ha.
    { unfold queueRxBuf, new_SequencedFrameBuffer in Hrun.
      rewrite Hrx, Hqd, Hleb, (load_eq _ _ _ Hf), bind_Ok in Hrun. simpl in Hrun.
      by rewrite lookup_insert_ne, Ha in Hrun. }
    destruct (queueRxBuf_enqueue fuel' a w b f l)
      as [(_ & w2 & Hrun2 & _ & _ & Hrx2 & _) | (_ & Hrun2)]; try done;
      [by rewrite Hqd | |]; rewrite Hrun2 in Hrun; [| done].
    injection Hrun as <- <-. unfold getRxBuf. rewrite Hrx2. eauto.
Qed.

(** In a reachable state the hypothesis on the bookkeeping comes for
    free. *)
Lemma reachable_radio_inv_of_queue w l :
  reachable MAX_PACKET_SIZE w -> receive_queue w l -> radio_inv w l.
Proof.
  intros Hreach Hl. destruct (reachable_radio_inv w Hreach) as (l' & Hinv).
  pose proof Hinv as (Hl' & _). by rewrite (chain_inj _ _ _ _ Hl' Hl) in Hinv.
Qed.

End ReceiveQueue.

(** ** The sequence filter *)

Section SequenceFilter.
Variable MAX_PACKET_SIZE : Z.

(** [compareSeqNo] with a live active buffer: the candidate is compared
    with the sequence number stored in that buffer; on acceptance
    [currentSeqNo] takes the candidate, and nothing else changes, the
    number stored in the active buffer included. *)
Lemma compareSeqNo_spec newSeq w b f :
  getRxBuf w = Some b -> World.heap w !! b = Some f ->
  compareSeqNo newSeq w
  = Ok (SequencedFrameBuffer.seqNo f <? newSeq,
        if SequencedFrameBuffer.seqNo f <? newSeq
        then with_radio (MicroBitMeshRadio.set_currentSeqNo newSeq) w
        else w).
Proof.
  intros Hrx Hf. unfold compareSeqNo. rewrite Hrx. simpl.
  rewrite (load_eq _ _ _ Hf). done.
Qed.

(** Acceptance does not move the value candidates are compared with: a
    candidate accepted once is followed by the acceptance of any smaller
    one that still exceeds the number in the active buffer. *)
Lemma compareSeqNo_accepts_smaller_next c1 c2 w b f :
  getRxBuf w = Some b -> World.heap w !! b = Some f ->
  SequencedFrameBuffer.seqNo f < c2 -> c2 < c1 ->
  exists w1 w2, compareSeqNo c1 w = Ok (true, w1) /\ compareSeqNo c2 w1 = Ok (true, w2).
Proof.
  intros Hrx Hf H2 H1.
  exists (with_radio (MicroBitMeshRadio.set_currentSeqNo c1) w).
  eexists. split.
  - rewrite (compareSeqNo_spec c1 w b f Hrx Hf).
    destruct (Z.ltb_spec (SequencedFrameBuffer.seqNo f) c1); [done | lia].
  - rewrite (compareSeqNo_spec c2 _ b f); [| done | done].
    destruct (Z.ltb_spec (SequencedFrameBuffer.seqNo f) c2); [done | lia].
Qed.

(** The interrupt handler asks the filter about the number it has just
    read from the active buffer, which is the number the filter compares
    it with. *)
Lemma compareSeqNo_of_active_buffer w b f :
  getRxBuf w = Some b -> World.heap w !! b = Some f ->
  compareSeqNo (SequencedFrameBuffer.seqNo f) w = Ok (false, w).
Proof.
  intros Hrx Hf. rewrite (compareSeqNo_spec _ w b f Hrx Hf), Z.ltb_irrefl. done.
Qed.

(** C1 (fails on the code).  At the end of a frame with a good checksum
    the handler calls [compareSeqNo] on the sequence number of the frame
    in the active buffer.  Whatever that number is, and whatever was
    accepted before, the frame is rejected: the guard timer is cancelled,
    transmission is not blocked, [currentSeqNo] is not updated, and the
    store and the radio controller are as before. *)
Theorem mesh_RADIO_IRQHandler_rejects_good_frame fuel alloc w b f :
  getRxBuf w = Some b ->
  World.heap w !! b = Some f ->
  NRF.RADIO_EVENTS_END (World.nrf w) <> 0 ->
  NRF.RADIO_CRCSTATUS (World.nrf w) = 1 ->
  exists w',
    mesh_RADIO_IRQHandler MAX_PACKET_SIZE fuel alloc w = Ok w' /\
    World.heap w' = World.heap w /\
    World.radio w' = World.radio w /\
    firstn 5 (skipn (length (NRF.tasks (World.nrf w))) (NRF.tasks (World.nrf w')))
    = [TIMER0_TASKS_CLEAR; TIMER0_TASKS_START;
       TIMER0_TASKS_STOP; TIMER0_TASKS_CLEAR; RADIO_TASKS_DISABLE].
Proof.
  intros Hrx Hf Hend Hcrc. unfold mesh_RADIO_IRQHandler.
  apply Z.eqb_neq in Hend. rewrite Hend. simpl NRF.RADIO_CRCSTATUS. rewrite Hcrc. simpl Z.eqb.
  cbv iota. unfold getRxBuf at 1. simpl MicroBitMeshRadio.rxBuf. unfold getRxBuf in Hrx.
  rewrite Hrx. simpl deref. erewrite load_eq by (simpl; exact Hf). rewrite bind_Ok.
  erewrite compareSeqNo_of_active_buffer by (unfold getRxBuf; simpl; eauto).
  rewrite !bind_Ok. eexists. split; [reflexivity |].
  split; [| split].
  - by repeat (case_match; simpl).
  - by repeat (case_match; simpl).
  - repeat (case_match; simpl);
      rewrite <- ?app_assoc, drop_app_length; reflexivity.
Qed.

End SequenceFilter.

(** ** The datagram service *)

Section Datagram.
Variable MAX_PACKET_SIZE : Z.

Lemma memcpy_in_range dst src n :
  0 <= n -> n <= Z.of_nat (length src) -> n <= Z.of_nat (length dst) -> n < 2 ^ 32 ->
  memcpy dst src n = Ok (firstn (Z.to_nat n) src ++ skipn (Z.to_nat n) dst).
Proof.
  intros H0 Hsrc Hdst Hn. unfold memcpy, size_t. rewrite Z.mod_small by lia.
  destruct (Z.leb_spec n (Z.of_nat (length src))); [| lia].
  destruct (Z.leb_spec n (Z.of_nat (length dst))); [| lia]. done.
Qed.

(** A copy into a member array that fits is the plain copy. *)
Lemma memcpy_field_in_range field room src n :
  0 <= n -> n <= Z.of_nat (length src) -> n <= Z.of_nat (length field) -> n < 2 ^ 32 ->
  0 <= room ->
  memcpy_field field room src n = Ok (firstn (Z.to_nat n) src ++ skipn (Z.to_nat n) field).
Proof.
  intros H0 Hsrc Hdst Hn Hroom. unfold memcpy_field, size_t. rewrite Z.mod_small by lia.
  destruct (Z.leb_spec n (Z.of_nat (length src))); [| lia].
  destruct (Z.leb_spec n (Z.of_nat (length field) + room)); [| lia]. simpl. f_equal.
  apply firstn_all2. rewrite length_app, length_take, length_drop. lia.
Qed.

(** A copy that runs past the member, inside the variable, leaves the
    member filled with the first bytes of the source. *)
Lemma memcpy_field_overrun field room src n :
  Z.of_nat (length field) < n <= Z.of_nat (length field) + room ->
  n <= Z.of_nat (length src) -> n < 2 ^ 32 ->
  memcpy_field field room src n = Ok (firstn (length field) src).
Proof.
  intros Hn Hsrc Hmax. unfold memcpy_field, size_t. rewrite Z.mod_small by lia.
  destruct (Z.leb_spec n (Z.of_nat (length src))); [| lia].
  destruct (Z.leb_spec n (Z.of_nat (length field) + room)); [| lia]. simpl. f_equal.
  rewrite drop_ge, app_nil_r, take_take by lia. f_equal. lia.
Qed.

(** The byte stored from an [int] does not depend on the wrap of the
    [int]. *)
Lemma uint8_t_int32_t z : uint8_t (int32_t z) = uint8_t z.
Proof.
  unfold uint8_t, int32_t. rewrite (Z.mod_eq (z + 2 ^ 31)) by lia.
  replace (z + 2 ^ 31 - 2 ^ 32 * ((z + 2 ^ 31) / 2 ^ 32) - 2 ^ 31)
    with (z + (- (2 ^ 24 * ((z + 2 ^ 31) / 2 ^ 32))) * 256) by lia.
  apply Z_mod_plus_full.
Qed.

(** Inside the range of [int] nothing wraps. *)
Lemma int32_t_in_range z : - 2 ^ 31 <= z < 2 ^ 31 -> int32_t z = z.
Proof. intros Hz. unfold int32_t. rewrite Z.mod_small by lia. lia. Qed.


(** The frame a datagram [send] with a payload that fits puts on the air. *)
#[local] Abbreviation datagram_frame buf0 buffer len seqNo :=
  (SequencedFrameBuffer.Build (len + 3) 1 0 1 seqNo
     (firstn (Z.to_nat len) buffer ++ skipn (Z.to_nat len) (SequencedFrameBuffer.payload buf0))
     (SequencedFrameBuffer.next buf0) (SequencedFrameBuffer.rssi buf0)).

Lemma MicroBitMeshRadioDatagram_send_frame_fits buf0 buffer len :
  0 <= len <= MAX_PACKET_SIZE -> MAX_PACKET_SIZE <= 250 ->
  len <= Z.of_nat (length buffer) ->
  Z.of_nat (length (SequencedFrameBuffer.payload buf0)) = MAX_PACKET_SIZE ->
  MicroBitMeshRadioDatagram_send_frame buf0 buffer len
  = Ok (datagram_frame buf0 buffer len (SequencedFrameBuffer.seqNo buf0)).
Proof.
  intros Hlen Hmax Hbuffer Hpayload. unfold MicroBitMeshRadioDatagram_send_frame. simpl.
  rewrite memcpy_field_in_range by (unfold SequencedFrameBuffer_behind_payload; lia).
  rewrite bind_Ok.
  unfold SequencedFrameBuffer.set_payload, uint8_t,
    MICROBIT_MESH_RADIO_HEADER_SIZE, MICROBIT_MESH_RADIO_PROTOCOL_DATAGRAM. simpl.
  rewrite Z.mod_small by lia. do 2 f_equal. lia.
Qed.

Lemma MicroBitMeshRadioDatagram_send_fits buf0 buffer len w :
  World.ble w = false ->
  MicroBitMeshRadio.blockTransmit (World.radio w) = false ->
  0 <= len <= MAX_PACKET_SIZE -> MAX_PACKET_SIZE <= 250 ->
  len <= Z.of_nat (length buffer) ->
  Z.of_nat (length (SequencedFrameBuffer.payload buf0)) = MAX_PACKET_SIZE ->
  exists w',
    MicroBitMeshRadioDatagram_send MAX_PACKET_SIZE buf0 (Some buffer) len w
    = Ok (DEVICE_OK, w') /\
    World.air w'
    = World.air w ++
      [datagram_frame buf0 buffer len
         (uint8_t (MicroBitMeshRadio.currentSeqNo (World.radio w) + 1))] /\
    World.heap w' = World.heap w /\
    MicroBitMeshRadio.group (World.radio w') = MicroBitMeshRadio.group (World.radio w).
Proof.
  intros Hble Hblock Hlen Hmax Hbuffer Hpayload.
  unfold MicroBitMeshRadioDatagram_send.
  destruct (Z.ltb_spec len 0); [lia |].
  unfold MICROBIT_MESH_RADIO_HEADER_SIZE at 1.
  destruct (Z.ltb_spec (MAX_PACKET_SIZE + 4 - 1) len); [lia |]. simpl orb. cbv iota.
  rewrite MicroBitMeshRadioDatagram_send_frame_fits by done. rewrite bind_Ok.
  unfold send, pointee, assign. rewrite Hble, Hblock, bind_Ok.
  unfold MICROBIT_RADIO_HEADER_SIZE. simpl SequencedFrameBuffer.length.
  destruct (Z.ltb_spec (MAX_PACKET_SIZE + 4 - 1) (len + 3)); [lia |].
  eexists. split; [reflexivity |]. simpl. by rewrite uint8_t_int32_t.
Qed.

(** C4 (fails on the code).  For a payload of [len] bytes that fits,
    [send] stamps the length field of the outgoing frame with [len + 3],
    one less than the [4 + len] that counts version, group, protocol,
    sequence number and payload. *)
Theorem datagram_send_length_field buf0 buffer len w :
  World.ble w = false ->
  MicroBitMeshRadio.blockTransmit (World.radio w) = false ->
  0 <= len <= MAX_PACKET_SIZE -> MAX_PACKET_SIZE <= 250 ->
  len <= Z.of_nat (length buffer) ->
  Z.of_nat (length (SequencedFrameBuffer.payload buf0)) = MAX_PACKET_SIZE ->
  exists w' f,
    MicroBitMeshRadioDatagram_send MAX_PACKET_SIZE buf0 (Some buffer) len w
    = Ok (DEVICE_OK, w') /\
    last (World.air w') = Some f /\
    SequencedFrameBuffer.length f = len + 3 /\
    SequencedFrameBuffer.length f <> 4 + len.
Proof.
  intros Hble Hblock Hlen Hmax Hbuffer Hpayload.
  destruct (MicroBitMeshRadioDatagram_send_fits buf0 buffer len w)
    as (w' & Hrun & Hair & _); try done.
  exists w'. eexists. split; [done |]. rewrite Hair, last_snoc.
  split; [reflexivity |]. simpl. lia.
Qed.

(** C9.  Whatever group the radio has been configured with, the frame a
    datagram [send] puts on the air carries version 1, group 0 and
    protocol 1: the configured group is not copied into it. *)
Theorem datagram_send_header_constants buf0 buffer len group w :
  World.ble w = false ->
  MicroBitMeshRadio.blockTransmit (World.radio w) = false ->
  0 <= len <= MAX_PACKET_SIZE -> MAX_PACKET_SIZE <= 250 ->
  len <= Z.of_nat (length buffer) ->
  Z.of_nat (length (SequencedFrameBuffer.payload buf0)) = MAX_PACKET_SIZE ->
  exists w' f,
    MicroBitMeshRadioDatagram_send MAX_PACKET_SIZE buf0 (Some buffer) len
      (snd (setGroup group w))
    = Ok (DEVICE_OK, w') /\
    MicroBitMeshRadio.group (World.radio w') = group /\
    last (World.air w') = Some f /\
    SequencedFrameBuffer.version f = 1 /\
    SequencedFrameBuffer.group f = 0 /\
    SequencedFrameBuffer.protocol f = MICROBIT_MESH_RADIO_PROTOCOL_DATAGRAM.
Proof.
  intros Hble Hblock Hlen Hmax Hbuffer Hpayload.
  destruct (MicroBitMeshRadioDatagram_send_fits buf0 buffer len (snd (setGroup group w)))
    as (w' & Hrun & Hair & _ & Hgroup); try done.
  - unfold setGroup. rewrite Hble. done.
  - unfold setGroup. rewrite Hble. done.
  - exists w'. eexists. split; [done |]. rewrite Hgroup, Hair, last_snoc.
    unfold setGroup. rewrite Hble. done.
Qed.

(** The extraction of [recv] from a live head frame. *)
Lemma MicroBitMeshRadioDatagram_recv_head dst len w p f :
  MicroBitMeshRadioDatagram.rxQueue (World.datagram w) = Some p ->
  World.heap w !! p = Some f ->
  0 <= len ->
  MicroBitMeshRadioDatagram_recv (Some dst) len w
  = copied ← memcpy dst (SequencedFrameBuffer.payload f)
               (min len (SequencedFrameBuffer.length f - 3));
    Ok (min len (SequencedFrameBuffer.length f - 3),
        Some (Ok copied),
        World.set_heap (delete p (World.heap w))
          (with_datagram_rxQueue (SequencedFrameBuffer.next f) w)).
Proof.
  intros Hq Hf Hlen. unfold MicroBitMeshRadioDatagram_recv. rewrite Hq.
  destruct (Z.ltb_spec len 0); [lia |].
  rewrite (load_eq _ _ _ Hf), bind_Ok. cbv zeta.
  change (MICROBIT_MESH_RADIO_HEADER_SIZE - 1) with 3.
  destruct (memcpy _ _ _); [| done | done].
  rewrite !bind_Ok. unfold delete_frame. simpl. rewrite Hf. done.
Qed.

(** C7.  Round trip through the header accounting of the datagram
    service: the frame that [send] builds from [bytes] and puts on the
    air, once it is the head of a receiver's datagram queue (with any link
    and RSSI), is turned back by [recv] into exactly [bytes] at the front
    of a caller's array that is large enough, and [recv] returns their
    number. *)
Theorem datagram_round_trip buf0 bytes wA :
  World.ble wA = false ->
  MicroBitMeshRadio.blockTransmit (World.radio wA) = false ->
  Z.of_nat (length bytes) <= MAX_PACKET_SIZE -> MAX_PACKET_SIZE <= 250 ->
  Z.of_nat (length (SequencedFrameBuffer.payload buf0)) = MAX_PACKET_SIZE ->
  exists wA' f,
    MicroBitMeshRadioDatagram_send MAX_PACKET_SIZE buf0 (Some bytes)
      (Z.of_nat (length bytes)) wA
    = Ok (DEVICE_OK, wA') /\
    last (World.air wA') = Some f /\
    forall wB p link rssi dst len,
      MicroBitMeshRadioDatagram.rxQueue (World.datagram wB) = Some p ->
      World.heap wB !! p
      = Some (SequencedFrameBuffer.set_rssi rssi (SequencedFrameBuffer.set_next link f)) ->
      Z.of_nat (length bytes) <= len <= Z.of_nat (length dst) ->
      exists out wB',
        MicroBitMeshRadioDatagram_recv (Some dst) len wB
        = Ok (Z.of_nat (length bytes), Some (Ok out), wB') /\
        firstn (length bytes) out = bytes /\
        length out = length dst.
Proof.
  intros Hble Hblock Hlen Hmax Hpayload.
  destruct (MicroBitMeshRadioDatagram_send_fits buf0 bytes (Z.of_nat (length bytes)) wA)
    as (wA' & Hrun & Hair & _); try done; try lia.
  exists wA'. eexists. split; [done |]. rewrite Hair, last_snoc. split; [done |].
  intros wB p link rssi dst len Hq Hf Hdst.
  rewrite (MicroBitMeshRadioDatagram_recv_head dst len wB p _ Hq Hf) by lia. simpl.
  replace (Z.of_nat (length bytes) + 3 - 3) with (Z.of_nat (length bytes)) by lia.
  assert (min len (Z.of_nat (length bytes)) = Z.of_nat (length bytes)) as ->.
  { unfold min. destruct (Z.ltb_spec len (Z.of_nat (length bytes))); lia. }
  rewrite Nat2Z.id, firstn_all.
  rewrite memcpy_in_range; rewrite ?length_app, ?length_drop; try lia.
  rewrite Nat2Z.id. eexists _, _. split; [reflexivity |].
  rewrite !take_app_length. split; [done |].
  rewrite length_app, length_drop. lia.
Qed.



End Datagram.

(** ** Dispatch *)

Section Dispatch.

(** [recv] on a queue with head [p]. *)
Lemma recv_head w p f :
  MicroBitMeshRadio.rxQueue (World.radio w) = Some p ->
  World.heap w !! p = Some f ->
  exists w1,
    recv w = Ok (Some p, w1) /\
    World.heap w1 = World.heap w /\
    MicroBitMeshRadio.rxQueue (World.radio w1) = SequencedFrameBuffer.next f /\
    MicroBitMeshRadio.queueDepth (World.radio w1)
    = uint8_t (MicroBitMeshRadio.queueDepth (World.radio w) - 1) /\
    World.datagram w1 = World.datagram w /\
    World.bus w1 = World.bus w.
Proof.
  intros Hq Hf. unfold recv. rewrite Hq.
  erewrite load_eq by (simpl; exact Hf). rewrite bind_Ok. eexists. split; [reflexivity |]. done.
Qed.

(** What [packetReceived] does with the head [p] of the Receive Queue:
    it takes it off that queue and links it behind the datagram queue
    when the walk to the tail made fewer than 4 steps, which is when the
    datagram queue holds at most 4 frames; from 5 frames on it releases
    it. *)
Lemma packetReceived_spec fuel w p l dl :
  queues w (p :: l) dl -> (length dl <= fuel)%nat ->
  exists w',
    MicroBitMeshRadioDatagram_packetReceived fuel w = Ok w' /\
    receive_queue w' l /\
    MicroBitMeshRadio.queueDepth (World.radio w')
    = uint8_t (MicroBitMeshRadio.queueDepth (World.radio w) - 1) /\
    ((length dl <= 4)%nat /\ datagram_queue w' (dl ++ [p]) /\
     World.bus w' = World.bus w ++ [(DEVICE_ID_RADIO, MICROBIT_MESH_RADIO_EVT_DATAGRAM)]
     \/
     (5 <= length dl)%nat /\ datagram_queue w' dl /\
     World.heap w' !! p = None /\ World.bus w' = World.bus w).
Proof.
  intros (Hl & Hdl & Hdisj) Hfuel.
  pose proof (chain_NoDup _ _ _ Hl) as Hnd. apply NoDup_cons in Hnd as [Hpl _].
  assert (p ∉ dl) as Hpdl by (apply Hdisj; left).
  destruct Hl as [Hq (f & Hf & Hl)].
  destruct (recv_head w p f Hq Hf) as (w1 & Hrecv & Hh1 & Hq1 & Hqd1 & Hd1 & Hb1).
  unfold MicroBitMeshRadioDatagram_packetReceived. rewrite Hrecv, bind_Ok.
  erewrite load_eq by (rewrite Hh1; exact Hf). rewrite bind_Ok.
  set (fp := SequencedFrameBuffer.set_next None f). set (w2 := store p fp w1).
  assert (World.heap w2 = <[p := fp]> (World.heap w)) as Hh2 by (simpl; by rewrite Hh1).
  assert (receive_queue w2 l) as Hl2.
  { unfold receive_queue. simpl. rewrite Hh1, Hq1. by apply chain_insert_notin. }
  assert (datagram_queue w2 dl) as Hdl2.
  { unfold datagram_queue. simpl. rewrite Hh1, Hd1. by apply chain_insert_notin. }
  simpl World.datagram. rewrite Hd1.
  unfold datagram_queue in Hdl.
  destruct dl as [|q dl'].
  - simpl in Hdl. rewrite Hdl. eexists. split; [reflexivity |]. split; [exact Hl2 |].
    split; [simpl; by rewrite Hqd1 |]. left. split; [simpl; lia |]. split.
    + unfold datagram_queue. simpl. split; [done |]. exists fp.
      rewrite Hh1, lookup_insert_eq. done.
    + simpl. by rewrite Hb1.
  - pose proof Hdl as [Hdq _]. rewrite Hdq.
    unfold datagram_queue in Hdl2. simpl World.datagram in Hdl2. rewrite Hd1, Hdq in Hdl2.
    destruct (walk_and_count_chain w2 (q :: dl') fuel q 0 Hdl2 Hfuel) as (t & Hlast & Hwalk).
    rewrite Hwalk, bind_Ok. unfold MICROBIT_MESH_RADIO_MAXIMUM_RX_BUFFERS.
    pose proof (last_elem_of _ _ Hlast) as Htdl.
    assert (t ≠ p) as Htp by (intros ->; done).
    destruct (Z.leb_spec 4 (0 + Z.of_nat (length (q :: dl')) - 1)) as [Hfull | Hroom].
    + unfold delete_frame. rewrite Hh2, lookup_insert_eq.
      eexists. split; [reflexivity |]. split; [| split].
      * unfold receive_queue. simpl. rewrite ?Hh1, ?Hq1.
        by apply chain_delete_notin, chain_insert_notin.
      * simpl. by rewrite Hqd1.
      * right. split; [lia |]. split; [| split].
        -- unfold datagram_queue. simpl World.heap. simpl World.datagram.
           rewrite ?Hh1, ?Hd1, ?Hdq.
           apply chain_delete_notin; [done |]. rewrite <- Hh2. exact Hdl2.
        -- simpl. apply lookup_delete_eq.
        -- simpl. by rewrite Hb1.
    + destruct (chain_live _ _ _ t Hdl2 Htdl) as [ft Hft].
      rewrite (load_eq _ _ _ Hft), bind_Ok.
      eexists. split; [reflexivity |]. split; [| split].
      * unfold receive_queue. simpl. rewrite Hh1, Hq1.
        apply chain_insert_notin; [| by apply chain_insert_notin].
        intros Htl. apply (Hdisj t); [by right | done].
      * simpl. by rewrite Hqd1.
      * left. split; [lia |]. split; [| simpl; by rewrite Hb1].
        unfold datagram_queue. simpl World.heap. simpl World.datagram.
        rewrite Hd1, Hdq. change (<[p:=fp]> (World.heap w1)) with (World.heap w2).
        eapply (chain_link_tail _ (q :: dl') _ t ft p fp); try done.
        simpl. apply lookup_insert_eq.
Qed.

(** C6 (fails on the code).  With 4 frames in the datagram queue the walk
    to its tail makes 3 steps, so [packetReceived] does not drop the new
    frame: it links it behind the queue, which then holds 5 frames. *)
Theorem packetReceived_fifth_frame fuel w p l dl :
  queues w (p :: l) dl ->
  length dl = 4%nat ->
  (4 <= fuel)%nat ->
  exists w',
    MicroBitMeshRadioDatagram_packetReceived fuel w = Ok w' /\
    datagram_queue w' (dl ++ [p]) /\
    length (dl ++ [p]) = 5%nat.
Proof.
  intros Hq Hlen Hfuel.
  destruct (packetReceived_spec fuel w p l dl Hq) as (w' & Hrun & _ & _ & Hcases); [lia |].
  exists w'. split; [done |].
  destruct Hcases as [(_ & Hdl & _) | (Hfive & _)]; [| lia].
  split; [done |]. rewrite length_app. simpl. lia.
Qed.

(** The bound the code keeps: a sixth frame is dropped and released, and
    the queue of 5 is left as it was. *)
Lemma packetReceived_sixth_frame fuel w p l dl :
  queues w (p :: l) dl ->
  length dl = 5%nat ->
  (5 <= fuel)%nat ->
  exists w',
    MicroBitMeshRadioDatagram_packetReceived fuel w = Ok w' /\
    datagram_queue w' dl /\
    World.heap w' !! p = None.
Proof.
  intros Hq Hlen Hfuel.
  destruct (packetReceived_spec fuel w p l dl Hq) as (w' & Hrun & _ & _ & Hcases); [lia |].
  exists w'. split; [done |].
  destruct Hcases as [(Hfour & _) | (_ & Hdl & Hp & _)]; [lia | done].
Qed.

(** The head of a chain is not the head of its tail. *)
Lemma chain_head_ne h p q l : p ∉ l -> chain h q l -> q ≠ Some p.
Proof.
  intros Hp Hc ->. destruct l as [|a l]; [done |].
  destruct Hc as [[= <-] _]. apply Hp. left.
Qed.





End Dispatch.

(** ** The statements at the concrete machines *)

Section Concrete.
Import Example.

Lemma boot_reachable : reachable MAX_PACKET_SIZE boot.
Proof. by apply reachable_init. Qed.

Lemma enabled_reachable : reachable MAX_PACKET_SIZE enabled.
Proof.
  apply (reachable_enable MAX_PACKET_SIZE (Some 1%positive) boot DEVICE_OK);
    [apply boot_reachable | vm_compute; reflexivity].
Qed.

Lemma received_reachable got a w :
  reachable MAX_PACKET_SIZE w -> reachable MAX_PACKET_SIZE (received got a w).
Proof.
  intros Hw. unfold received.
  assert (reachable MAX_PACKET_SIZE (after (dma_receive got w))) as Hdma.
  { destruct (dma_receive got w) as [w1| |] eqn:Hrun; simpl;
      [by apply (reachable_dma MAX_PACKET_SIZE got w) | apply boot_reachable ..]. }
  destruct (queueRxBuf MAX_PACKET_SIZE 8 (Some a) (after (dma_receive got w)))
    as [[r w2]| |] eqn:Hrun; simpl; [| apply boot_reachable ..].
  by apply (reachable_queueRxBuf MAX_PACKET_SIZE 8 (Some a) (after (dma_receive got w)) r).
Qed.

End Concrete.

(** The first frame, numbered 5, that reaches a fresh radio is rejected. *)
Lemma mesh_RADIO_IRQHandler_rejects_frame5 :
  exists w',
    mesh_RADIO_IRQHandler 32 0 None Example.frame5_arrived = Ok w' /\
    World.heap w' = World.heap Example.frame5_arrived /\
    World.radio w' = World.radio Example.frame5_arrived /\
    firstn 5 (skipn (length (NRF.tasks (World.nrf Example.frame5_arrived)))
                (NRF.tasks (World.nrf w')))
    = [TIMER0_TASKS_CLEAR; TIMER0_TASKS_START;
       TIMER0_TASKS_STOP; TIMER0_TASKS_CLEAR; RADIO_TASKS_DISABLE].
Proof.
  apply (mesh_RADIO_IRQHandler_rejects_good_frame 32 0 None Example.frame5_arrived
           1%positive (Example.wire 13 1 5)).
  - vm_compute; reflexivity.
  - vm_compute; reflexivity.
  - simpl; lia.
  - reflexivity.
Defined.

(** The count after two receptions. *)
Lemma queueDepth_is_queue_length_queued2 :
  exists l, receive_queue Example.queued2 l /\
            dataReady Example.queued2 = Z.of_nat (length l) /\
            dataReady Example.queued2 <= 4.
Proof.
  apply (queueDepth_is_queue_length 32 Example.queued2).
  do 2 apply received_reachable. apply enabled_reachable.
Defined.

(** A queue of four refuses the next buffer. *)
Lemma queueRxBuf_full_queue_queued4 :
  queueRxBuf 32 0 (Some 9%positive) Example.queued4
  = Ok (DEVICE_NO_RESOURCES, Example.queued4).
Proof.
  apply (queueRxBuf_full_queue 32 0 (Some 9%positive) Example.queued4 [1; 2; 3; 4]%positive).
  - apply (radio_inv_intro _ _ 5%positive (zero_frame 32)).
    + unfold receive_queue. solve_chain.
    + reflexivity.
    + unfold MICROBIT_RADIO_MAXIMUM_RX_BUFFERS. simpl; lia.
    + reflexivity.
    + vm_compute; reflexivity.
    + rewrite !elem_of_cons, elem_of_nil. lia.
  - reflexivity.
Defined.

(** A datagram of 10 bytes: the length field is 13. *)
Lemma datagram_send_length_field_10_bytes :
  exists w' f,
    MicroBitMeshRadioDatagram_send 32 (zero_frame 32)
      (Some [1; 2; 3; 4; 5; 6; 7; 8; 9; 10]) 10 Example.boot
    = Ok (DEVICE_OK, w') /\
    last (World.air w') = Some f /\
    SequencedFrameBuffer.length f = 10 + 3 /\
    SequencedFrameBuffer.length f <> 4 + 10.
Proof.
  apply (datagram_send_length_field 32 (zero_frame 32)
           [1; 2; 3; 4; 5; 6; 7; 8; 9; 10] 10 Example.boot).
  - reflexivity.
  - reflexivity.
  - lia.
  - lia.
  - simpl; lia.
  - reflexivity.
Defined.

(** A failed allocation with one frame queued and the buffer at address 2
    active. *)
Lemma queueRxBuf_allocation_failure_queued1 :
  queueRxBuf 32 0 None Example.queued1 = Undefined /\
  forall fuel' alloc r w',
    queueRxBuf 32 fuel' alloc Example.queued1 = Ok (r, w') ->
    r = DEVICE_OK /\ r <> DEVICE_NO_RESOURCES /\
    (exists a, alloc = Some a /\ getRxBuf w' = Some a).
Proof.
  apply (queueRxBuf_allocation_failure 32 0 Example.queued1 [1%positive] 2%positive).
  - apply (radio_inv_intro _ _ 2%positive (zero_frame 32)).
    + unfold receive_queue. solve_chain.
    + reflexivity.
    + unfold MICROBIT_RADIO_MAXIMUM_RX_BUFFERS. simpl; lia.
    + reflexivity.
    + vm_compute; reflexivity.
    + rewrite !elem_of_cons, elem_of_nil. lia.
  - reflexivity.
  - unfold MICROBIT_RADIO_MAXIMUM_RX_BUFFERS. simpl; lia.
Defined.

(** A datagram queue of four: the fifth frame is linked in. *)
Lemma packetReceived_fifth_frame_datagrams4 :
  exists w',
    MicroBitMeshRadioDatagram_packetReceived 4 Example.datagrams4 = Ok w' /\
    datagram_queue w' ([1; 2; 3; 4]%positive ++ [5%positive]) /\
    length ([1; 2; 3; 4]%positive ++ [5%positive]) = 5%nat.
Proof.
  apply (packetReceived_fifth_frame 4 Example.datagrams4 5%positive [] [1; 2; 3; 4]%positive).
  - unfold queues, receive_queue, datagram_queue.
    split; [solve_chain | split; [solve_chain |]].
    intros a. rewrite !elem_of_cons, !elem_of_nil. lia.
  - reflexivity.
  - lia.
Defined.

(** The round trip of a datagram of three bytes. *)
Lemma datagram_round_trip_3_bytes :
  exists wA' f,
    MicroBitMeshRadioDatagram_send 32 (zero_frame 32) (Some [104; 105; 33])
      (Z.of_nat (length [104; 105; 33])) Example.boot
    = Ok (DEVICE_OK, wA') /\
    last (World.air wA') = Some f /\
    forall wB p link rssi dst len,
      MicroBitMeshRadioDatagram.rxQueue (World.datagram wB) = Some p ->
      World.heap wB !! p
      = Some (SequencedFrameBuffer.set_rssi rssi (SequencedFrameBuffer.set_next link f)) ->
      Z.of_nat (length [104; 105; 33]) <= len <= Z.of_nat (length dst) ->
      exists out wB',
        MicroBitMeshRadioDatagram_recv (Some dst) len wB
        = Ok (Z.of_nat (length [104; 105; 33]), Some (Ok out), wB') /\
        firstn (length [104; 105; 33]) out = [104; 105; 33] /\
        length out = length dst.
Proof.
  apply (datagram_round_trip 32 (zero_frame 32) [104; 105; 33] Example.boot).
  - reflexivity.
  - reflexivity.
  - simpl; lia.
  - lia.
  - reflexivity.
Defined.


(** The header sent by a radio configured for group 42. *)
Lemma datagram_send_header_constants_group_42 :
  exists w' f,
    MicroBitMeshRadioDatagram_send 32 (zero_frame 32) (Some [104; 105; 33]) 3
      (snd (setGroup 42 Example.boot))
    = Ok (DEVICE_OK, w') /\
    MicroBitMeshRadio.group (World.radio w') = 42 /\
    last (World.air w') = Some f /\
    SequencedFrameBuffer.version f = 1 /\
    SequencedFrameBuffer.group f = 0 /\
    SequencedFrameBuffer.protocol f = MICROBIT_MESH_RADIO_PROTOCOL_DATAGRAM.
Proof.
  apply (datagram_send_header_constants 32 (zero_frame 32) [104; 105; 33] 3 42 Example.boot).
  - reflexivity.
  - reflexivity.
  - lia.
  - lia.
  - simpl; lia.
  - reflexivity.
Defined.


(** With 5 in the active buffer the filter accepts 7 and then 6. *)
Example compareSeqNo_accepts_7_then_6 :
  exists w1 w2,
    compareSeqNo 7 Example.frame5_arrived = Ok (true, w1) /\
    compareSeqNo 6 w1 = Ok (true, w2).
Proof.
  apply (compareSeqNo_accepts_smaller_next 7 6 Example.frame5_arrived 1%positive
           (Example.wire 13 1 5)).
  - reflexivity.
  - vm_compute; reflexivity.
  - simpl; lia.
  - lia.
Qed.

(** * Further properties of the driver *)

(** ** Status flags *)

(** Bitwise identities between [Z.land], [Z.lor] and [Z.lnot], decided bit
    by bit; the hypotheses named are used as facts about the same bit. *)
Ltac bitwise_with Hs :=
  let n := fresh "n" in
  let Hn := fresh "Hn" in
  apply Z.bits_inj'; intros n Hn;
  Hs n;
  repeat first [ rewrite Z.land_spec in *
               | rewrite Z.lor_spec in *
               | rewrite Z.lnot_spec in * by lia
               | rewrite Z.bits_0 in * ];
  repeat match goal with
         | |- context [Z.testbit ?x n] => destruct (Z.testbit x n)
         | H : context [Z.testbit ?x n] |- _ => destruct (Z.testbit x n)
         end;
  simpl in *; congruence.

Ltac bitwise := bitwise_with ltac:(fun _ => idtac).

Section StatusFlags.

Lemma land_lor_flag s m : Z.land (Z.lor s m) m = m.
Proof. bitwise. Qed.

Lemma land_clear_flag s m : Z.land (Z.land s (Z.lnot m)) m = 0.
Proof. bitwise. Qed.

(** A single-bit flag is either absent or present. *)
Lemma land_pow2_cases s k :
  0 <= k -> Z.land s (2 ^ k) = 0 \/ Z.land s (2 ^ k) = 2 ^ k.
Proof.
  intros Hk. destruct (Z.testbit s k) eqn:Hbit; [right | left];
    apply Z.bits_inj'; intros n Hn;
    rewrite Z.land_spec, ?Z.bits_0, Z.pow2_bits_eqb by lia;
    destruct (Z.eqb_spec k n) as [-> | Hne]; rewrite ?Hbit, ?andb_false_r; done.
Qed.

Lemma has_status_pow2 k w :
  0 <= k -> has_status (2 ^ k) w = true ->
  Z.land (MicroBitMeshRadio.status (World.radio w)) (2 ^ k) = 2 ^ k.
Proof.
  intros Hk. unfold has_status.
  destruct (land_pow2_cases (MicroBitMeshRadio.status (World.radio w)) k Hk) as [-> | ->];
    [done | done].
Qed.

Lemma has_status_false flag w :
  has_status flag w = false ->
  Z.land (MicroBitMeshRadio.status (World.radio w)) flag = 0.
Proof.
  unfold has_status. intros H. apply negb_false_iff in H. by apply Z.eqb_eq.
Qed.

Lemma has_status_raise flag w : flag <> 0 -> has_status flag (raise_status flag w) = true.
Proof.
  intros Hflag. unfold has_status, raise_status. simpl. rewrite land_lor_flag.
  by apply negb_true_iff, Z.eqb_neq.
Qed.

Lemma has_status_clear flag w : has_status flag (clear_status flag w) = false.
Proof. unfold has_status, clear_status. simpl. by rewrite land_clear_flag. Qed.

End StatusFlags.

(** ** Enabling and disabling *)

Section EnableDisable.
Variable MAX_PACKET_SIZE : Z.

(** [enable()] on a radio that is not initialised and has no buffer yet,
    with a fresh address from the allocator. *)
Lemma enable_fresh a w :
  initialised w = false ->
  World.ble w = false ->
  getRxBuf w = None ->
  World.heap w !! a = None ->
  exists w',
    enable MAX_PACKET_SIZE (Some a) w = Ok (DEVICE_OK, w') /\
    initialised w' = true /\
    has_status DEVICE_COMPONENT_STATUS_IDLE_TICK w' = true /\
    getRxBuf w' = Some a /\
    World.heap w' = <[a := zero_frame MAX_PACKET_SIZE]> (World.heap w) /\
    NRF.RADIO_PACKETPTR (World.nrf w') = Some a /\
    NRF.RADIO_PREFIX0 (World.nrf w') = MicroBitMeshRadio.group (World.radio w) /\
    NRF.RADIO_IRQ (World.nrf w') = true /\
    last (NRF.tasks (World.nrf w')) = Some RADIO_TASKS_START /\
    MicroBitMeshRadio.rxQueue (World.radio w') = MicroBitMeshRadio.rxQueue (World.radio w) /\
    dataReady w' = dataReady w.
Proof.
  intros Hinit Hble Hrx Ha. unfold getRxBuf in Hrx. unfold enable.
  rewrite Hinit, Hble, Hrx. simpl. rewrite Ha. simpl.
  unfold setGroup. simpl. rewrite Hble. simpl.
  eexists. split; [reflexivity |].
  unfold initialised, has_status, getRxBuf, dataReady. simpl.
  rewrite land_lor_flag, last_snoc.
  replace (Z.land _ DEVICE_COMPONENT_STATUS_IDLE_TICK) with DEVICE_COMPONENT_STATUS_IDLE_TICK
    by (symmetry; bitwise).
  done.
Qed.

(** X1.  The first [enable()] of a radio without BLE, with memory for the
    receive buffer: it returns [DEVICE_OK]; the radio is initialised and
    registered for idle ticks; the new zeroed buffer is the active buffer
    and the target of the peripheral; the address prefix is the
    configured group; the radio interrupt is enabled and reception has
    been started; the Receive Queue is not touched. *)
Theorem enable_first a w :
  initialised w = false ->
  World.ble w = false ->
  getRxBuf w = None ->
  World.heap w !! a = None ->
  exists w',
    enable MAX_PACKET_SIZE (Some a) w = Ok (DEVICE_OK, w') /\
    initialised w' = true /\
    has_status DEVICE_COMPONENT_STATUS_IDLE_TICK w' = true /\
    getRxBuf w' = Some a /\
    World.heap w' = <[a := zero_frame MAX_PACKET_SIZE]> (World.heap w) /\
    NRF.RADIO_PACKETPTR (World.nrf w') = Some a /\
    NRF.RADIO_PREFIX0 (World.nrf w') = MicroBitMeshRadio.group (World.radio w) /\
    NRF.RADIO_IRQ (World.nrf w') = true /\
    last (NRF.tasks (World.nrf w')) = Some RADIO_TASKS_START /\
    MicroBitMeshRadio.rxQueue (World.radio w') = MicroBitMeshRadio.rxQueue (World.radio w) /\
    dataReady w' = dataReady w.
Proof. apply enable_fresh. Qed.

(** [enable()] answers [DEVICE_OK] only with the radio initialised. *)
Lemma enable_ok_initialised alloc w w' :
  enable MAX_PACKET_SIZE alloc w = Ok (DEVICE_OK, w') -> initialised w' = true.
Proof.
  unfold enable. destruct (initialised w) eqn:Hinit; [by intros [= <-] |].
  destruct (World.ble w) eqn:Hble; [done |].
  destruct (MicroBitMeshRadio.rxBuf (World.radio w)) as [b|] eqn:Hrx.
  - rewrite bind_Ok, Hrx. intros [= <-]. unfold initialised. simpl.
    by rewrite land_lor_flag.
  - destruct alloc as [a|]; simpl; [| done].
    destruct (World.heap w !! a); [done |]. simpl. intros [= <-].
    unfold initialised. simpl. by rewrite land_lor_flag.
Qed.

(** X2.  [enable()] is idempotent: once it has returned [DEVICE_OK], any
    further [enable()] returns [DEVICE_OK] and changes nothing, whatever
    the allocator would answer. *)
Theorem enable_idempotent alloc alloc' w w' :
  enable MAX_PACKET_SIZE alloc w = Ok (DEVICE_OK, w') ->
  enable MAX_PACKET_SIZE alloc' w' = Ok (DEVICE_OK, w').
Proof.
  intros Hrun. unfold enable at 1. by rewrite (enable_ok_initialised alloc w w' Hrun).
Qed.

(** X3.  [enable()] compares the pointer of its [new] with NULL and
    answers [DEVICE_NO_RESOURCES] there, but the plain new-expression
    never yields NULL.  When the first [enable()] of a radio without BLE
    finds no memory the call has no result; and whatever the allocator
    answers, a call that returns has returned [DEVICE_OK] with the
    allocator's buffer as the active buffer of an initialised radio:
    [DEVICE_NO_RESOURCES] is never returned. *)
Theorem enable_allocation_failure w :
  initialised w = false ->
  World.ble w = false ->
  getRxBuf w = None ->
  enable MAX_PACKET_SIZE None w = Undefined /\
  forall alloc r w',
    enable MAX_PACKET_SIZE alloc w = Ok (r, w') ->
    r = DEVICE_OK /\ r <> DEVICE_NO_RESOURCES /\
    (exists a, alloc = Some a /\ getRxBuf w' = Some a /\ initialised w' = true).
Proof.
  intros Hinit Hble Hrx. unfold getRxBuf in Hrx. split.
  - unfold enable. rewrite Hinit, Hble, Hrx. done.
  - intros [a|] r w' Hrun.
    2:{ unfold enable in Hrun. rewrite Hinit, Hble, Hrx in Hrun. done. }
    destruct (World.heap w !! a) eqn:Ha.
    { unfold enable, new_SequencedFrameBuffer in Hrun.
      rewrite Hinit, Hble, Hrx, Ha in Hrun. done. }
    destruct (enable_fresh a w) as (w2 & Hrun2 & Hinit2 & _ & Hrx2 & _); try done.
    rewrite Hrun2 in Hrun. injection Hrun as <- <-. eauto 10.
Qed.

(** X4.  [disable()] on an initialised radio without BLE returns
    [DEVICE_OK], stops the peripheral with the radio interrupt disabled,
    clears the initialised and idle-tick flags and no other flag, and
    keeps the configuration, the active buffer, the Receive Queue and the
    store. *)
Theorem disable_initialised w :
  initialised w = true ->
  World.ble w = false ->
  exists w',
    disable w = (DEVICE_OK, w') /\
    initialised w' = false /\
    has_status DEVICE_COMPONENT_STATUS_IDLE_TICK w' = false /\
    (forall flag,
       Z.land flag (Z.lor DEVICE_COMPONENT_STATUS_IDLE_TICK
                      MICROBIT_RADIO_STATUS_INITIALISED) = 0 ->
       Z.land (MicroBitMeshRadio.status (World.radio w')) flag
       = Z.land (MicroBitMeshRadio.status (World.radio w)) flag) /\
    NRF.RADIO_IRQ (World.nrf w') = false /\
    last (NRF.tasks (World.nrf w')) = Some RADIO_TASKS_DISABLE /\
    radio_view w' = radio_view w /\
    MicroBitMeshRadio.band (World.radio w') = MicroBitMeshRadio.band (World.radio w) /\
    MicroBitMeshRadio.power (World.radio w') = MicroBitMeshRadio.power (World.radio w) /\
    MicroBitMeshRadio.group (World.radio w') = MicroBitMeshRadio.group (World.radio w) /\
    World.datagram w' = World.datagram w.
Proof.
  intros Hinit Hble. unfold disable. rewrite Hble, Hinit. simpl.
  eexists. split; [reflexivity |].
  unfold initialised, has_status, radio_view. simpl.
  rewrite land_clear_flag, last_snoc.
  replace (Z.land _ DEVICE_COMPONENT_STATUS_IDLE_TICK) with 0 by (symmetry; bitwise).
  repeat split; try done.
  intros flag Hflag. bitwise_with ltac:(fun n =>
    apply (f_equal (fun x => Z.testbit x n)) in Hflag).
Qed.

(** X5.  [disable()] is idempotent: a second call returns what the first
    returned and leaves the machine as the first left it. *)
Theorem disable_idempotent w : disable (snd (disable w)) = disable w.
Proof.
  unfold disable at 2 3.
  destruct (World.ble w) eqn:Hble; [simpl; unfold disable; by rewrite Hble |].
  destruct (initialised w) eqn:Hinit; simpl; [| unfold disable; by rewrite Hble, Hinit].
  unfold disable. simpl. rewrite Hble. unfold initialised. simpl.
  by rewrite land_clear_flag.
Qed.

End EnableDisable.

(** ** Sleep *)

Section Sleep.
Variable MAX_PACKET_SIZE : Z.

Lemma radio_ext (r r' : MicroBitMeshRadio.t) :
  MicroBitMeshRadio.status r = MicroBitMeshRadio.status r' ->
  MicroBitMeshRadio.band r = MicroBitMeshRadio.band r' ->
  MicroBitMeshRadio.power r = MicroBitMeshRadio.power r' ->
  MicroBitMeshRadio.group r = MicroBitMeshRadio.group r' ->
  MicroBitMeshRadio.queueDepth r = MicroBitMeshRadio.queueDepth r' ->
  MicroBitMeshRadio.rssi r = MicroBitMeshRadio.rssi r' ->
  MicroBitMeshRadio.rxQueue r = MicroBitMeshRadio.rxQueue r' ->
  MicroBitMeshRadio.rxBuf r = MicroBitMeshRadio.rxBuf r' ->
  MicroBitMeshRadio.blockTransmit r = MicroBitMeshRadio.blockTransmit r' ->
  MicroBitMeshRadio.currentSeqNo r = MicroBitMeshRadio.currentSeqNo r' ->
  r = r'.
Proof. destruct r, r'. simpl. by intros -> -> -> -> -> -> -> -> -> ->. Qed.

Lemma initialised_flag w :
  initialised w = true ->
  Z.land (MicroBitMeshRadio.status (World.radio w)) MICROBIT_RADIO_STATUS_INITIALISED
  = MICROBIT_RADIO_STATUS_INITIALISED.
Proof. intros H. by apply (has_status_pow2 0). Qed.

Lemma idle_tick_flag w :
  has_status DEVICE_COMPONENT_STATUS_IDLE_TICK w = true ->
  Z.land (MicroBitMeshRadio.status (World.radio w)) DEVICE_COMPONENT_STATUS_IDLE_TICK
  = DEVICE_COMPONENT_STATUS_IDLE_TICK.
Proof. intros H. by apply (has_status_pow2 13). Qed.

(** X6.  [disable()] followed by [enable()] brings an enabled radio back
    as it was: the second needs no memory (it reuses the active buffer,
    whatever the allocator would answer), and the controller's fields and
    the store are those from before the [disable()]; the peripheral
    targets the active buffer again with the interrupt enabled. *)
Theorem enable_after_disable alloc w b :
  initialised w = true ->
  has_status DEVICE_COMPONENT_STATUS_IDLE_TICK w = true ->
  World.ble w = false ->
  getRxBuf w = Some b ->
  exists w',
    enable MAX_PACKET_SIZE alloc (snd (disable w)) = Ok (DEVICE_OK, w') /\
    World.radio w' = World.radio w /\
    World.heap w' = World.heap w /\
    NRF.RADIO_PACKETPTR (World.nrf w') = Some b /\
    NRF.RADIO_IRQ (World.nrf w') = true.
Proof.
  intros Hinit Htick Hble Hrx. unfold getRxBuf in Hrx.
  pose proof (initialised_flag w Hinit) as Hi. pose proof (idle_tick_flag w Htick) as Ht.
  unfold disable. rewrite Hble, Hinit. simpl.
  unfold enable, initialised. simpl. rewrite land_clear_flag, Hble, Hrx. simpl.
  rewrite ?Hrx. unfold setGroup. simpl. rewrite Hble. simpl.
  eexists. split; [reflexivity |]. simpl. split; [| by rewrite ?Hrx].
  apply radio_ext; try reflexivity. simpl.
  bitwise_with ltac:(fun n =>
    apply (f_equal (fun x => Z.testbit x n)) in Hi;
    apply (f_equal (fun x => Z.testbit x n)) in Ht).
Qed.

(** X7.  Sleeping and waking an enabled radio: [setSleep(true)] returns
    [DEVICE_OK] and leaves the radio disabled with the radio interrupt
    off; [setSleep(false)] then returns [DEVICE_OK] and the controller's
    fields and the store are what they were before the sleep, with the
    interrupt on again.  No memory is needed on the way. *)
Theorem setSleep_round_trip alloc alloc' w b :
  initialised w = true ->
  has_status DEVICE_COMPONENT_STATUS_IDLE_TICK w = true ->
  has_status MICROBIT_RADIO_STATUS_DEEPSLEEP_INIT w = false ->
  World.ble w = false ->
  getRxBuf w = Some b ->
  exists w1 w2,
    setSleep MAX_PACKET_SIZE true alloc w = Ok (DEVICE_OK, w1) /\
    initialised w1 = false /\
    NRF.RADIO_IRQ (World.nrf w1) = false /\
    setSleep MAX_PACKET_SIZE false alloc' w1 = Ok (DEVICE_OK, w2) /\
    World.radio w2 = World.radio w /\
    World.heap w2 = World.heap w /\
    NRF.RADIO_IRQ (World.nrf w2) = true.
Proof.
  intros Hinit Htick Hdeep Hble Hrx. unfold getRxBuf in Hrx.
  pose proof (initialised_flag w Hinit) as Hi. pose proof (idle_tick_flag w Htick) as Ht.
  pose proof (has_status_false _ w Hdeep) as Hd.
  unfold setSleep at 1. rewrite Hble, Hinit.
  unfold disable. rewrite Hble, Hinit. simpl.
  eexists _, _. split; [reflexivity |].
  unfold setSleep, initialised. simpl. rewrite Hble.
  rewrite has_status_raise by done.
  unfold enable, initialised. simpl. rewrite Hble, Hrx.
  assert (forall s, Z.land (Z.land (Z.lor (Z.land s (Z.lnot 1)) 4) (Z.lnot 4)) 1 = 0) as Hclr
    by (intros s; bitwise).
  assert (forall s, Z.land (Z.lor (Z.land s (Z.lnot 1)) 4) 1 = 0) as Hclr'.
  { intros s. rewrite Z.land_lor_distr_l, land_clear_flag. done. }
  unfold MICROBIT_RADIO_STATUS_DEEPSLEEP_INIT, MICROBIT_RADIO_STATUS_INITIALISED in *.
  rewrite Hclr, Hclr'. simpl.
  unfold setGroup. simpl. rewrite Hble. simpl. rewrite ?Hrx.
  split; [done |]. split; [done |]. split; [reflexivity |]. split; [| done].
  apply radio_ext; try reflexivity. simpl.
  bitwise_with ltac:(fun n =>
    apply (f_equal (fun x => Z.testbit x n)) in Hi;
    apply (f_equal (fun x => Z.testbit x n)) in Ht;
    apply (f_equal (fun x => Z.testbit x n)) in Hd).
Qed.

(** X8.  Sleeping and waking a radio that is not enabled while its
    interrupt is on: [setSleep(true)] switches the interrupt off and
    records that it did; [setSleep(false)] switches it on again, and the
    controller's fields are what they were. *)
Theorem setSleep_round_trip_irq alloc alloc' w :
  initialised w = false ->
  has_status MICROBIT_RADIO_STATUS_DEEPSLEEP_INIT w = false ->
  has_status MICROBIT_RADIO_STATUS_DEEPSLEEP_IRQ w = false ->
  World.ble w = false ->
  NRF.RADIO_IRQ (World.nrf w) = true ->
  exists w1 w2,
    setSleep MAX_PACKET_SIZE true alloc w = Ok (DEVICE_OK, w1) /\
    NRF.RADIO_IRQ (World.nrf w1) = false /\
    has_status MICROBIT_RADIO_STATUS_DEEPSLEEP_IRQ w1 = true /\
    setSleep MAX_PACKET_SIZE false alloc' w1 = Ok (DEVICE_OK, w2) /\
    World.radio w2 = World.radio w /\
    World.heap w2 = World.heap w /\
    NRF.RADIO_IRQ (World.nrf w2) = true.
Proof.
  intros Hinit Hdeep Hirqf Hble Hirq.
  pose proof (has_status_false _ w Hdeep) as Hd.
  pose proof (has_status_false _ w Hirqf) as Hq.
  unfold setSleep at 1. rewrite Hble, Hinit, Hirq.
  eexists _, _. split; [reflexivity |]. split; [done |].
  split; [by apply has_status_raise |].
  unfold setSleep. simpl. rewrite Hble.
  assert (has_status MICROBIT_RADIO_STATUS_DEEPSLEEP_INIT
            (with_nrf (NRF.set_RADIO_IRQ false)
               (raise_status MICROBIT_RADIO_STATUS_DEEPSLEEP_IRQ w)) = false) as ->.
  { unfold has_status. simpl. by rewrite Z.land_lor_distr_l, Hd. }
  assert (has_status MICROBIT_RADIO_STATUS_DEEPSLEEP_IRQ
            (with_nrf (NRF.set_RADIO_IRQ false)
               (raise_status MICROBIT_RADIO_STATUS_DEEPSLEEP_IRQ w)) = true) as ->.
  { unfold has_status. simpl. by rewrite land_lor_flag. }
  split; [reflexivity |]. split; [| done].
  apply radio_ext; try reflexivity. simpl.
  bitwise_with ltac:(fun n => apply (f_equal (fun x => Z.testbit x n)) in Hq).
Qed.

(** X9.  [setSleep(true)] may be repeated: a second call returns what the
    first returned and leaves the machine as the first left it. *)
Theorem setSleep_sleep_idempotent alloc alloc' w r w1 :
  setSleep MAX_PACKET_SIZE true alloc w = Ok (r, w1) ->
  setSleep MAX_PACKET_SIZE true alloc' w1 = Ok (r, w1).
Proof.
  unfold setSleep at 1. destruct (World.ble w) eqn:Hble.
  { intros [= <- <-]. unfold setSleep. by rewrite Hble. }
  destruct (initialised w) eqn:Hinit.
  - intros [= <- <-]. unfold setSleep, disable. rewrite Hble, Hinit. simpl.
    rewrite Hble. unfold initialised. simpl.
    unfold MICROBIT_RADIO_STATUS_DEEPSLEEP_INIT, MICROBIT_RADIO_STATUS_INITIALISED.
    by rewrite Z.land_lor_distr_l, land_clear_flag.
  - destruct (NRF.RADIO_IRQ (World.nrf w)) eqn:Hirq; intros [= <- <-].
    + unfold setSleep. simpl. rewrite Hble. unfold initialised in *. simpl.
      apply negb_false_iff, Z.eqb_eq in Hinit.
      by rewrite Z.land_lor_distr_l, Hinit.
    + unfold setSleep. by rewrite Hble, Hinit, Hirq.
Qed.

End Sleep.

(** ** Tuning *)

Section Tuning.
Variable POWER_LEVELS : Z.

(** The table rises: its entries, read as signed bytes, grow with the
    index. *)
Lemma MICROBIT_RADIO_POWER_LEVEL_rises (i j : nat) a b :
  (i < j)%nat ->
  MICROBIT_RADIO_POWER_LEVEL !! i = Some a ->
  MICROBIT_RADIO_POWER_LEVEL !! j = Some b ->
  int8_t a < int8_t b.
Proof.
  intros Hij Hi Hj. unfold MICROBIT_RADIO_POWER_LEVEL in *.
  do 8 (destruct i as [|i];
        [do 8 (destruct j as [|j];
               [first [lia | simpl in *; injection Hi as <-; injection Hj as <-; reflexivity]
               |]);
         simpl in Hj; discriminate |]).
  simpl in Hi. discriminate.
Qed.

(** X10.  With at most the eight levels of the table admitted,
    [setTransmitPower] accepts every level from 0 below the bound: it
    records the level and programs TXPOWER with the level's table entry,
    leaving FREQUENCY alone, and a higher level programs a higher power
    (the entries read as signed dBm values).  A level outside the bound
    is refused with [DEVICE_INVALID_PARAMETER] and changes nothing. *)
Theorem setTransmitPower_levels p q w t :
  POWER_LEVELS <= 8 ->
  0 <= p -> p < q -> q < POWER_LEVELS ->
  (exists t1 t2,
     setTransmitPower POWER_LEVELS p w t = Ok (DEVICE_OK, with_radio (set_power p) w, t1) /\
     setTransmitPower POWER_LEVELS q w t = Ok (DEVICE_OK, with_radio (set_power q) w, t2) /\
     MICROBIT_RADIO_POWER_LEVEL !! Z.to_nat p = Some (Tuner.RADIO_TXPOWER t1) /\
     MICROBIT_RADIO_POWER_LEVEL !! Z.to_nat q = Some (Tuner.RADIO_TXPOWER t2) /\
     int8_t (Tuner.RADIO_TXPOWER t1) < int8_t (Tuner.RADIO_TXPOWER t2) /\
     Tuner.RADIO_FREQUENCY t1 = Tuner.RADIO_FREQUENCY t /\
     Tuner.RADIO_FREQUENCY t2 = Tuner.RADIO_FREQUENCY t) /\
  (forall bad, bad < 0 \/ POWER_LEVELS <= bad ->
     setTransmitPower POWER_LEVELS bad w t = Ok (DEVICE_INVALID_PARAMETER, w, t)).
Proof.
  intros Hlevels Hp Hpq Hq. split.
  - unfold setTransmitPower.
    destruct (Z.ltb_spec p 0); [lia |]. destruct (Z.ltb_spec q 0); [lia |].
    destruct (Z.leb_spec POWER_LEVELS p); [lia |].
    destruct (Z.leb_spec POWER_LEVELS q); [lia |]. simpl orb. cbv iota.
    unfold uint8_t. rewrite !Z.mod_small by lia.
    assert (exists i j, p = Z.of_nat i /\ q = Z.of_nat j /\ (i < j < 8)%nat)
      as (i & j & -> & -> & Hij).
    { exists (Z.to_nat p), (Z.to_nat q). lia. }
    rewrite !Nat2Z.id.
    destruct (lookup_lt_is_Some_2 MICROBIT_RADIO_POWER_LEVEL i) as [a Ha]; [simpl; lia |].
    destruct (lookup_lt_is_Some_2 MICROBIT_RADIO_POWER_LEVEL j) as [b Hb]; [simpl; lia |].
    rewrite Ha, Hb. eexists _, _. repeat split; try done. simpl.
    apply (MICROBIT_RADIO_POWER_LEVEL_rises i j); [lia | done | done].
  - intros bad Hbad. unfold setTransmitPower.
    destruct (Z.ltb_spec bad 0), (Z.leb_spec POWER_LEVELS bad); try done. lia.
Qed.

End Tuning.

Section Frequency.

(** The checks of [setFrequencyBand]: BLE first, then the range of the
    band; a refused call changes nothing. *)
Lemma setFrequencyBand_refused band w t :
  (World.ble w = true ->
   setFrequencyBand band w t = (DEVICE_NOT_SUPPORTED, w, t)) /\
  (World.ble w = false -> band < 0 \/ 100 < band ->
   setFrequencyBand band w t = (DEVICE_INVALID_PARAMETER, w, t)).
Proof.
  unfold setFrequencyBand. split.
  - by intros ->.
  - intros -> Hband.
    destruct (Z.ltb_spec band 0), (Z.ltb_spec 100 band); try done. lia.
Qed.

(** X11.  [setFrequencyBand] with a band from 0 to 100 and no BLE returns
    [DEVICE_OK] and records the band.  On an initialised radio the
    peripheral's FREQUENCY is the band afterwards: when it already was,
    the peripheral is left alone; when it was not, the radio is restarted
    on the new frequency and listens again with its interrupt enabled.
    On a radio that is not initialised the peripheral is not touched.
    The store, the queue and the active buffer never change. *)
Theorem setFrequencyBand_tunes band w t :
  World.ble w = false ->
  0 <= band <= 100 ->
  exists w' t',
    setFrequencyBand band w t = (DEVICE_OK, w', t') /\
    MicroBitMeshRadio.band (World.radio w') = band /\
    Tuner.RADIO_TXPOWER t' = Tuner.RADIO_TXPOWER t /\
    radio_view w' = radio_view w /\
    (initialised w = true -> Tuner.RADIO_FREQUENCY t' = band) /\
    (initialised w = true -> Tuner.RADIO_FREQUENCY t = band ->
     World.nrf w' = World.nrf w) /\
    (initialised w = true -> Tuner.RADIO_FREQUENCY t <> band ->
     NRF.RADIO_IRQ (World.nrf w') = true /\
     NRF.tasks (World.nrf w')
     = NRF.tasks (World.nrf w) ++ [RADIO_TASKS_DISABLE; RADIO_TASKS_RXEN; RADIO_TASKS_START]) /\
    (initialised w = false -> t' = t /\ World.nrf w' = World.nrf w).
Proof.
  intros Hble Hband. unfold setFrequencyBand. rewrite Hble.
  destruct (Z.ltb_spec band 0); [lia |]. destruct (Z.ltb_spec 100 band); [lia |].
  simpl orb. cbv iota.
  unfold uint8_t. rewrite Z.mod_small by lia.
  change (initialised (with_radio (set_band band) w)) with (initialised w).
  destruct (Z.eqb_spec (Tuner.RADIO_FREQUENCY t) band) as [Heq | Hne];
    destruct (initialised w); simpl; eexists _, _; split; try reflexivity;
    repeat split; try done.
  simpl. by rewrite <- !app_assoc.
Qed.

End Frequency.

(** ** Transmission *)

Section Transmission.
Variable MAX_PACKET_SIZE : Z.

(** The checks of [send]: BLE first, then the NULL frame and the length
    field; a rejected call changes nothing. *)
Lemma send_rejected buffer w :
  (World.ble w = true ->
   send MAX_PACKET_SIZE buffer w = Ok (DEVICE_NOT_SUPPORTED, w)) /\
  (World.ble w = false -> buffer = None ->
   send MAX_PACKET_SIZE buffer w = Ok (DEVICE_INVALID_PARAMETER, w)) /\
  (forall ptr buf,
     World.ble w = false -> buffer = Some ptr -> pointee ptr w = Ok buf ->
     MAX_PACKET_SIZE + 3 < SequencedFrameBuffer.length buf ->
     send MAX_PACKET_SIZE buffer w = Ok (DEVICE_INVALID_PARAMETER, w)).
Proof.
  unfold send. repeat split.
  - by intros ->.
  - by intros -> ->.
  - intros ptr buf -> -> -> Hlen. rewrite bind_Ok. unfold MICROBIT_RADIO_HEADER_SIZE.
    destruct (Z.ltb_spec (MAX_PACKET_SIZE + 4 - 1) (SequencedFrameBuffer.length buf));
      [done | lia].
Qed.

(** A [send] that passes the checks with the transmitter free. *)
Lemma send_ok ptr buf w :
  World.ble w = false ->
  MicroBitMeshRadio.blockTransmit (World.radio w) = false ->
  pointee ptr w = Ok buf ->
  SequencedFrameBuffer.length buf <= MAX_PACKET_SIZE + 3 ->
  exists w',
    let stamped :=
      SequencedFrameBuffer.set_seqNo
        (uint8_t (MicroBitMeshRadio.currentSeqNo (World.radio w) + 1)) buf in
    send MAX_PACKET_SIZE (Some ptr) w = Ok (DEVICE_OK, w') /\
    MicroBitMeshRadio.currentSeqNo (World.radio w')
    = int32_t (MicroBitMeshRadio.currentSeqNo (World.radio w) + 1) /\
    (- 2 ^ 31 <= MicroBitMeshRadio.currentSeqNo (World.radio w) < 2 ^ 31 - 1 ->
     MicroBitMeshRadio.currentSeqNo (World.radio w')
     = MicroBitMeshRadio.currentSeqNo (World.radio w) + 1) /\
    World.air w' = World.air w ++ [stamped] /\
    World.heap w'
    = match ptr with
      | in_store p => <[p := stamped]> (World.heap w)
      | outside_store _ => World.heap w
      end /\
    NRF.tasks (World.nrf w')
    = NRF.tasks (World.nrf w) ++
      [RADIO_TASKS_DISABLE; RADIO_TASKS_TXEN; RADIO_TASKS_START;
       RADIO_TASKS_DISABLE; RADIO_TASKS_RXEN; RADIO_TASKS_START] /\
    NRF.RADIO_PACKETPTR (World.nrf w') = getRxBuf w /\
    NRF.RADIO_IRQ (World.nrf w') = true /\
    MicroBitMeshRadio.rxQueue (World.radio w') = MicroBitMeshRadio.rxQueue (World.radio w) /\
    dataReady w' = dataReady w /\
    getRxBuf w' = getRxBuf w /\
    World.datagram w' = World.datagram w /\
    World.ble w' = false /\
    MicroBitMeshRadio.blockTransmit (World.radio w') = false.
Proof.
  intros Hble Hblock Hbuf Hlen. unfold send. rewrite Hble, Hblock, Hbuf, bind_Ok.
  unfold MICROBIT_RADIO_HEADER_SIZE.
  destruct (Z.ltb_spec (MAX_PACKET_SIZE + 4 - 1) (SequencedFrameBuffer.length buf)); [lia |].
  eexists. cbv zeta. split; [reflexivity |].
  unfold dataReady, getRxBuf. destruct ptr as [p | f]; simpl;
    rewrite uint8_t_int32_t, <- !app_assoc; repeat split; try done;
    intros Hc; apply int32_t_in_range; lia.
Qed.

(** X12.  A [send] that is not rejected and not held back by a blocked
    transmitter returns [DEVICE_OK].  With the sequence counter inside
    the range of [int] and not at its end, it advances the counter by one
    and stamps the low byte of the new count into the caller's frame,
    through the pointer: a frame of the store is changed there, in its
    sequence number only.  The frame so stamped is what is transmitted.
    The peripheral goes through disable, transmit, disable, receive, and
    ends targeting the active buffer with the radio interrupt enabled;
    the rest of the store, the Receive Queue, its count and the active
    buffer are untouched. *)
Theorem send_transmits ptr buf w :
  World.ble w = false ->
  MicroBitMeshRadio.blockTransmit (World.radio w) = false ->
  pointee ptr w = Ok buf ->
  SequencedFrameBuffer.length buf <= MAX_PACKET_SIZE + 3 ->
  - 2 ^ 31 <= MicroBitMeshRadio.currentSeqNo (World.radio w) < 2 ^ 31 - 1 ->
  exists w',
    let stamped :=
      SequencedFrameBuffer.set_seqNo
        (uint8_t (MicroBitMeshRadio.currentSeqNo (World.radio w) + 1)) buf in
    send MAX_PACKET_SIZE (Some ptr) w = Ok (DEVICE_OK, w') /\
    MicroBitMeshRadio.currentSeqNo (World.radio w')
    = MicroBitMeshRadio.currentSeqNo (World.radio w) + 1 /\
    World.air w' = World.air w ++ [stamped] /\
    World.heap w'
    = match ptr with
      | in_store p => <[p := stamped]> (World.heap w)
      | outside_store _ => World.heap w
      end /\
    NRF.tasks (World.nrf w')
    = NRF.tasks (World.nrf w) ++
      [RADIO_TASKS_DISABLE; RADIO_TASKS_TXEN; RADIO_TASKS_START;
       RADIO_TASKS_DISABLE; RADIO_TASKS_RXEN; RADIO_TASKS_START] /\
    NRF.RADIO_PACKETPTR (World.nrf w') = getRxBuf w /\
    NRF.RADIO_IRQ (World.nrf w') = true /\
    MicroBitMeshRadio.rxQueue (World.radio w') = MicroBitMeshRadio.rxQueue (World.radio w) /\
    dataReady w' = dataReady w /\
    getRxBuf w' = getRxBuf w /\
    World.datagram w' = World.datagram w /\
    World.ble w' = false /\
    MicroBitMeshRadio.blockTransmit (World.radio w') = false.
Proof.
  intros Hble Hblock Hbuf Hlen Hrange.
  destruct (send_ok ptr buf w Hble Hblock Hbuf Hlen) as (w' & Hrun & _ & Hseq & Hrest).
  exists w'. cbv zeta. split; [done |]. split; [by apply Hseq |]. done.
Qed.

(** X13.  Two frames sent one after the other, through pointers that do
    not name the same frame of the store and with the sequence counter
    inside the range of [int], go on the air in that order, each as the
    caller handed it in but for its sequence number, and the two numbers
    are consecutive modulo 256: after 255 comes 0. *)
Theorem send_consecutive ptr1 ptr2 buf1 buf2 w :
  World.ble w = false ->
  MicroBitMeshRadio.blockTransmit (World.radio w) = false ->
  pointee ptr1 w = Ok buf1 ->
  pointee ptr2 w = Ok buf2 ->
  (forall p, ptr1 = in_store p -> ptr2 <> in_store p) ->
  SequencedFrameBuffer.length buf1 <= MAX_PACKET_SIZE + 3 ->
  SequencedFrameBuffer.length buf2 <= MAX_PACKET_SIZE + 3 ->
  - 2 ^ 31 <= MicroBitMeshRadio.currentSeqNo (World.radio w) < 2 ^ 31 - 2 ->
  exists w1 w2,
    let n1 := uint8_t (MicroBitMeshRadio.currentSeqNo (World.radio w) + 1) in
    let n2 := (n1 + 1) mod 256 in
    send MAX_PACKET_SIZE (Some ptr1) w = Ok (DEVICE_OK, w1) /\
    send MAX_PACKET_SIZE (Some ptr2) w1 = Ok (DEVICE_OK, w2) /\
    World.air w2
    = World.air w ++
      [SequencedFrameBuffer.set_seqNo n1 buf1; SequencedFrameBuffer.set_seqNo n2 buf2] /\
    MicroBitMeshRadio.currentSeqNo (World.radio w2)
    = MicroBitMeshRadio.currentSeqNo (World.radio w) + 2 /\
    0 <= n1 < 256.
Proof.
  intros Hble Hblock Hbuf1 Hbuf2 Hdistinct Hlen1 Hlen2 Hrange.
  destruct (send_ok ptr1 buf1 w Hble Hblock Hbuf1 Hlen1)
    as (w1 & Hrun1 & _ & Hseq1 & Hair1 & Hheap1 & _ & _ & _ & _ & _ & _ & _ & Hble1 & Hblock1).
  specialize (Hseq1 ltac:(lia)).
  assert (pointee ptr2 w1 = Ok buf2) as Hbuf2'.
  { destruct ptr2 as [p2 | f2]; [| done]. unfold pointee, load in *. rewrite Hheap1.
    destruct ptr1 as [p1 | f1]; [| done].
    rewrite lookup_insert_ne; [done |]. intros ->. by apply (Hdistinct p2). }
  destruct (send_ok ptr2 buf2 w1 Hble1 Hblock1 Hbuf2' Hlen2)
    as (w2 & Hrun2 & _ & Hseq2 & Hair2 & _).
  specialize (Hseq2 ltac:(lia)).
  exists w1, w2. cbv zeta. split; [done |]. split; [done |]. split; [| split].
  - rewrite Hair2, Hair1, <- app_assoc. simpl. do 3 f_equal.
    rewrite Hseq1. unfold uint8_t. by rewrite Z.add_mod_idemp_l.
  - lia.
  - unfold uint8_t. apply Z.mod_pos_bound. lia.
Qed.

End Transmission.

(** ** More on the datagram service *)

Section DatagramService.
Variable MAX_PACKET_SIZE : Z.

(** The checks of the datagram [send]; a refused call changes nothing. *)
Lemma datagram_send_rejected buf0 buffer len w :
  (buffer = None ->
   MicroBitMeshRadioDatagram_send MAX_PACKET_SIZE buf0 buffer len w
   = Ok (DEVICE_INVALID_PARAMETER, w)) /\
  (len < 0 \/ MAX_PACKET_SIZE + 3 < len ->
   MicroBitMeshRadioDatagram_send MAX_PACKET_SIZE buf0 buffer len w
   = Ok (DEVICE_INVALID_PARAMETER, w)).
Proof.
  unfold MicroBitMeshRadioDatagram_send. split.
  - by intros ->.
  - intros Hlen. destruct buffer; [| done]. unfold MICROBIT_MESH_RADIO_HEADER_SIZE.
    destruct (Z.ltb_spec len 0); [done |].
    destruct (Z.ltb_spec (MAX_PACKET_SIZE + 4 - 1) len); [done | lia].
Qed.

(** X14.  The length check of the datagram [send] lets through the
    lengths from the payload capacity plus 1 to the capacity plus 3.  For
    these the copy fills the payload of the local frame with the first
    bytes of the caller's buffer and runs up to three bytes on, inside
    the local; the length field stamped is above the capacity plus 3, so
    the radio's [send] refuses the frame.  The call returns
    [DEVICE_INVALID_PARAMETER] ([DEVICE_NOT_SUPPORTED] under BLE),
    nothing is transmitted and the machine is left as it was. *)
Theorem datagram_send_overruns_payload buf0 buffer len w :
  MAX_PACKET_SIZE < len <= MAX_PACKET_SIZE + 3 ->
  0 <= MAX_PACKET_SIZE <= 249 ->
  Z.of_nat (length (SequencedFrameBuffer.payload buf0)) = MAX_PACKET_SIZE ->
  len <= Z.of_nat (length buffer) ->
  exists buf,
    MicroBitMeshRadioDatagram_send_frame buf0 buffer len = Ok buf /\
    SequencedFrameBuffer.payload buf = firstn (Z.to_nat MAX_PACKET_SIZE) buffer /\
    SequencedFrameBuffer.length buf = len + 3 /\
    MAX_PACKET_SIZE + 3 < SequencedFrameBuffer.length buf /\
    MicroBitMeshRadioDatagram_send MAX_PACKET_SIZE buf0 (Some buffer) len w
    = Ok (if World.ble w then DEVICE_NOT_SUPPORTED else DEVICE_INVALID_PARAMETER, w).
Proof.
  intros Hlen Hmax Hpayload Hbuffer.
  assert (MicroBitMeshRadioDatagram_send_frame buf0 buffer len
          = Ok (SequencedFrameBuffer.Build (len + 3) 1 0 1 (SequencedFrameBuffer.seqNo buf0)
                  (firstn (Z.to_nat MAX_PACKET_SIZE) buffer)
                  (SequencedFrameBuffer.next buf0) (SequencedFrameBuffer.rssi buf0)))
    as Hframe.
  { unfold MicroBitMeshRadioDatagram_send_frame. simpl.
    rewrite memcpy_field_overrun by (unfold SequencedFrameBuffer_behind_payload; lia).
    rewrite bind_Ok.
    unfold SequencedFrameBuffer.set_payload, uint8_t,
      MICROBIT_MESH_RADIO_HEADER_SIZE, MICROBIT_MESH_RADIO_PROTOCOL_DATAGRAM. simpl.
    rewrite Z.mod_small by lia. rewrite <- Hpayload, Nat2Z.id. do 2 f_equal. lia. }
  eexists. split; [exact Hframe |]. simpl. split; [done |]. split; [done |].
  split; [lia |].
  unfold MicroBitMeshRadioDatagram_send. unfold MICROBIT_MESH_RADIO_HEADER_SIZE at 1.
  destruct (Z.ltb_spec len 0); [lia |].
  destruct (Z.ltb_spec (MAX_PACKET_SIZE + 4 - 1) len); [lia |]. simpl orb. cbv iota.
  rewrite Hframe, bind_Ok. unfold send. destruct (World.ble w); [done |].
  unfold pointee. rewrite bind_Ok. unfold MICROBIT_RADIO_HEADER_SIZE.
  simpl SequencedFrameBuffer.length.
  destruct (Z.ltb_spec (MAX_PACKET_SIZE + 4 - 1) (len + 3)); [done | lia].
Qed.

(** The checks of the datagram [recv]; a refused call changes nothing. *)
Lemma datagram_recv_rejected buf len w :
  buf = None \/ MicroBitMeshRadioDatagram.rxQueue (World.datagram w) = None \/ len < 0 ->
  MicroBitMeshRadioDatagram_recv buf len w = Ok (DEVICE_INVALID_PARAMETER, Ok <$> buf, w).
Proof.
  unfold MicroBitMeshRadioDatagram_recv. intros [-> | [-> | Hlen]].
  - done.
  - by destruct buf.
  - destruct buf, (MicroBitMeshRadioDatagram.rxQueue (World.datagram w)); try done.
    destruct (Z.ltb_spec len 0); [done | lia].
Qed.

(** X15.  The datagram [recv] on a well-formed head frame copies the
    smaller of [len] and the frame's payload count, [length - 3], from the
    front of the frame's payload to the front of the caller's array,
    leaves the rest of the array alone, and returns that number; the
    frame is dequeued and released, so with a [len] below the payload
    count the bytes that did not fit are gone. *)
Theorem datagram_recv_copies_min dst len w p f :
  MicroBitMeshRadioDatagram.rxQueue (World.datagram w) = Some p ->
  World.heap w !! p = Some f ->
  3 <= SequencedFrameBuffer.length f ->
  SequencedFrameBuffer.length f - 3
  <= Z.of_nat (length (SequencedFrameBuffer.payload f)) < 2 ^ 32 ->
  0 <= len <= Z.of_nat (length dst) ->
  exists out w',
    let k := Z.min len (SequencedFrameBuffer.length f - 3) in
    MicroBitMeshRadioDatagram_recv (Some dst) len w = Ok (k, Some (Ok out), w') /\
    out = firstn (Z.to_nat k) (SequencedFrameBuffer.payload f) ++ skipn (Z.to_nat k) dst /\
    length out = length dst /\
    MicroBitMeshRadioDatagram.rxQueue (World.datagram w') = SequencedFrameBuffer.next f /\
    World.heap w' = delete p (World.heap w).
Proof.
  intros Hq Hf Hlength Hpayload Hlen.
  rewrite (MicroBitMeshRadioDatagram_recv_head dst len w p f Hq Hf) by lia.
  assert (min len (SequencedFrameBuffer.length f - 3)
          = Z.min len (SequencedFrameBuffer.length f - 3)) as ->.
  { unfold min. destruct (Z.ltb_spec len (SequencedFrameBuffer.length f - 3)); lia. }
  rewrite memcpy_in_range by lia.
  eexists _, _. cbv zeta. split; [reflexivity |]. split; [done |]. split; [| done].
  rewrite length_app, length_take, length_drop. lia.
Qed.

End DatagramService.

(** ** Reception: interrupt handlers and the order of the queue *)

Section Reception.
Variable MAX_PACKET_SIZE : Z.

(** X16.  The Receive Queue is first in, first out: after [queueRxBuf]
    has queued the active buffer behind the frames already waiting,
    [recv] hands out the frame that waited longest (the buffer just
    queued only when nothing waited) and leaves the others in their
    order; the count is back where it was. *)
Theorem queueRxBuf_then_recv fuel a w l b :
  radio_inv w l ->
  getRxBuf w = Some b ->
  Z.of_nat (length l) < MICROBIT_RADIO_MAXIMUM_RX_BUFFERS ->
  World.heap w !! a = None ->
  (length l <= fuel)%nat ->
  exists w1 w2,
    queueRxBuf MAX_PACKET_SIZE fuel (Some a) w = Ok (DEVICE_OK, w1) /\
    recv w1 = Ok (head (l ++ [b]), w2) /\
    receive_queue w2 (tail (l ++ [b])) /\
    dataReady w2 = dataReady w /\
    getRxBuf w2 = Some a.
Proof.
  intros Hinv Hrx Hroom Ha Hfuel. pose proof Hinv as (Hl & Hqd & _ & Hbuf).
  unfold getRxBuf in Hrx. rewrite Hrx in Hbuf. destruct Hbuf as [[f Hf] Hb].
  destruct (queueRxBuf_enqueue MAX_PACKET_SIZE fuel a w b f l)
    as [(_ & w1 & Hrun & Hl1 & Hqd1 & Hrx1 & _) | (? & _)]; try done; [lia | | lia].
  destruct (radio_inv_queueRxBuf MAX_PACKET_SIZE fuel (Some a) w DEVICE_OK w1 l Hinv Hrun)
    as (l1 & Hinv1).
  pose proof Hinv1 as (Hl1' & _). rewrite (chain_inj _ _ _ _ Hl1' Hl1) in Hinv1. clear l1 Hl1'.
  assert (exists x rest, l ++ [b] = x :: rest) as (x & rest & Heq).
  { destruct l; simpl; eauto. }
  rewrite Heq in *. pose proof Hl1 as [Hq1 (fx & Hfx & _)].
  destruct (recv_head w1 x fx Hq1 Hfx) as (w2 & Hrecv & Hh2 & Hq2 & Hqd2 & _).
  destruct (radio_inv_recv w1 (Some x) w2 (x :: rest) Hinv1 Hrecv) as [(Hl2 & Hqd2' & _) _].
  exists w1, w2. simpl. repeat split; try done.
  - unfold dataReady. rewrite Hqd2', Hqd. simpl.
    apply (f_equal (@length positive)) in Heq. rewrite length_app in Heq. simpl in Heq. lia.
  - unfold recv in Hrecv. rewrite Hq1 in Hrecv.
    erewrite load_eq in Hrecv by (simpl; exact Hfx). rewrite bind_Ok in Hrecv.
    injection Hrecv as <-. unfold getRxBuf. simpl. done.
Qed.

(** [queueRxBuf] works on the store and the controller only. *)
Lemma queueRxBuf_nrf fuel alloc w r w' :
  queueRxBuf MAX_PACKET_SIZE fuel alloc w = Ok (r, w') ->
  World.nrf w' = World.nrf w /\ World.bus w' = World.bus w /\
  World.air w' = World.air w /\ World.ble w' = World.ble w /\
  World.datagram w' = World.datagram w.
Proof.
  unfold queueRxBuf, new_SequencedFrameBuffer, load, mbind, result_bind, rbind.
  intros H. repeat (case_match; simplify_eq); done.
Qed.

(** X17.  The end of a frame with a bad checksum, on an initialised radio
    with room in the queue and memory for a replacement: the handler
    cancels the guard timer and then queues the frame all the same, at the
    tail and with an RSSI of 0; the replacement becomes the active buffer
    and the target of the peripheral, transmission is unblocked and
    reception restarted. *)
Theorem mesh_RADIO_IRQHandler_queues_bad_frame fuel a w l b f :
  radio_inv w l ->
  initialised w = true ->
  getRxBuf w = Some b ->
  World.heap w !! b = Some f ->
  Z.of_nat (length l) < MICROBIT_RADIO_MAXIMUM_RX_BUFFERS ->
  World.heap w !! a = None ->
  (length l <= fuel)%nat ->
  NRF.RADIO_EVENTS_END (World.nrf w) <> 0 ->
  NRF.RADIO_CRCSTATUS (World.nrf w) <> 1 ->
  exists w',
    mesh_RADIO_IRQHandler MAX_PACKET_SIZE fuel (Some a) w = Ok w' /\
    receive_queue w' (l ++ [b]) /\
    World.heap w' !! b
    = Some (SequencedFrameBuffer.set_next None (SequencedFrameBuffer.set_rssi 0 f)) /\
    dataReady w' = dataReady w + 1 /\
    getRxBuf w' = Some a /\
    NRF.RADIO_PACKETPTR (World.nrf w') = Some a /\
    MicroBitMeshRadio.blockTransmit (World.radio w') = false /\
    firstn 6 (skipn (length (NRF.tasks (World.nrf w))) (NRF.tasks (World.nrf w')))
    = [TIMER0_TASKS_CLEAR; TIMER0_TASKS_START;
       TIMER0_TASKS_STOP; TIMER0_TASKS_CLEAR; RADIO_TASKS_DISABLE; RADIO_TASKS_START].
Proof.
  intros (Hl & Hqd & _ & Hbuf) Hinit Hrx Hf Hroom Ha Hfuel Hend Hcrc.
  unfold getRxBuf in Hrx. rewrite Hrx in Hbuf. destruct Hbuf as [_ Hb].
  unfold mesh_RADIO_IRQHandler.
  apply Z.eqb_neq in Hend, Hcrc. rewrite Hend. simpl NRF.RADIO_CRCSTATUS. rewrite Hcrc.
  set (w0 := with_nrf (NRF.set_RADIO_EVENTS_END 0) _).
  assert (snd (setRSSI 0 (cancel_timer_and_disable w0))
          = with_radio (MicroBitMeshRadio.set_rssi 0) (cancel_timer_and_disable w0)) as ->.
  { unfold setRSSI. change (initialised (cancel_timer_and_disable w0)) with (initialised w).
    by rewrite Hinit. }
  set (wm := with_radio _ _).
  destruct (queueRxBuf_enqueue MAX_PACKET_SIZE fuel a wm b f l)
    as [(_ & w1 & Hrun & Hl1 & Hqd1 & Hrx1 & _ & Hb1 & _) | (? & _)]; try done;
    [by rewrite <- Hqd in Hroom | | lia].
  rewrite Hrun, !bind_Ok.
  assert (getRSSI wm = 0) as Hrssi.
  { unfold getRSSI. change (initialised wm) with (initialised w). by rewrite Hinit. }
  rewrite Hrssi in Hb1.
  eexists. split; [reflexivity |].
  assert (MicroBitMeshRadio.queueDepth (World.radio w1)
          = MicroBitMeshRadio.queueDepth (World.radio w) + 1) as Hqd1'.
  { rewrite Hqd1. simpl. unfold uint8_t, MICROBIT_RADIO_MAXIMUM_RX_BUFFERS in *.
    rewrite Z.mod_small; lia. }
  destruct (queueRxBuf_nrf fuel (Some a) wm DEVICE_OK w1 Hrun) as (Hnrf1 & _).
  assert (NRF.tasks (World.nrf w1)
          = NRF.tasks (World.nrf w) ++
            [TIMER0_TASKS_CLEAR; TIMER0_TASKS_START;
             TIMER0_TASKS_STOP; TIMER0_TASKS_CLEAR; RADIO_TASKS_DISABLE]) as Hts.
  { rewrite Hnrf1. simpl. by rewrite <- !app_assoc. }
  unfold receive_queue, dataReady, getRxBuf in *.
  repeat case_match; simpl; rewrite ?Hrx1, ?Hqd1', ?Hts;
    (repeat split; try done);
    rewrite <- ?app_assoc, drop_app_length; reflexivity.
Qed.

(** X18.  When the guard timer fires on an initialised radio with room in
    the queue and memory for a replacement, the handler queues the active
    buffer at the tail with the RSSI the controller holds for it, makes
    the replacement the active buffer and the target of the peripheral,
    clears the timer event, restarts reception and unblocks
    transmission. *)
Theorem mesh_TIMER0_IRQHandler_queues fuel a w l b f :
  radio_inv w l ->
  initialised w = true ->
  getRxBuf w = Some b ->
  World.heap w !! b = Some f ->
  Z.of_nat (length l) < MICROBIT_RADIO_MAXIMUM_RX_BUFFERS ->
  World.heap w !! a = None ->
  (length l <= fuel)%nat ->
  NRF.TIMER0_EVENTS_COMPARE0 (World.nrf w) <> 0 ->
  exists w',
    mesh_TIMER0_IRQHandler MAX_PACKET_SIZE fuel (Some a) w = Ok w' /\
    receive_queue w' (l ++ [b]) /\
    World.heap w' !! b
    = Some (SequencedFrameBuffer.set_next None
              (SequencedFrameBuffer.set_rssi (MicroBitMeshRadio.rssi (World.radio w)) f)) /\
    dataReady w' = dataReady w + 1 /\
    getRxBuf w' = Some a /\
    NRF.RADIO_PACKETPTR (World.nrf w') = Some a /\
    NRF.TIMER0_EVENTS_COMPARE0 (World.nrf w') = 0 /\
    NRF.tasks (World.nrf w') = NRF.tasks (World.nrf w) ++ [RADIO_TASKS_START] /\
    MicroBitMeshRadio.blockTransmit (World.radio w') = false.
Proof.
  intros (Hl & Hqd & _ & Hbuf) Hinit Hrx Hf Hroom Ha Hfuel Hcmp.
  unfold getRxBuf in Hrx. rewrite Hrx in Hbuf. destruct Hbuf as [_ Hb].
  unfold mesh_TIMER0_IRQHandler. apply Z.eqb_neq in Hcmp. rewrite Hcmp.
  set (wm := with_nrf (NRF.set_TIMER0_EVENTS_COMPARE0 0) _).
  destruct (queueRxBuf_enqueue MAX_PACKET_SIZE fuel a wm b f l)
    as [(_ & w1 & Hrun & Hl1 & Hqd1 & Hrx1 & _ & Hb1 & _) | (? & _)]; try done;
    [by rewrite <- Hqd in Hroom | | lia].
  rewrite Hrun, !bind_Ok.
  assert (getRSSI wm = MicroBitMeshRadio.rssi (World.radio w)) as Hrssi.
  { unfold getRSSI. change (initialised wm) with (initialised w). by rewrite Hinit. }
  rewrite Hrssi in Hb1.
  destruct (queueRxBuf_nrf fuel (Some a) wm DEVICE_OK w1 Hrun) as (Hnrf1 & _).
  eexists. split; [reflexivity |].
  unfold receive_queue, dataReady, getRxBuf in *. simpl.
  rewrite Hrx1, Hqd1, Hnrf1. simpl. repeat split; try done.
  unfold uint8_t, MICROBIT_RADIO_MAXIMUM_RX_BUFFERS in *. rewrite Z.mod_small; lia.
Qed.

(** X19.  A guard-timer interrupt that finds the Receive Queue full
    still unblocks the radio and loses nothing that was queued: whatever
    the allocator would answer and without a walk of the queue, the
    handler returns with the timer event cleared, the radio started, the
    peripheral targeting the active buffer and transmission unblocked;
    the queue, its count, the active buffer and the store are unchanged,
    so the frame in the active buffer is not queued. *)
Theorem mesh_TIMER0_IRQHandler_unblocks fuel alloc w l :
  radio_inv w l ->
  Z.of_nat (length l) = MICROBIT_RADIO_MAXIMUM_RX_BUFFERS ->
  NRF.TIMER0_EVENTS_COMPARE0 (World.nrf w) <> 0 ->
  exists w',
    mesh_TIMER0_IRQHandler MAX_PACKET_SIZE fuel alloc w = Ok w' /\
    NRF.TIMER0_EVENTS_COMPARE0 (World.nrf w') = 0 /\
    NRF.RADIO_PACKETPTR (World.nrf w') = getRxBuf w' /\
    NRF.tasks (World.nrf w') = NRF.tasks (World.nrf w) ++ [RADIO_TASKS_START] /\
    MicroBitMeshRadio.blockTransmit (World.radio w') = false /\
    receive_queue w' l /\
    dataReady w' = dataReady w /\
    getRxBuf w' = getRxBuf w /\
    World.heap w' = World.heap w.
Proof.
  intros (Hl & Hqd & _ & Hbuf) Hfull Hcmp.
  unfold mesh_TIMER0_IRQHandler. apply Z.eqb_neq in Hcmp. rewrite Hcmp.
  unfold queueRxBuf. simpl MicroBitMeshRadio.rxBuf. simpl MicroBitMeshRadio.queueDepth.
  destruct (MicroBitMeshRadio.rxBuf (World.radio w)) as [b|] eqn:Hrx.
  - rewrite Hqd, Hfull, Z.leb_refl, bind_Ok. eexists. split; [reflexivity |].
    unfold receive_queue, dataReady, getRxBuf. simpl. by rewrite Hrx.
  - rewrite bind_Ok. eexists. split; [reflexivity |].
    unfold receive_queue, dataReady, getRxBuf. simpl. by rewrite Hrx.
Qed.

Lemma shorts_after_txready s :
  let s' := Z.lor (Z.land s (Z.lnot RADIO_SHORTS_DISABLED_TXEN_Msk))
              RADIO_SHORTS_DISABLED_RXEN_Msk in
  Z.testbit s' 2 = false /\ Z.testbit s' 3 = true /\
  forall i, 0 <= i -> i <> 2 -> i <> 3 -> Z.testbit s' i = Z.testbit s i.
Proof.
  unfold RADIO_SHORTS_DISABLED_TXEN_Msk, RADIO_SHORTS_DISABLED_RXEN_Msk.
  change 4 with (2 ^ 2). change 8 with (2 ^ 3). cbv zeta.
  repeat split; [| | intros i Hi H2 H3];
    rewrite Z.lor_spec, Z.land_spec, Z.lnot_spec, !Z.pow2_bits_eqb by lia.
  - by rewrite andb_false_r.
  - by rewrite orb_true_r.
  - destruct (Z.eqb_spec 2 i); [lia |]. destruct (Z.eqb_spec 3 i); [lia |].
    by rewrite andb_true_r, orb_false_r.
Qed.

Lemma shorts_after_rxready s :
  let s' := Z.land (Z.lor s RADIO_SHORTS_DISABLED_TXEN_Msk)
              (Z.lnot RADIO_SHORTS_DISABLED_RXEN_Msk) in
  Z.testbit s' 2 = true /\ Z.testbit s' 3 = false /\
  forall i, 0 <= i -> i <> 2 -> i <> 3 -> Z.testbit s' i = Z.testbit s i.
Proof.
  unfold RADIO_SHORTS_DISABLED_TXEN_Msk, RADIO_SHORTS_DISABLED_RXEN_Msk.
  change 4 with (2 ^ 2). change 8 with (2 ^ 3). cbv zeta.
  repeat split; [| | intros i Hi H2 H3];
    rewrite Z.land_spec, Z.lor_spec, Z.lnot_spec, !Z.pow2_bits_eqb by lia.
  - by rewrite orb_true_r.
  - by rewrite andb_false_r.
  - destruct (Z.eqb_spec 2 i); [lia |]. destruct (Z.eqb_spec 3 i); [lia |].
    by rewrite andb_true_r, orb_false_r.
Qed.

(** X20.  The turnaround shortcuts.  On an interrupt without a frame
    event, a TXREADY event leaves the peripheral set to go to receive
    after the next disable (DISABLED_RXEN, bit 3, set and DISABLED_TXEN,
    bit 2, clear), and an RXREADY event, which wins when both are
    pending, leaves it set to go to transmit (bit 2 set, bit 3 clear) and
    starts listening.  Both events are acknowledged, every other
    shortcut bit keeps its value, and neither the controller nor the
    store is touched. *)
Theorem mesh_RADIO_IRQHandler_turnaround fuel alloc w :
  NRF.RADIO_EVENTS_END (World.nrf w) = 0 ->
  NRF.RADIO_EVENTS_TXREADY (World.nrf w) <> 0 \/
  NRF.RADIO_EVENTS_RXREADY (World.nrf w) <> 0 ->
  exists w',
    let rx := negb (NRF.RADIO_EVENTS_RXREADY (World.nrf w) =? 0) in
    mesh_RADIO_IRQHandler MAX_PACKET_SIZE fuel alloc w = Ok w' /\
    NRF.RADIO_EVENTS_TXREADY (World.nrf w') = 0 /\
    NRF.RADIO_EVENTS_RXREADY (World.nrf w') = 0 /\
    Z.testbit (NRF.RADIO_SHORTS (World.nrf w')) 2 = rx /\
    Z.testbit (NRF.RADIO_SHORTS (World.nrf w')) 3 = negb rx /\
    (forall i, 0 <= i -> i <> 2 -> i <> 3 ->
       Z.testbit (NRF.RADIO_SHORTS (World.nrf w')) i
       = Z.testbit (NRF.RADIO_SHORTS (World.nrf w)) i) /\
    NRF.tasks (World.nrf w')
    = NRF.tasks (World.nrf w) ++ (if rx then [RADIO_TASKS_START] else []) /\
    World.radio w' = World.radio w /\
    World.heap w' = World.heap w.
Proof.
  intros Hend Hready. unfold mesh_RADIO_IRQHandler. rewrite Hend.
  change (0 =? 0) with true. cbv iota. rewrite bind_Ok. cbv zeta.
  eexists. split; [reflexivity |].
  pose proof (shorts_after_txready (NRF.RADIO_SHORTS (World.nrf w))) as (T2 & T3 & Ti).
  pose proof (shorts_after_rxready (NRF.RADIO_SHORTS (World.nrf w))) as (R2 & R3 & Ri).
  pose proof (shorts_after_rxready
                (Z.lor (Z.land (NRF.RADIO_SHORTS (World.nrf w))
                          (Z.lnot RADIO_SHORTS_DISABLED_TXEN_Msk))
                   RADIO_SHORTS_DISABLED_RXEN_Msk)) as (B2 & B3 & Bi).
  destruct (NRF.RADIO_EVENTS_TXREADY (World.nrf w) =? 0) eqn:Htx;
    destruct (NRF.RADIO_EVENTS_RXREADY (World.nrf w) =? 0) eqn:Hrx;
    cbn [World.nrf with_nrf trigger World.set_nrf NRF.RADIO_EVENTS_RXREADY
         NRF.set_RADIO_EVENTS_TXREADY NRF.set_RADIO_SHORTS NRF.set_tasks
         NRF.RADIO_EVENTS_TXREADY NRF.set_RADIO_EVENTS_RXREADY NRF.RADIO_SHORTS
         NRF.tasks World.radio World.heap negb];
    rewrite ?Htx, ?Hrx;
    cbn [World.nrf with_nrf trigger World.set_nrf NRF.RADIO_EVENTS_RXREADY
         NRF.set_RADIO_EVENTS_TXREADY NRF.set_RADIO_SHORTS NRF.set_tasks
         NRF.RADIO_EVENTS_TXREADY NRF.set_RADIO_EVENTS_RXREADY NRF.RADIO_SHORTS
         NRF.tasks World.radio World.heap negb].
  - apply Z.eqb_eq in Htx, Hrx. lia.
  - apply Z.eqb_eq in Htx. repeat split; try done.
  - apply Z.eqb_eq in Hrx. repeat split; try done. by rewrite app_nil_r.
  - repeat split; try done. intros i Hi H2 H3. by rewrite Bi, Ti.
Qed.

End Reception.

(** ** The hand-over of datagrams *)

Section Handover.

(** The fields of a frame other than its link. *)
Lemma set_next_set_next x y (f : frame) :
  SequencedFrameBuffer.set_next x (SequencedFrameBuffer.set_next y f)
  = SequencedFrameBuffer.set_next x f.
Proof. by destruct f. Qed.

(** While the datagram queue has room, [packetReceived] changes links
    only: every frame of the store is still there with its header,
    payload and RSSI. *)
Lemma packetReceived_frames fuel w w' p l dl :
  queues w (p :: l) dl -> (length dl <= fuel)%nat -> (length dl <= 4)%nat ->
  MicroBitMeshRadioDatagram_packetReceived fuel w = Ok w' ->
  forall a f, World.heap w !! a = Some f ->
    exists g, World.heap w' !! a = Some g /\
              SequencedFrameBuffer.set_next None g = SequencedFrameBuffer.set_next None f.
Proof.
  intros (Hl & Hdl & Hdisj) Hfuel Hroom Hrun a f0 Ha.
  pose proof (chain_NoDup _ _ _ Hl) as Hnd. apply NoDup_cons in Hnd as [Hpl _].
  assert (p ∉ dl) as Hpdl by (apply Hdisj; left).
  destruct Hl as [Hq (f & Hf & Hl)].
  destruct (recv_head w p f Hq Hf) as (w1 & Hrecv & Hh1 & Hq1 & Hqd1 & Hd1 & Hb1).
  unfold MicroBitMeshRadioDatagram_packetReceived in Hrun.
  rewrite Hrecv, bind_Ok in Hrun.
  erewrite load_eq in Hrun by (rewrite Hh1; exact Hf). rewrite bind_Ok in Hrun.
  set (fp := SequencedFrameBuffer.set_next None f) in *. set (w2 := store p fp w1) in *.
  assert (World.heap w2 = <[p := fp]> (World.heap w)) as Hh2 by (simpl; by rewrite Hh1).
  assert (datagram_queue w2 dl) as Hdl2.
  { unfold datagram_queue. simpl. rewrite Hh1, Hd1. by apply chain_insert_notin. }
  simpl World.datagram in Hrun. rewrite Hd1 in Hrun.
  unfold datagram_queue in Hdl.
  destruct dl as [|q dl'].
  - simpl in Hdl. rewrite Hdl in Hrun. injection Hrun as <-. simpl. rewrite Hh1.
    destruct (decide (a = p)) as [-> |].
    + rewrite lookup_insert_eq. rewrite Hf in Ha. injection Ha as <-.
      eexists. split; [done |]. apply set_next_set_next.
    + rewrite lookup_insert_ne by done. eauto.
  - pose proof Hdl as [Hdq _]. rewrite Hdq in Hrun.
    unfold datagram_queue in Hdl2. simpl World.datagram in Hdl2. rewrite Hd1, Hdq in Hdl2.
    destruct (walk_and_count_chain w2 (q :: dl') fuel q 0 Hdl2 Hfuel) as (t & Hlast & Hwalk).
    rewrite Hwalk, bind_Ok in Hrun. unfold MICROBIT_MESH_RADIO_MAXIMUM_RX_BUFFERS in Hrun.
    pose proof (last_elem_of _ _ Hlast) as Htdl.
    assert (t ≠ p) as Htp by (intros ->; done).
    destruct (Z.leb_spec 4 (0 + Z.of_nat (length (q :: dl')) - 1)) as [Hfull | _]; [lia |].
    destruct (chain_live _ _ _ t Hdl2 Htdl) as [ft Hft].
    rewrite (load_eq _ _ _ Hft), bind_Ok in Hrun. injection Hrun as <-. simpl.
    rewrite Hh1. rewrite Hh2, lookup_insert_ne in Hft by done.
    destruct (decide (a = t)) as [-> |].
    + rewrite lookup_insert_eq. rewrite Hft in Ha. injection Ha as <-.
      eexists. split; [done |]. apply set_next_set_next.
    + rewrite lookup_insert_ne by done. destruct (decide (a = p)) as [-> |].
      * rewrite lookup_insert_eq. rewrite Hf in Ha. injection Ha as <-.
        eexists. split; [done |]. apply set_next_set_next.
      * rewrite lookup_insert_ne by done. eauto.
Qed.

(** The drain of a Receive Queue of datagrams into a datagram queue with
    room: the frames are appended in order, one event each, and only
    links change in the store. *)
Lemma idleCallback_handover l : forall fuel w dl,
  queues w l dl ->
  (forall a f, a ∈ l -> World.heap w !! a = Some f ->
     SequencedFrameBuffer.protocol f = MICROBIT_RADIO_PROTOCOL_DATAGRAM) ->
  (length dl + length l <= 5)%nat ->
  (2 * length l + length dl + 1 <= fuel)%nat ->
  exists w',
    idleCallback fuel w = Ok w' /\
    receive_queue w' [] /\
    datagram_queue w' (dl ++ l) /\
    World.bus w'
    = World.bus w ++ repeat (DEVICE_ID_RADIO, MICROBIT_MESH_RADIO_EVT_DATAGRAM) (length l) /\
    forall a f, World.heap w !! a = Some f ->
      exists g, World.heap w' !! a = Some g /\
                SequencedFrameBuffer.set_next None g = SequencedFrameBuffer.set_next None f.
Proof.
  induction l as [|p l IH]; intros fuel w dl Hqs Hproto Hroom Hfuel;
    (destruct fuel as [|fuel]; [simpl in Hfuel; lia |]).
  - destruct Hqs as (Hl & Hdl & _). pose proof Hl as Hnil.
    unfold receive_queue in Hnil. simpl in Hnil.
    exists w. simpl. rewrite Hnil, !app_nil_r. repeat split; eauto.
  - pose proof Hqs as (Hl & Hdl & Hdisj). simpl in Hfuel, Hroom.
    pose proof (chain_NoDup _ _ _ Hl) as Hnd. apply NoDup_cons in Hnd as [Hpl _].
    pose proof Hl as [Hq (f & Hf & Hl')].
    assert (SequencedFrameBuffer.protocol f = MICROBIT_RADIO_PROTOCOL_DATAGRAM) as Hd
      by (apply (Hproto p); [left | done]).
    destruct (packetReceived_spec fuel w p l dl Hqs) as (w1 & Hrun & Hl1 & _ & Hcases);
      [lia |].
    destruct Hcases as [(_ & Hdl1 & Hbus1) | (? & _)]; [| lia].
    pose proof (packetReceived_frames fuel w w1 p l dl Hqs ltac:(lia) ltac:(lia) Hrun)
      as Hframes.
    assert (idleCallback_body fuel p w = Ok w1) as Hbody.
    { unfold idleCallback_body. rewrite (load_eq _ _ _ Hf), bind_Ok.
      apply Z.eqb_eq in Hd. rewrite Hd, Hrun, bind_Ok.
      destruct (decide (MicroBitMeshRadio.rxQueue (World.radio w1) = Some p)) as [Heq | _];
        [| done].
      by destruct (chain_head_ne _ p _ l Hpl Hl1). }
    assert (queues w1 l (dl ++ [p])) as Hqs1.
    { repeat split; try done. intros a Ha Hin. apply elem_of_app in Hin as [Hin | Hin].
      - apply (Hdisj a); [by right | done].
      - apply list_elem_of_singleton in Hin. by subst. }
    destruct (IH fuel w1 (dl ++ [p]) Hqs1) as (w' & Hrest & Hl2 & Hdl2 & Hbus2 & Hframes2).
    + intros a g Ha Hg.
      destruct (chain_live _ _ _ a Hl ltac:(by right)) as [f0 Hf0].
      destruct (Hframes a f0 Hf0) as (g' & Hg' & Hsame).
      rewrite Hg in Hg'. injection Hg' as <-.
      rewrite <- (Hproto a f0 ltac:(by right) Hf0).
      change (SequencedFrameBuffer.protocol (SequencedFrameBuffer.set_next None g)
              = SequencedFrameBuffer.protocol (SequencedFrameBuffer.set_next None f0)).
      by rewrite Hsame.
    + rewrite length_app. simpl. lia.
    + rewrite length_app. simpl. lia.
    + exists w'. simpl idleCallback. rewrite Hq, Hbody, bind_Ok.
      split; [done |]. split; [done |]. split; [by rewrite <- app_assoc in Hdl2 |].
      split.
      * rewrite Hbus2, Hbus1, <- app_assoc. done.
      * intros a f0 Hf0. destruct (Hframes a f0 Hf0) as (g & Hg & Hsame).
        destruct (Hframes2 a g Hg) as (g2 & Hg2 & Hsame2).
        exists g2. split; [done |]. congruence.
Qed.

(** X21.  Datagrams are handed over in arrival order.  When every frame
    waiting in the Receive Queue is a datagram and the datagram queue has
    room for them all, [idleCallback] empties the Receive Queue, leaves
    the datagram queue as its old frames followed by the new ones in the
    order they were received, raises one datagram event per frame, and
    keeps the header, payload and RSSI of every frame in the store. *)
Theorem idleCallback_hands_over_datagrams l fuel w dl :
  queues w l dl ->
  (forall a f, a ∈ l -> World.heap w !! a = Some f ->
     SequencedFrameBuffer.protocol f = MICROBIT_RADIO_PROTOCOL_DATAGRAM) ->
  (length dl + length l <= 5)%nat ->
  (2 * length l + length dl + 1 <= fuel)%nat ->
  exists w',
    idleCallback fuel w = Ok w' /\
    receive_queue w' [] /\
    datagram_queue w' (dl ++ l) /\
    World.bus w'
    = World.bus w ++ repeat (DEVICE_ID_RADIO, MICROBIT_MESH_RADIO_EVT_DATAGRAM) (length l) /\
    forall a f, World.heap w !! a = Some f ->
      exists g, World.heap w' !! a = Some g /\
                SequencedFrameBuffer.set_next None g = SequencedFrameBuffer.set_next None f.
Proof. apply idleCallback_handover. Qed.

(** X22.  The oldest datagram is read first, across both queues.  With
    an empty datagram queue and datagrams [p :: l] waiting in the
    Receive Queue, [idleCallback] followed by the datagram [recv] copies
    the payload bytes of [p], as many as [len] allows, to the front of
    the caller's array, releases [p], and leaves the later frames [l]
    queued in their order. *)
Theorem datagram_recv_oldest_first fuel dst len w p l f :
  queues w (p :: l) [] ->
  (forall a f, a ∈ p :: l -> World.heap w !! a = Some f ->
     SequencedFrameBuffer.protocol f = MICROBIT_RADIO_PROTOCOL_DATAGRAM) ->
  (length (p :: l) <= 5)%nat ->
  (2 * length (p :: l) + 1 <= fuel)%nat ->
  World.heap w !! p = Some f ->
  3 <= SequencedFrameBuffer.length f ->
  SequencedFrameBuffer.length f - 3
  <= Z.of_nat (length (SequencedFrameBuffer.payload f)) < 2 ^ 32 ->
  0 <= len <= Z.of_nat (length dst) ->
  exists w1 w2,
    let k := Z.min len (SequencedFrameBuffer.length f - 3) in
    idleCallback fuel w = Ok w1 /\
    MicroBitMeshRadioDatagram_recv (Some dst) len w1
    = Ok (k, Some (Ok (firstn (Z.to_nat k) (SequencedFrameBuffer.payload f)
                         ++ skipn (Z.to_nat k) dst)), w2) /\
    World.heap w2 !! p = None /\
    datagram_queue w2 l.
Proof.
  intros Hqs Hproto Hroom Hfuel Hf Hlength Hpayload Hlen.
  destruct (idleCallback_handover (p :: l) fuel w [] Hqs Hproto)
    as (w1 & Hrun & _ & Hdl & _ & Hframes); [simpl in *; lia | simpl in *; lia |].
  destruct (Hframes p f Hf) as (g & Hg & Hsame).
  pose proof (chain_NoDup _ _ _ Hdl) as Hnd. apply NoDup_cons in Hnd as [Hpl _].
  destruct Hdl as [Hq (g' & Hg' & Hdl)]. rewrite Hg in Hg'. injection Hg' as <-.
  assert (SequencedFrameBuffer.length g = SequencedFrameBuffer.length f) as Hlg
    by (change (SequencedFrameBuffer.length (SequencedFrameBuffer.set_next None g)
                = SequencedFrameBuffer.length (SequencedFrameBuffer.set_next None f));
        by rewrite Hsame).
  assert (SequencedFrameBuffer.payload g = SequencedFrameBuffer.payload f) as Hpg
    by (change (SequencedFrameBuffer.payload (SequencedFrameBuffer.set_next None g)
                = SequencedFrameBuffer.payload (SequencedFrameBuffer.set_next None f));
        by rewrite Hsame).
  exists w1. eexists. cbv zeta. split; [done |].
  rewrite (MicroBitMeshRadioDatagram_recv_head dst len w1 p g Hq Hg) by lia.
  rewrite Hlg, Hpg.
  assert (min len (SequencedFrameBuffer.length f - 3)
          = Z.min len (SequencedFrameBuffer.length f - 3)) as ->.
  { unfold min. destruct (Z.ltb_spec len (SequencedFrameBuffer.length f - 3)); lia. }
  rewrite memcpy_in_range by lia.
  split; [reflexivity |]. split.
  - simpl. apply lookup_delete_eq.
  - unfold datagram_queue. simpl. by apply chain_delete_notin.
Qed.

End Handover.

(** ** The further properties at concrete machines *)

(** The first [enable()] after construction, the buffer at address 1. *)
Lemma enable_first_boot :
  exists w',
    enable 32 (Some 1%positive) Example.boot = Ok (DEVICE_OK, w') /\
    initialised w' = true /\
    has_status DEVICE_COMPONENT_STATUS_IDLE_TICK w' = true /\
    getRxBuf w' = Some 1%positive /\
    World.heap w' = <[1%positive := zero_frame 32]> (World.heap Example.boot) /\
    NRF.RADIO_PACKETPTR (World.nrf w') = Some 1%positive /\
    NRF.RADIO_PREFIX0 (World.nrf w') = MicroBitMeshRadio.group (World.radio Example.boot) /\
    NRF.RADIO_IRQ (World.nrf w') = true /\
    last (NRF.tasks (World.nrf w')) = Some RADIO_TASKS_START /\
    MicroBitMeshRadio.rxQueue (World.radio w') = MicroBitMeshRadio.rxQueue (World.radio
      Example.boot) /\
    dataReady w' = dataReady Example.boot.
Proof.
  apply (enable_first 32 1%positive Example.boot); reflexivity.
Defined.

(** A second [enable()] that would find no memory. *)
Lemma enable_idempotent_enabled :
  enable 32 None Example.enabled = Ok (DEVICE_OK, Example.enabled).
Proof.
  apply (enable_idempotent 32 (Some 1%positive) None Example.boot Example.enabled).
  vm_compute; reflexivity.
Defined.

(** The first [enable()] after construction, without memory and with
    any answer of the allocator. *)
Lemma enable_allocation_failure_boot :
  enable 32 None Example.boot = Undefined /\
  forall alloc r w',
    enable 32 alloc Example.boot = Ok (r, w') ->
    r = DEVICE_OK /\ r <> DEVICE_NO_RESOURCES /\
    (exists a, alloc = Some a /\ getRxBuf w' = Some a /\ initialised w' = true).
Proof.
  apply (enable_allocation_failure 32 Example.boot); reflexivity.
Defined.

(** [disable()] of the enabled radio. *)
Lemma disable_initialised_enabled :
  exists w',
    disable Example.enabled = (DEVICE_OK, w') /\
    initialised w' = false /\
    has_status DEVICE_COMPONENT_STATUS_IDLE_TICK w' = false /\
    (forall flag,
       Z.land flag (Z.lor DEVICE_COMPONENT_STATUS_IDLE_TICK
                      MICROBIT_RADIO_STATUS_INITIALISED) = 0 ->
       Z.land (MicroBitMeshRadio.status (World.radio w')) flag
       = Z.land (MicroBitMeshRadio.status (World.radio Example.enabled)) flag) /\
    NRF.RADIO_IRQ (World.nrf w') = false /\
    last (NRF.tasks (World.nrf w')) = Some RADIO_TASKS_DISABLE /\
    radio_view w' = radio_view Example.enabled /\
    MicroBitMeshRadio.band (World.radio w') = MicroBitMeshRadio.band (World.radio Example.enabled)
      /\
    MicroBitMeshRadio.power (World.radio w') = MicroBitMeshRadio.power (World.radio
      Example.enabled) /\
    MicroBitMeshRadio.group (World.radio w') = MicroBitMeshRadio.group (World.radio
      Example.enabled) /\
    World.datagram w' = World.datagram Example.enabled.
Proof.
  apply (disable_initialised Example.enabled); reflexivity.
Defined.

(** [disable()] and [enable()] of the enabled radio, without memory. *)
Lemma enable_after_disable_enabled :
  exists w',
    enable 32 None (snd (disable Example.enabled)) = Ok (DEVICE_OK, w') /\
    World.radio w' = World.radio Example.enabled /\
    World.heap w' = World.heap Example.enabled /\
    NRF.RADIO_PACKETPTR (World.nrf w') = Some 1%positive /\
    NRF.RADIO_IRQ (World.nrf w') = true.
Proof.
  apply (enable_after_disable 32 None Example.enabled 1%positive); reflexivity.
Defined.

(** The enabled radio sleeps and wakes, without memory. *)
Lemma setSleep_round_trip_enabled :
  exists w1 w2,
    setSleep 32 true None Example.enabled = Ok (DEVICE_OK, w1) /\
    initialised w1 = false /\
    NRF.RADIO_IRQ (World.nrf w1) = false /\
    setSleep 32 false None w1 = Ok (DEVICE_OK, w2) /\
    World.radio w2 = World.radio Example.enabled /\
    World.heap w2 = World.heap Example.enabled /\
    NRF.RADIO_IRQ (World.nrf w2) = true.
Proof.
  apply (setSleep_round_trip 32 None None Example.enabled 1%positive); reflexivity.
Defined.

(** A radio that was never enabled sleeps and wakes. *)
Lemma setSleep_round_trip_irq_idle :
  exists w1 w2,
    setSleep 32 true None Scenario.idle_with_irq = Ok (DEVICE_OK, w1) /\
    NRF.RADIO_IRQ (World.nrf w1) = false /\
    has_status MICROBIT_RADIO_STATUS_DEEPSLEEP_IRQ w1 = true /\
    setSleep 32 false None w1 = Ok (DEVICE_OK, w2) /\
    World.radio w2 = World.radio Scenario.idle_with_irq /\
    World.heap w2 = World.heap Scenario.idle_with_irq /\
    NRF.RADIO_IRQ (World.nrf w2) = true.
Proof.
  apply (setSleep_round_trip_irq 32 None None Scenario.idle_with_irq); reflexivity.
Defined.

(** The sleeping radio is told to sleep again. *)
Lemma setSleep_sleep_idempotent_enabled :
  setSleep 32 true None Scenario.asleep = Ok (DEVICE_OK, Scenario.asleep).
Proof.
  apply (setSleep_sleep_idempotent 32 None None Example.enabled DEVICE_OK Scenario.asleep).
  vm_compute; reflexivity.
Defined.

(** The lowest and the highest of eight levels. *)
Lemma setTransmitPower_levels_0_and_7 :
  (exists t1 t2,
     setTransmitPower 8 0 Example.boot Scenario.tuner = Ok (DEVICE_OK, with_radio (set_power 0)
       Example.boot, t1) /\
     setTransmitPower 8 7 Example.boot Scenario.tuner = Ok (DEVICE_OK, with_radio (set_power 7)
       Example.boot, t2) /\
     MICROBIT_RADIO_POWER_LEVEL !! Z.to_nat 0 = Some (Tuner.RADIO_TXPOWER t1) /\
     MICROBIT_RADIO_POWER_LEVEL !! Z.to_nat 7 = Some (Tuner.RADIO_TXPOWER t2) /\
     int8_t (Tuner.RADIO_TXPOWER t1) < int8_t (Tuner.RADIO_TXPOWER t2) /\
     Tuner.RADIO_FREQUENCY t1 = Tuner.RADIO_FREQUENCY Scenario.tuner /\
     Tuner.RADIO_FREQUENCY t2 = Tuner.RADIO_FREQUENCY Scenario.tuner) /\
  (forall bad, bad < 0 \/ 8 <= bad ->
     setTransmitPower 8 bad Example.boot Scenario.tuner = Ok (DEVICE_INVALID_PARAMETER,
       Example.boot, Scenario.tuner)).
Proof.
  apply (setTransmitPower_levels 8 0 7 Example.boot Scenario.tuner); lia.
Defined.

(** The enabled radio is tuned to band 7. *)
Lemma setFrequencyBand_tunes_band_7 :
  exists w' t',
    setFrequencyBand 7 Example.enabled Scenario.tuner = (DEVICE_OK, w', t') /\
    MicroBitMeshRadio.band (World.radio w') = 7 /\
    Tuner.RADIO_TXPOWER t' = Tuner.RADIO_TXPOWER Scenario.tuner /\
    radio_view w' = radio_view Example.enabled /\
    (initialised Example.enabled = true -> Tuner.RADIO_FREQUENCY t' = 7) /\
    (initialised Example.enabled = true -> Tuner.RADIO_FREQUENCY Scenario.tuner = 7 ->
     World.nrf w' = World.nrf Example.enabled) /\
    (initialised Example.enabled = true -> Tuner.RADIO_FREQUENCY Scenario.tuner <> 7 ->
     NRF.RADIO_IRQ (World.nrf w') = true /\
     NRF.tasks (World.nrf w')
     = NRF.tasks (World.nrf Example.enabled) ++ [RADIO_TASKS_DISABLE; RADIO_TASKS_RXEN;
       RADIO_TASKS_START]) /\
    (initialised Example.enabled = false -> t' = Scenario.tuner /\ World.nrf w' = World.nrf
      Example.enabled).
Proof.
  apply (setFrequencyBand_tunes 7 Example.enabled Scenario.tuner); [reflexivity | lia].
Defined.

(** The radio sends the frame that waits at address 1 of its store. *)
Lemma send_transmits_queued1 :
  exists w',
    let stamped :=
      SequencedFrameBuffer.set_seqNo
        (uint8_t (MicroBitMeshRadio.currentSeqNo (World.radio Example.queued1) + 1))
        (Example.wire 13 7 1) in
    send 32 (Some (in_store 1%positive)) Example.queued1 = Ok (DEVICE_OK, w') /\
    MicroBitMeshRadio.currentSeqNo (World.radio w')
    = MicroBitMeshRadio.currentSeqNo (World.radio Example.queued1) + 1 /\
    World.air w' = World.air Example.queued1 ++ [stamped] /\
    World.heap w' = <[1%positive := stamped]> (World.heap Example.queued1) /\
    NRF.tasks (World.nrf w')
    = NRF.tasks (World.nrf Example.queued1) ++
      [RADIO_TASKS_DISABLE; RADIO_TASKS_TXEN; RADIO_TASKS_START;
       RADIO_TASKS_DISABLE; RADIO_TASKS_RXEN; RADIO_TASKS_START] /\
    NRF.RADIO_PACKETPTR (World.nrf w') = getRxBuf Example.queued1 /\
    NRF.RADIO_IRQ (World.nrf w') = true /\
    MicroBitMeshRadio.rxQueue (World.radio w')
    = MicroBitMeshRadio.rxQueue (World.radio Example.queued1) /\
    dataReady w' = dataReady Example.queued1 /\
    getRxBuf w' = getRxBuf Example.queued1 /\
    World.datagram w' = World.datagram Example.queued1 /\
    World.ble w' = false /\
    MicroBitMeshRadio.blockTransmit (World.radio w') = false.
Proof.
  apply (send_transmits 32 (in_store 1%positive) (Example.wire 13 7 1) Example.queued1);
    [reflexivity | reflexivity | vm_compute; reflexivity | simpl; lia |].
  change (MicroBitMeshRadio.currentSeqNo (World.radio Example.queued1)) with 0. lia.
Defined.

(** The radio sends the frame at address 1 of its store and then a frame
    of the caller. *)
Lemma send_consecutive_queued1 :
  exists w1 w2,
    let n1 := uint8_t (MicroBitMeshRadio.currentSeqNo (World.radio Example.queued1) + 1) in
    let n2 := (n1 + 1) mod 256 in
    send 32 (Some (in_store 1%positive)) Example.queued1 = Ok (DEVICE_OK, w1) /\
    send 32 (Some (outside_store (Scenario.datagram [33] 0))) w1 = Ok (DEVICE_OK, w2) /\
    World.air w2
    = World.air Example.queued1 ++
      [SequencedFrameBuffer.set_seqNo n1 (Example.wire 13 7 1);
       SequencedFrameBuffer.set_seqNo n2 (Scenario.datagram [33] 0)] /\
    MicroBitMeshRadio.currentSeqNo (World.radio w2)
    = MicroBitMeshRadio.currentSeqNo (World.radio Example.queued1) + 2 /\
    0 <= n1 < 256.
Proof.
  apply (send_consecutive 32 (in_store 1%positive) (outside_store (Scenario.datagram [33] 0))
           (Example.wire 13 7 1) (Scenario.datagram [33] 0) Example.queued1).
  - reflexivity.
  - reflexivity.
  - vm_compute; reflexivity.
  - reflexivity.
  - intros p _ Hsame. discriminate Hsame.
  - simpl; lia.
  - simpl; lia.
  - change (MicroBitMeshRadio.currentSeqNo (World.radio Example.queued1)) with 0. lia.
Defined.

(** A datagram of 33 bytes on a radio with a payload capacity of 32. *)
Lemma datagram_send_overruns_payload_33_bytes :
  exists buf,
    MicroBitMeshRadioDatagram_send_frame (zero_frame 32) (repeat 7 33) 33 = Ok buf /\
    SequencedFrameBuffer.payload buf = firstn (Z.to_nat 32) (repeat 7 33) /\
    SequencedFrameBuffer.length buf = 33 + 3 /\
    32 + 3 < SequencedFrameBuffer.length buf /\
    MicroBitMeshRadioDatagram_send 32 (zero_frame 32) (Some (repeat 7 33)) 33 Example.enabled
    = Ok (if World.ble Example.enabled then DEVICE_NOT_SUPPORTED
          else DEVICE_INVALID_PARAMETER, Example.enabled).
Proof.
  apply (datagram_send_overruns_payload 32 (zero_frame 32) (repeat 7 33) 33 Example.enabled);
    [lia | lia | reflexivity | simpl; lia].
Defined.

(** A datagram of two bytes read into an array of four. *)
Lemma datagram_recv_copies_min_handed_over :
  exists out w',
    let k := Z.min 4 (SequencedFrameBuffer.length Scenario.first_datagram - 3) in
    MicroBitMeshRadioDatagram_recv (Some [9; 9; 9; 9]) 4 Scenario.handed_over = Ok (k, Some (Ok
      out), w') /\
    out = firstn (Z.to_nat k) (SequencedFrameBuffer.payload Scenario.first_datagram) ++ skipn
      (Z.to_nat k) [9; 9; 9; 9] /\
    length out = length [9; 9; 9; 9] /\
    MicroBitMeshRadioDatagram.rxQueue (World.datagram w') = SequencedFrameBuffer.next
      Scenario.first_datagram /\
    World.heap w' = delete 1%positive (World.heap Scenario.handed_over).
Proof.
  apply (datagram_recv_copies_min [9; 9; 9; 9] 4 Scenario.handed_over 1%positive
           Scenario.first_datagram);
    [reflexivity | vm_compute; reflexivity | simpl; lia | simpl; lia | simpl; lia].
Defined.

(** A third frame is queued behind two, and the first is handed out. *)
Lemma queueRxBuf_then_recv_queued2 :
  exists w1 w2,
    queueRxBuf 32 2%nat (Some 9%positive) Example.queued2 = Ok (DEVICE_OK, w1) /\
    recv w1 = Ok (head ([1; 2]%positive ++ [3%positive]), w2) /\
    receive_queue w2 (tail ([1; 2]%positive ++ [3%positive])) /\
    dataReady w2 = dataReady Example.queued2 /\
    getRxBuf w2 = Some 9%positive.
Proof.
  apply (queueRxBuf_then_recv 32 2%nat 9%positive Example.queued2 [1; 2]%positive 3%positive).
  - apply (radio_inv_intro _ _ 3%positive (zero_frame 32)).
    + unfold receive_queue. solve_chain.
    + reflexivity.
    + unfold MICROBIT_RADIO_MAXIMUM_RX_BUFFERS. simpl; lia.
    + reflexivity.
    + vm_compute; reflexivity.
    + rewrite !elem_of_cons, elem_of_nil. lia.
  - reflexivity.
  - unfold MICROBIT_RADIO_MAXIMUM_RX_BUFFERS. simpl; lia.
  - reflexivity.
  - simpl; lia.
Defined.

(** A frame numbered 9 with a bad checksum, behind one frame queued. *)
Lemma mesh_RADIO_IRQHandler_queues_bad_frame_9 :
  exists w',
    mesh_RADIO_IRQHandler 32 1%nat (Some 9%positive) Scenario.bad_checksum = Ok w' /\
    receive_queue w' ([1%positive] ++ [2%positive]) /\
    World.heap w' !! 2%positive
    = Some (SequencedFrameBuffer.set_next None (SequencedFrameBuffer.set_rssi 0 (Example.wire 13 1
      9))) /\
    dataReady w' = dataReady Scenario.bad_checksum + 1 /\
    getRxBuf w' = Some 9%positive /\
    NRF.RADIO_PACKETPTR (World.nrf w') = Some 9%positive /\
    MicroBitMeshRadio.blockTransmit (World.radio w') = false /\
    firstn 6 (skipn (length (NRF.tasks (World.nrf Scenario.bad_checksum))) (NRF.tasks (World.nrf
      w')))
    = [TIMER0_TASKS_CLEAR; TIMER0_TASKS_START;
       TIMER0_TASKS_STOP; TIMER0_TASKS_CLEAR; RADIO_TASKS_DISABLE; RADIO_TASKS_START].
Proof.
  apply (mesh_RADIO_IRQHandler_queues_bad_frame 32 1%nat 9%positive Scenario.bad_checksum
           [1%positive] 2%positive (Example.wire 13 1 9)).
  - apply (radio_inv_intro _ _ 2%positive (Example.wire 13 1 9)).
    + unfold receive_queue. solve_chain.
    + reflexivity.
    + unfold MICROBIT_RADIO_MAXIMUM_RX_BUFFERS. simpl; lia.
    + reflexivity.
    + vm_compute; reflexivity.
    + rewrite !elem_of_cons, elem_of_nil. lia.
  - reflexivity.
  - reflexivity.
  - vm_compute; reflexivity.
  - unfold MICROBIT_RADIO_MAXIMUM_RX_BUFFERS. simpl; lia.
  - reflexivity.
  - simpl; lia.
  - simpl; lia.
  - simpl; lia.
Defined.

(** The guard timer fires with one frame queued. *)
Lemma mesh_TIMER0_IRQHandler_queues_queued1 :
  exists w',
    mesh_TIMER0_IRQHandler 32 1%nat (Some 9%positive) (Scenario.timer_fired Example.queued1) = Ok
      w' /\
    receive_queue w' ([1%positive] ++ [2%positive]) /\
    World.heap w' !! 2%positive
    = Some (SequencedFrameBuffer.set_next None
              (SequencedFrameBuffer.set_rssi (MicroBitMeshRadio.rssi (World.radio
                (Scenario.timer_fired Example.queued1))) (zero_frame 32))) /\
    dataReady w' = dataReady (Scenario.timer_fired Example.queued1) + 1 /\
    getRxBuf w' = Some 9%positive /\
    NRF.RADIO_PACKETPTR (World.nrf w') = Some 9%positive /\
    NRF.TIMER0_EVENTS_COMPARE0 (World.nrf w') = 0 /\
    NRF.tasks (World.nrf w') = NRF.tasks (World.nrf (Scenario.timer_fired Example.queued1)) ++
      [RADIO_TASKS_START] /\
    MicroBitMeshRadio.blockTransmit (World.radio w') = false.
Proof.
  apply (mesh_TIMER0_IRQHandler_queues 32 1%nat 9%positive (Scenario.timer_fired Example.queued1)
           [1%positive] 2%positive (zero_frame 32)).
  - apply (radio_inv_intro _ _ 2%positive (zero_frame 32)).
    + unfold receive_queue. solve_chain.
    + reflexivity.
    + unfold MICROBIT_RADIO_MAXIMUM_RX_BUFFERS. simpl; lia.
    + reflexivity.
    + vm_compute; reflexivity.
    + rewrite !elem_of_cons, elem_of_nil. lia.
  - reflexivity.
  - reflexivity.
  - vm_compute; reflexivity.
  - unfold MICROBIT_RADIO_MAXIMUM_RX_BUFFERS. simpl; lia.
  - reflexivity.
  - simpl; lia.
  - simpl; lia.
Defined.

(** The guard timer fires on a full queue. *)
Lemma mesh_TIMER0_IRQHandler_unblocks_queued4 :
  exists w',
    mesh_TIMER0_IRQHandler 32 0%nat None (Scenario.timer_fired Example.queued4) = Ok w' /\
    NRF.TIMER0_EVENTS_COMPARE0 (World.nrf w') = 0 /\
    NRF.RADIO_PACKETPTR (World.nrf w') = getRxBuf w' /\
    NRF.tasks (World.nrf w')
    = NRF.tasks (World.nrf (Scenario.timer_fired Example.queued4)) ++ [RADIO_TASKS_START] /\
    MicroBitMeshRadio.blockTransmit (World.radio w') = false /\
    receive_queue w' [1; 2; 3; 4]%positive /\
    dataReady w' = dataReady (Scenario.timer_fired Example.queued4) /\
    getRxBuf w' = getRxBuf (Scenario.timer_fired Example.queued4) /\
    World.heap w' = World.heap (Scenario.timer_fired Example.queued4).
Proof.
  apply (mesh_TIMER0_IRQHandler_unblocks 32 0%nat None
           (Scenario.timer_fired Example.queued4) [1; 2; 3; 4]%positive).
  - apply (radio_inv_intro _ _ 5%positive (zero_frame 32)).
    + unfold receive_queue. solve_chain.
    + reflexivity.
    + unfold MICROBIT_RADIO_MAXIMUM_RX_BUFFERS. simpl; lia.
    + reflexivity.
    + vm_compute; reflexivity.
    + rewrite !elem_of_cons, elem_of_nil. lia.
  - reflexivity.
  - simpl; lia.
Defined.

(** The transmitter of the enabled radio has become ready. *)
Lemma mesh_RADIO_IRQHandler_turnaround_tx_ready :
  exists w',
    let rx := negb (NRF.RADIO_EVENTS_RXREADY (World.nrf Scenario.tx_ready) =? 0) in
    mesh_RADIO_IRQHandler 32 0%nat None Scenario.tx_ready = Ok w' /\
    NRF.RADIO_EVENTS_TXREADY (World.nrf w') = 0 /\
    NRF.RADIO_EVENTS_RXREADY (World.nrf w') = 0 /\
    Z.testbit (NRF.RADIO_SHORTS (World.nrf w')) 2 = rx /\
    Z.testbit (NRF.RADIO_SHORTS (World.nrf w')) 3 = negb rx /\
    (forall i, 0 <= i -> i <> 2 -> i <> 3 ->
       Z.testbit (NRF.RADIO_SHORTS (World.nrf w')) i
       = Z.testbit (NRF.RADIO_SHORTS (World.nrf Scenario.tx_ready)) i) /\
    NRF.tasks (World.nrf w')
    = NRF.tasks (World.nrf Scenario.tx_ready) ++ (if rx then [RADIO_TASKS_START] else []) /\
    World.radio w' = World.radio Scenario.tx_ready /\
    World.heap w' = World.heap Scenario.tx_ready.
Proof.
  apply (mesh_RADIO_IRQHandler_turnaround 32 0%nat None Scenario.tx_ready).
  - reflexivity.
  - left. simpl; lia.
Defined.

(** Two datagrams are handed to an empty datagram queue. *)
Lemma idleCallback_hands_over_two_datagrams :
  exists w',
    idleCallback 5%nat Scenario.two_datagrams = Ok w' /\
    receive_queue w' [] /\
    datagram_queue w' ((@nil positive) ++ [1; 2]%positive) /\
    World.bus w'
    = World.bus Scenario.two_datagrams ++ repeat (DEVICE_ID_RADIO,
      MICROBIT_MESH_RADIO_EVT_DATAGRAM) (length [1; 2]%positive) /\
    forall a f, World.heap Scenario.two_datagrams !! a = Some f ->
      exists g, World.heap w' !! a = Some g /\
                SequencedFrameBuffer.set_next None g = SequencedFrameBuffer.set_next None f.
Proof.
  apply (idleCallback_hands_over_datagrams [1; 2]%positive 5%nat Scenario.two_datagrams []).
  - unfold queues, receive_queue, datagram_queue.
    split; [solve_chain | split; [solve_chain |]].
    intros a _. apply not_elem_of_nil.
  - intros a f Ha Hf. rewrite !elem_of_cons, elem_of_nil in Ha.
    destruct Ha as [-> | [-> | []]]; vm_compute in Hf; injection Hf as <-; reflexivity.
  - simpl; lia.
  - simpl; lia.
Defined.

(** Of two datagrams received, the first is read first. *)
Lemma datagram_recv_oldest_first_two_datagrams :
  exists w1 w2,
    let k := Z.min 4 (SequencedFrameBuffer.length Scenario.first_datagram - 3) in
    idleCallback 5%nat Scenario.two_datagrams = Ok w1 /\
    MicroBitMeshRadioDatagram_recv (Some [9; 9; 9; 9]) 4 w1
    = Ok (k, Some (Ok (firstn (Z.to_nat k) (SequencedFrameBuffer.payload Scenario.first_datagram)
                         ++ skipn (Z.to_nat k) [9; 9; 9; 9])), w2) /\
    World.heap w2 !! 1%positive = None /\
    datagram_queue w2 [2%positive].
Proof.
  apply (datagram_recv_oldest_first 5%nat [9; 9; 9; 9] 4 Scenario.two_datagrams 1%positive
           [2%positive] Scenario.first_datagram).
  - unfold queues, receive_queue, datagram_queue.
    split; [solve_chain | split; [solve_chain |]].
    intros a _. apply not_elem_of_nil.
  - intros a f Ha Hf. rewrite !elem_of_cons, elem_of_nil in Ha.
    destruct Ha as [-> | [-> | []]]; vm_compute in Hf; injection Hf as <-; reflexivity.
  - simpl; lia.
  - simpl; lia.
  - vm_compute; reflexivity.
  - simpl; lia.
  - simpl; lia.
  - simpl; lia.
Defined.
